(** * Papaya: the OpenGL helper layer [src/libs/gl.h]

    A shallow embedding of the functions of namespace [gl]
    ([init], [check_error], [compile_shader], [set_vertex_attribs],
    [init_quad], [transform_quad], [draw_mesh], [allocate_tex]) and of the
    helper [print_compilation_errors] over an explicit model
    of the OpenGL context they drive, followed by the properties of the
    rendering layer that are stated about them.

    - C [float] is IEEE binary32, modelled with [spec_float] at precision
      24 and maximal exponent 128; [int32]/[uint32] values are [Z] with the
      conversions between them written out.
    - The OpenGL context is a record of the pieces of global state the
      code touches, plus a log of every command issued.  The driver may
      reject any command: the [fault] function of the driver record names
      the error it raises on the k-th command.  A rejected command leaves
      the context unchanged and only records its error code.
    - The C functions are written in a state monad over the context and
      standard output whose failure ([None]) stands for behaviour the
      language leaves undefined (reading past the variadic arguments or
      past a fixed-size array). *)

From Stdlib Require Import ZArith QArith Qpower Lqa Lia List String Ascii SpecFloat.
From Stdlib Require Import DecimalString DecimalZ DecimalPos.
From stdpp Require Import gmap strings list.

Open Scope Z_scope.

(** ** Machine numbers *)

Definition to_uint32 (z : Z) : Z := z mod 2 ^ 32.
Definition to_int32 (z : Z) : Z := (z + 2 ^ 31) mod 2 ^ 32 - 2 ^ 31.

(** C [float]: IEEE binary32. *)
Definition float : Type := spec_float.
Definition fadd : float -> float -> float := SFadd 24 128.
Definition f0 : float := S754_zero false.                     (* 0.0f *)
Definition f1 : float := S754_finite false 8388608 (-23).     (* 1.0f *)
Definition f2 : float := S754_finite false 8388608 (-22).     (* 2.0f *)

(** The conversion [(float)d] of a [double] (binary64) value. *)
Definition double_to_float (d : spec_float) : float :=
  match d with
  | S754_finite s m e => binary_normalize 24 128 (cond_Zopp s (Zpos m)) e s
  | _ => d
  end.

(** The exact value of a finite float, as a rational. *)
Definition F2Q (f : float) : Q :=
  match f with
  | S754_finite s m e => (inject_Z (cond_Zopp s (Zpos m)) * Qpower 2 e)%Q
  | _ => 0%Q
  end.

Definition is_finite (f : float) : bool :=
  match f with
  | S754_finite _ _ _ | S754_zero _ => true
  | _ => false
  end.

(** ** Types of [types.h] and [imgui.h] used by the layer *)

Record Vec2 : Type := mkVec2 { vec_x : float; vec_y : float }.
Record Color : Type := mkColor { col_r : float; col_g : float; col_b : float; col_a : float }.

(** Modelled from the spec: the vertex type [ImDrawVert] is declared in
    imgui.h, which is not part of the sources at hand.  The spec fixes its
    layout: position (2 floats), texture coordinate (2 floats), packed RGBA
    colour (4 bytes), in this order. *)
Record ImDrawVert : Type := mkVert { pos : Vec2; uv : Vec2; col : Z }.

Definition sizeof_ImDrawVert : Z := 20.
Definition offsetof_pos : Z := 0.
Definition offsetof_uv : Z := 8.
Definition offsetof_col : Z := 16.

(** ** The structures of gl.h *)

Definition UniformType_Float : Z := 0.
Definition UniformType_Vec2 : Z := 1.
Definition UniformType_Matrix4 : Z := 2.
Definition UniformType_Color : Z := 3.

(** [attribs] and [uniforms] are the arrays [int32 attribs[8]] and
    [int32 uniforms[8]]: lists, of length 8 in a well-formed value. *)
Record Shader : Type := mkShader {
  handle : Z;
  attrib_count : Z;
  uniform_count : Z;
  attribs : list Z;
  uniforms : list Z
}.

Record Mesh : Type := mkMesh {
  is_line_loop : bool;
  vbo_size : Z;
  index_count : Z;
  vbo_handle : Z;
  elements_handle : Z
}.

Definition wf_shader (s : Shader) : Prop :=
  length (attribs s) = 8%nat /\ length (uniforms s) = 8%nat.

(** ** OpenGL constants (values of the OpenGL headers) *)

Definition GLenum : Type := Z.

Definition GL_NO_ERROR : GLenum := 0.
Definition GL_INVALID_ENUM : GLenum := 0x0500.
Definition GL_INVALID_VALUE : GLenum := 0x0501.
Definition GL_INVALID_OPERATION : GLenum := 0x0502.
Definition GL_STACK_OVERFLOW : GLenum := 0x0503.
Definition GL_STACK_UNDERFLOW : GLenum := 0x0504.
Definition GL_OUT_OF_MEMORY : GLenum := 0x0505.
Definition GL_INVALID_FRAMEBUFFER_OPERATION : GLenum := 0x0506.

Definition GL_FALSE : Z := 0.
Definition GL_TRUE : Z := 1.
Definition GL_LINE_LOOP : GLenum := 0x0002.
Definition GL_TRIANGLES : GLenum := 0x0004.
Definition GL_SRC_ALPHA : GLenum := 0x0302.
Definition GL_ONE_MINUS_SRC_ALPHA : GLenum := 0x0303.
Definition GL_CULL_FACE : GLenum := 0x0B44.
Definition GL_DEPTH_TEST : GLenum := 0x0B71.
Definition GL_BLEND : GLenum := 0x0BE2.
Definition GL_SCISSOR_TEST : GLenum := 0x0C11.
Definition GL_TEXTURE_2D : GLenum := 0x0DE1.
Definition GL_UNSIGNED_BYTE : GLenum := 0x1401.
Definition GL_FLOAT : GLenum := 0x1406.
Definition GL_RGBA : GLenum := 0x1908.
Definition GL_LINEAR : GLenum := 0x2601.
Definition GL_TEXTURE_MAG_FILTER : GLenum := 0x2800.
Definition GL_TEXTURE_MIN_FILTER : GLenum := 0x2801.
Definition GL_FUNC_ADD : GLenum := 0x8006.
Definition GL_RGBA8 : GLenum := 0x8058.
Definition GL_TEXTURE_BINDING_2D : GLenum := 0x8069.
Definition GL_ARRAY_BUFFER : GLenum := 0x8892.
Definition GL_ARRAY_BUFFER_BINDING : GLenum := 0x8894.
Definition GL_FRAGMENT_SHADER : GLenum := 0x8B30.
Definition GL_VERTEX_SHADER : GLenum := 0x8B31.
Definition GL_COMPILE_STATUS : GLenum := 0x8B81.
Definition GL_CURRENT_PROGRAM : GLenum := 0x8B8D.

(** ** The OpenGL commands the layer issues *)

Inductive GLCall : Type :=
| GetIntegerv (pname : GLenum)
| Enable (cap : GLenum)
| Disable (cap : GLenum)
| BlendEquation (mode : GLenum)
| BlendFunc (sfactor dfactor : GLenum)
| BindBuffer (target : GLenum) (buffer : Z)
| UseProgram (program : Z)
| Uniform1f (location : Z) (v0 : float)
| Uniform2f (location : Z) (v0 v1 : float)
| Uniform4f (location : Z) (v0 v1 v2 v3 : float)
| UniformMatrix4fv (location : Z) (count : Z) (transpose : Z) (value : list float)
| EnableVertexAttribArray (index : Z)
| VertexAttribPointer (index : Z) (size : Z) (type : GLenum) (normalized : Z)
                      (stride : Z) (pointer : Z)
| LineWidth (width : float)
| DrawArrays (mode : GLenum) (first : Z) (count : Z)
| BindTexture (target : GLenum) (texture : Z)
| GenBuffers (n : Z)
| BufferData (target : GLenum) (size : Z) (data : option (list ImDrawVert)) (usage : GLenum)
| BufferSubData (target : GLenum) (offset : Z) (size : Z) (data : list ImDrawVert)
| GenTextures (n : Z)
| TexParameteri (target : GLenum) (pname : GLenum) (param : Z)
| TexImage2D (target : GLenum) (level : Z) (internalformat : Z) (width height : Z)
             (border : Z) (format type : GLenum) (pixels : option (list Z))
| CreateProgram
| CreateShader (type : GLenum)
| ShaderSource (shader : Z) (source : string)
| CompileShader (shader : Z)
| AttachShader (program shader : Z)
| LinkProgram (program : Z)
| GetShaderiv (shader : Z) (pname : GLenum)
| GetShaderInfoLog (shader : Z) (maxLength : Z)
| GetAttribLocation (program : Z) (name : string)
| GetUniformLocation (program : Z) (name : string).

(** What a command hands back to the caller. *)
Inductive Ret : Type :=
| RVoid
| RInt (z : Z)
| RLog (s : string).

Record Event : Type := mkEvent { ev_call : GLCall; ev_error : GLenum; ev_ret : Ret }.

(** ** The driver

    Everything the layer cannot decide itself: which commands the driver
    rejects, what the GLSL compiler and linker answer, the implementation
    limit on vertex attributes, and the contents of locals that the code
    reads without having initialised them. *)
Record Driver : Type := mkDriver {
  fault : nat -> GLCall -> GLenum;
  attrib_location : Z -> string -> option N;
  uniform_location : Z -> string -> option N;
  compile_status : Z -> Z;
  info_log : Z -> string;
  max_vertex_attribs : Z;
  indeterminate : nat -> string -> Z;
  indeterminate_text : nat -> string -> string
}.

(** ** The context state *)

Record Buffer : Type := mkBuffer {
  buf_size : Z;
  buf_usage : GLenum;
  buf_data : list (option ImDrawVert)
}.

Record AttribPointer : Type := mkAttribPointer {
  ap_size : Z; ap_type : GLenum; ap_normalized : Z; ap_stride : Z; ap_offset : Z;
  ap_buffer : Z
}.

Inductive UniformValue : Type :=
| U1f (v0 : float)
| U2f (v0 v1 : float)
| U4f (v0 v1 v2 v3 : float)
| UMatrix4 (transpose : Z) (value : list float).

Record GLState : Type := mkGLState {
  current_program : Z;
  texture_binding_2d : Z;
  array_buffer_binding : Z;
  enabled : gset Z;
  blend_equation : GLenum;
  blend_func : GLenum * GLenum;
  line_width : float;
  attrib_arrays : gset Z;
  attrib_pointers : gmap Z AttribPointer;
  uniform_store : gmap (Z * Z) UniformValue;
  buffers : gmap Z Buffer;
  next_name : Z
}.

Definition set_current_program (v : Z) (s : GLState) : GLState :=
  mkGLState v (texture_binding_2d s) (array_buffer_binding s) (enabled s)
    (blend_equation s) (blend_func s) (line_width s) (attrib_arrays s)
    (attrib_pointers s) (uniform_store s) (buffers s) (next_name s).

Definition set_texture_binding_2d (v : Z) (s : GLState) : GLState :=
  mkGLState (current_program s) v (array_buffer_binding s) (enabled s)
    (blend_equation s) (blend_func s) (line_width s) (attrib_arrays s)
    (attrib_pointers s) (uniform_store s) (buffers s) (next_name s).

Definition set_array_buffer_binding (v : Z) (s : GLState) : GLState :=
  mkGLState (current_program s) (texture_binding_2d s) v (enabled s)
    (blend_equation s) (blend_func s) (line_width s) (attrib_arrays s)
    (attrib_pointers s) (uniform_store s) (buffers s) (next_name s).

Definition set_enabled (v : gset Z) (s : GLState) : GLState :=
  mkGLState (current_program s) (texture_binding_2d s) (array_buffer_binding s) v
    (blend_equation s) (blend_func s) (line_width s) (attrib_arrays s)
    (attrib_pointers s) (uniform_store s) (buffers s) (next_name s).

Definition set_blend_equation (v : GLenum) (s : GLState) : GLState :=
  mkGLState (current_program s) (texture_binding_2d s) (array_buffer_binding s) (enabled s)
    v (blend_func s) (line_width s) (attrib_arrays s)
    (attrib_pointers s) (uniform_store s) (buffers s) (next_name s).

Definition set_blend_func (v : GLenum * GLenum) (s : GLState) : GLState :=
  mkGLState (current_program s) (texture_binding_2d s) (array_buffer_binding s) (enabled s)
    (blend_equation s) v (line_width s) (attrib_arrays s)
    (attrib_pointers s) (uniform_store s) (buffers s) (next_name s).

Definition set_line_width (v : float) (s : GLState) : GLState :=
  mkGLState (current_program s) (texture_binding_2d s) (array_buffer_binding s) (enabled s)
    (blend_equation s) (blend_func s) v (attrib_arrays s)
    (attrib_pointers s) (uniform_store s) (buffers s) (next_name s).

Definition set_attrib_arrays (v : gset Z) (s : GLState) : GLState :=
  mkGLState (current_program s) (texture_binding_2d s) (array_buffer_binding s) (enabled s)
    (blend_equation s) (blend_func s) (line_width s) v
    (attrib_pointers s) (uniform_store s) (buffers s) (next_name s).

Definition set_attrib_pointers (v : gmap Z AttribPointer) (s : GLState) : GLState :=
  mkGLState (current_program s) (texture_binding_2d s) (array_buffer_binding s) (enabled s)
    (blend_equation s) (blend_func s) (line_width s) (attrib_arrays s)
    v (uniform_store s) (buffers s) (next_name s).

Definition set_uniform_store (v : gmap (Z * Z) UniformValue) (s : GLState) : GLState :=
  mkGLState (current_program s) (texture_binding_2d s) (array_buffer_binding s) (enabled s)
    (blend_equation s) (blend_func s) (line_width s) (attrib_arrays s)
    (attrib_pointers s) v (buffers s) (next_name s).

Definition set_buffers (v : gmap Z Buffer) (s : GLState) : GLState :=
  mkGLState (current_program s) (texture_binding_2d s) (array_buffer_binding s) (enabled s)
    (blend_equation s) (blend_func s) (line_width s) (attrib_arrays s)
    (attrib_pointers s) (uniform_store s) v (next_name s).

Definition set_next_name (v : Z) (s : GLState) : GLState :=
  mkGLState (current_program s) (texture_binding_2d s) (array_buffer_binding s) (enabled s)
    (blend_equation s) (blend_func s) (line_width s) (attrib_arrays s)
    (attrib_pointers s) (uniform_store s) (buffers s) v.

(** The process as the layer sees it: the driver, the number of commands
    issued so far, their log, the context's error flag, standard output
    (one entry per [printf]) and the context state. *)
Record World : Type := mkWorld {
  driver : Driver;
  clock : nat;
  trace : list Event;
  error_flag : GLenum;
  stdout : list string;
  gl_state : GLState
}.

Definition calls (w : World) : list GLCall := map ev_call (trace w).

(** ** What the driver does with an accepted command

    [gl_apply] gives the error code raised, the value handed back and the
    new context state.  A command that raises an error changes nothing.
    Buffer data stores are kept at vertex granularity (cells of
    [sizeof_ImDrawVert] bytes, [None] for a cell never written), the only
    granularity at which the layer writes them.  Shader and program objects
    are not kept: what the compiler and linker made of them is read from
    the driver record.  Texture objects (parameters and images) are not
    kept either; no property below speaks of the contents of a program, a
    shader or a texture. *)

Definition ok (s : GLState) : GLenum * Ret * GLState := (GL_NO_ERROR, RVoid, s).
Definition ok_int (z : Z) (s : GLState) : GLenum * Ret * GLState := (GL_NO_ERROR, RInt z, s).
Definition rejected (e : GLenum) (s : GLState) : GLenum * Ret * GLState := (e, RVoid, s).

Definition known_caps : list GLenum :=
  [GL_BLEND; GL_CULL_FACE; GL_DEPTH_TEST; GL_SCISSOR_TEST].

(** [glUniform*]: location -1 is silently ignored. *)
Definition upload (loc : Z) (v : UniformValue) (s : GLState) : GLenum * Ret * GLState :=
  if loc =? -1 then ok s
  else if current_program s =? 0 then rejected GL_INVALID_OPERATION s
  else ok (set_uniform_store (<[(current_program s, loc) := v]> (uniform_store s)) s).

Definition valid_attrib_index (d : Driver) (index : Z) : bool :=
  (0 <=? index) && (index <? max_vertex_attribs d).

Definition cells (bytes : Z) : nat := Z.to_nat (bytes / sizeof_ImDrawVert).

Definition store_of (n : nat) (data : option (list ImDrawVert)) : list (option ImDrawVert) :=
  match data with
  | None => replicate n None
  | Some vs => take n ((Some <$> vs) ++ replicate n None)
  end.

(** A generated name.  The model draws the names of all objects from one
    counter; OpenGL itself promises only a name that is not in use. *)
Definition fresh (s : GLState) : GLenum * Ret * GLState :=
  ok_int (next_name s) (set_next_name (next_name s + 1) s).

Definition gl_apply (d : Driver) (c : GLCall) (s : GLState) : GLenum * Ret * GLState :=
  match c with
  | GetIntegerv pname =>
      if pname =? GL_CURRENT_PROGRAM then ok_int (to_int32 (current_program s)) s
      else if pname =? GL_TEXTURE_BINDING_2D then ok_int (to_int32 (texture_binding_2d s)) s
      else if pname =? GL_ARRAY_BUFFER_BINDING then ok_int (to_int32 (array_buffer_binding s)) s
      else rejected GL_INVALID_ENUM s
  | Enable cap =>
      if bool_decide (cap ∈ known_caps) then ok (set_enabled ({[cap]} ∪ enabled s) s)
      else rejected GL_INVALID_ENUM s
  | Disable cap =>
      if bool_decide (cap ∈ known_caps) then ok (set_enabled (enabled s ∖ {[cap]}) s)
      else rejected GL_INVALID_ENUM s
  | BlendEquation mode => ok (set_blend_equation mode s)
  | BlendFunc sfactor dfactor => ok (set_blend_func (sfactor, dfactor) s)
  | BindBuffer target buffer =>
      if target =? GL_ARRAY_BUFFER then ok (set_array_buffer_binding buffer s)
      else rejected GL_INVALID_ENUM s
  | UseProgram program => ok (set_current_program program s)
  | Uniform1f loc v0 => upload loc (U1f v0) s
  | Uniform2f loc v0 v1 => upload loc (U2f v0 v1) s
  | Uniform4f loc v0 v1 v2 v3 => upload loc (U4f v0 v1 v2 v3) s
  | UniformMatrix4fv loc count transpose value =>
      if count =? 1 then upload loc (UMatrix4 transpose value) s
      else rejected GL_INVALID_VALUE s
  | EnableVertexAttribArray index =>
      if valid_attrib_index d index
      then ok (set_attrib_arrays ({[index]} ∪ attrib_arrays s) s)
      else rejected GL_INVALID_VALUE s
  | VertexAttribPointer index size type normalized stride pointer =>
      if valid_attrib_index d index
      then ok (set_attrib_pointers
                 (<[index := mkAttribPointer size type normalized stride pointer
                                             (array_buffer_binding s)]> (attrib_pointers s)) s)
      else rejected GL_INVALID_VALUE s
  | LineWidth width =>
      if SFltb f0 width then ok (set_line_width width s)
      else rejected GL_INVALID_VALUE s
  | DrawArrays mode first count =>
      if count <? 0 then rejected GL_INVALID_VALUE s else ok s
  | BindTexture target texture =>
      if target =? GL_TEXTURE_2D then ok (set_texture_binding_2d texture s)
      else rejected GL_INVALID_ENUM s
  | GenBuffers n => if n =? 1 then fresh s else rejected GL_INVALID_VALUE s
  | BufferData target size data usage =>
      if negb (target =? GL_ARRAY_BUFFER) then rejected GL_INVALID_ENUM s
      else if array_buffer_binding s =? 0 then rejected GL_INVALID_OPERATION s
      else if size <? 0 then rejected GL_INVALID_VALUE s
      else ok (set_buffers
                 (<[array_buffer_binding s := mkBuffer size usage (store_of (cells size) data)]>
                    (buffers s)) s)
  | BufferSubData target offset size data =>
      if negb (target =? GL_ARRAY_BUFFER) then rejected GL_INVALID_ENUM s
      else if array_buffer_binding s =? 0 then rejected GL_INVALID_OPERATION s
      else match buffers s !! array_buffer_binding s with
           | None => rejected GL_INVALID_VALUE s
           | Some b =>
               if (0 <=? offset) && (0 <=? size) && (offset + size <=? buf_size b)
               then ok (set_buffers
                          (<[array_buffer_binding s :=
                               mkBuffer (buf_size b) (buf_usage b)
                                 (list_inserts (cells offset) (Some <$> take (cells size) data)
                                               (buf_data b))]> (buffers s)) s)
               else rejected GL_INVALID_VALUE s
           end
  | GenTextures n => if n =? 1 then fresh s else rejected GL_INVALID_VALUE s
  | TexParameteri target pname param =>
      if target =? GL_TEXTURE_2D then ok s else rejected GL_INVALID_ENUM s
  | TexImage2D target level internalformat width height border format type pixels =>
      if (width <? 0) || (height <? 0) then rejected GL_INVALID_VALUE s else ok s
  | CreateProgram => fresh s
  | CreateShader type => fresh s
  | ShaderSource shader source => ok s
  | CompileShader shader => ok s
  | AttachShader program shader => ok s
  | LinkProgram program => ok s
  | GetShaderiv shader pname =>
      if pname =? GL_COMPILE_STATUS then ok_int (compile_status d shader) s
      else rejected GL_INVALID_ENUM s
  | GetShaderInfoLog shader maxLength =>
      (GL_NO_ERROR, RLog (substring 0 (Z.to_nat (maxLength - 1)) (info_log d shader)), s)
  | GetAttribLocation program name =>
      ok_int (match attrib_location d program name with
              | Some n => Z.of_N n
              | None => -1
              end) s
  | GetUniformLocation program name =>
      ok_int (match uniform_location d program name with
              | Some n => Z.of_N n
              | None => -1
              end) s
  end.

(** The outcome of the next command: the driver either rejects it with the
    error [fault] names, or carries it out. *)
Definition outcome (c : GLCall) (w : World) : GLenum * Ret * GLState :=
  if fault (driver w) (clock w) c =? GL_NO_ERROR
  then gl_apply (driver w) c (gl_state w)
  else rejected (fault (driver w) (clock w) c) (gl_state w).

(** Issuing one command.  The error flag keeps the first error raised
    since it was last read. *)
Definition gl_command (c : GLCall) (w : World) : Ret * World :=
  let o := outcome c w in
  (o.1.2,
   mkWorld (driver w) (S (clock w)) (trace w ++ [mkEvent c o.1.1 o.1.2])
           (if error_flag w =? GL_NO_ERROR then o.1.1 else error_flag w)
           (stdout w) o.2).

(** ** The monad of the C code *)

Definition M (A : Type) : Type := World -> option (A * World).

Definition ret {A : Type} (a : A) : M A := fun w => Some (a, w).

Definition bind {A B : Type} (m : M A) (k : A -> M B) : M B :=
  fun w => match m w with
           | Some (a, w') => k a w'
           | None => None
           end.

(** Undefined behaviour. *)
Definition undefined {A : Type} : M A := fun _ => None.

Declare Scope c_scope.
Delimit Scope c_scope with C.
Notation "x <- m ;; k" := (bind m (fun x => k))
  (at level 100, m at next level, right associativity) : c_scope.
Notation "m ;; k" := (bind m (fun _ => k))
  (at level 100, right associativity) : c_scope.
Open Scope c_scope.

Definition nl : string := String (ascii_of_nat 10) EmptyString.
Definition dec (z : Z) : string := NilZero.string_of_int (Z.to_int z).

Definition printf (s : string) : M unit :=
  fun w => Some (tt, mkWorld (driver w) (clock w) (trace w) (error_flag w)
                             (stdout w ++ [s]) (gl_state w)).

(** [glGetError] hands back the error flag and clears it. *)
Definition glGetError : M GLenum :=
  fun w => Some (error_flag w,
                 mkWorld (driver w) (clock w) (trace w) GL_NO_ERROR (stdout w) (gl_state w)).

(** The value found in the local [var] when it is declared without an
    initialiser. *)
Definition uninitialized (var : string) : M Z :=
  fun w => Some (indeterminate (driver w) (clock w) var, w).
Definition uninitialized_text (var : string) : M string :=
  fun w => Some (indeterminate_text (driver w) (clock w) var, w).

(** Commands by the way they hand back their result: nothing; a value
    ([dflt] when the driver rejected the command, which for a result
    written through a pointer is what the variable held before). *)
Definition gl_void (c : GLCall) : M unit := fun w => Some (tt, (gl_command c w).2).

Definition ret_int (r : Ret) (dflt : Z) : Z := match r with RInt z => z | _ => dflt end.
Definition ret_text (r : Ret) (dflt : string) : string :=
  match r with RLog s => s | _ => dflt end.

Definition gl_int (c : GLCall) (dflt : Z) : M Z :=
  fun w => Some (ret_int (gl_command c w).1 dflt, (gl_command c w).2).

Definition gl_text (c : GLCall) (dflt : string) : M string :=
  fun w => Some (ret_text (gl_command c w).1 dflt, (gl_command c w).2).

Definition glGetIntegerv (pname : GLenum) (data : Z) : M Z := gl_int (GetIntegerv pname) data.
Definition glEnable (cap : GLenum) : M unit := gl_void (Enable cap).
Definition glDisable (cap : GLenum) : M unit := gl_void (Disable cap).
Definition glBlendEquation (mode : GLenum) : M unit := gl_void (BlendEquation mode).
Definition glBlendFunc (sfactor dfactor : GLenum) : M unit := gl_void (BlendFunc sfactor dfactor).
Definition glBindBuffer (target : GLenum) (buffer : Z) : M unit := gl_void (BindBuffer target buffer).
Definition glUseProgram (program : Z) : M unit := gl_void (UseProgram program).
Definition glUniform1f (loc : Z) (v0 : float) : M unit := gl_void (Uniform1f loc v0).
Definition glUniform2f (loc : Z) (v0 v1 : float) : M unit := gl_void (Uniform2f loc v0 v1).
Definition glUniform4f (loc : Z) (v0 v1 v2 v3 : float) : M unit :=
  gl_void (Uniform4f loc v0 v1 v2 v3).
Definition glUniformMatrix4fv (loc count transpose : Z) (value : list float) : M unit :=
  gl_void (UniformMatrix4fv loc count transpose value).
Definition glEnableVertexAttribArray (index : Z) : M unit :=
  gl_void (EnableVertexAttribArray index).
Definition glVertexAttribPointer (index size : Z) (type : GLenum) (normalized stride pointer : Z)
  : M unit := gl_void (VertexAttribPointer index size type normalized stride pointer).
Definition glLineWidth (width : float) : M unit := gl_void (LineWidth width).
Definition glDrawArrays (mode : GLenum) (first count : Z) : M unit :=
  gl_void (DrawArrays mode first count).
Definition glBindTexture (target : GLenum) (texture : Z) : M unit :=
  gl_void (BindTexture target texture).
Definition glGenBuffers (n : Z) (buffers0 : Z) : M Z := gl_int (GenBuffers n) buffers0.
Definition glBufferData (target size : Z) (data : option (list ImDrawVert)) (usage : GLenum)
  : M unit := gl_void (BufferData target size data usage).
Definition glBufferSubData (target offset size : Z) (data : list ImDrawVert) : M unit :=
  gl_void (BufferSubData target offset size data).
Definition glGenTextures (n : Z) (textures0 : Z) : M Z := gl_int (GenTextures n) textures0.
Definition glTexParameteri (target pname : GLenum) (param : Z) : M unit :=
  gl_void (TexParameteri target pname param).
Definition glTexImage2D (target : GLenum) (level internalformat width height border : Z)
    (format type : GLenum) (pixels : option (list Z)) : M unit :=
  gl_void (TexImage2D target level internalformat width height border format type pixels).
Definition glCreateProgram : M Z := gl_int CreateProgram 0.
Definition glCreateShader (type : GLenum) : M Z := gl_int (CreateShader type) 0.
Definition glShaderSource (shader : Z) (source : string) : M unit :=
  gl_void (ShaderSource shader source).
Definition glCompileShader (shader : Z) : M unit := gl_void (CompileShader shader).
Definition glAttachShader (program shader : Z) : M unit := gl_void (AttachShader program shader).
Definition glLinkProgram (program : Z) : M unit := gl_void (LinkProgram program).
Definition glGetShaderiv (shader : Z) (pname : GLenum) (params : Z) : M Z :=
  gl_int (GetShaderiv shader pname) params.
Definition glGetShaderInfoLog (shader maxLength : Z) (infoLog : string) : M string :=
  gl_text (GetShaderInfoLog shader maxLength) infoLog.
Definition glGetAttribLocation (program : Z) (name : string) : M Z :=
  gl_int (GetAttribLocation program name) (-1).
Definition glGetUniformLocation (program : Z) (name : string) : M Z :=
  gl_int (GetUniformLocation program name) (-1).

(** ** Variadic arguments and arrays *)

Inductive va_item : Type :=
| VaInt (z : Z)
| VaDouble (d : spec_float)
| VaFloatPtr (p : list float)
| VaVec2 (v : Vec2)
| VaColor (c : Color)
| VaStr (s : string).

Definition va_list : Type := list va_item.

(** [va_arg(args, T)]: undefined when the next argument is missing or is
    not of type [T]. *)
Definition va_arg_int (args : va_list) : M (Z * va_list) :=
  match args with VaInt z :: rest => ret (z, rest) | _ => undefined end.
Definition va_arg_double (args : va_list) : M (spec_float * va_list) :=
  match args with VaDouble d :: rest => ret (d, rest) | _ => undefined end.
Definition va_arg_float_ptr (args : va_list) : M (list float * va_list) :=
  match args with VaFloatPtr p :: rest => ret (p, rest) | _ => undefined end.
Definition va_arg_Vec2 (args : va_list) : M (Vec2 * va_list) :=
  match args with VaVec2 v :: rest => ret (v, rest) | _ => undefined end.
Definition va_arg_Color (args : va_list) : M (Color * va_list) :=
  match args with VaColor c :: rest => ret (c, rest) | _ => undefined end.
Definition va_arg_str (args : va_list) : M (string * va_list) :=
  match args with VaStr s :: rest => ret (s, rest) | _ => undefined end.

(** [a[i]] and [a[i] = v] on a fixed-size array: undefined out of range. *)
Definition array_get (a : list Z) (i : Z) : M Z :=
  if 0 <=? i
  then match a !! Z.to_nat i with Some v => ret v | None => undefined end
  else undefined.

Definition array_set (a : list Z) (i : Z) (v : Z) : M (list Z) :=
  if (0 <=? i) && (i <? Z.of_nat (length a))
  then ret (<[Z.to_nat i := v]> a)
  else undefined.

(** [for (int32 i = start; i < start + n; i++) body], with the variables
    the body updates threaded through as [s]. *)
Fixpoint for_ {S : Type} (n : nat) (i : Z) (body : Z -> S -> M S) (s : S) : M S :=
  match n with
  | O => ret s
  | S n' => s' <- body i s ;; for_ n' (i + 1) body s'
  end.

(** [for (int32 i = 0; i < count; i++) body] *)
Definition for_range {S : Type} (count : Z) (body : Z -> S -> M S) (s : S) : M S :=
  for_ (Z.to_nat count) 0 body s.

(** ** The functions of namespace [gl] *)

Section gl.

(** [__FILE__]: the name under which the compiler saw gl.h. *)
Variable FILE__ : string.

(** [void gl::check_error(char* expr, char* file, int line)] *)
Definition check_error (expr file : string) (line : Z) : M unit :=
  error <- glGetError ;;
  if error =? GL_NO_ERROR then ret tt
  else
    let str :=
      if error =? GL_INVALID_ENUM then "Invalid enum"
      else if error =? GL_INVALID_VALUE then "Invalid value"
      else if error =? GL_INVALID_OPERATION then "Invalid operation"
      else if error =? GL_INVALID_FRAMEBUFFER_OPERATION then "Invalid framebuffer operation"
      else if error =? GL_OUT_OF_MEMORY then "Out of memory"
      else if error =? GL_STACK_UNDERFLOW then "Stack underflow"
      else if error =? GL_STACK_OVERFLOW then "Stack overflow"
      else "Undefined error" in
    printf ("OpenGL Error: " +:+ str +:+ " in " +:+ file +:+ ":" +:+ dec line +:+ nl) ;;
    printf ("    --- Expression: " +:+ expr +:+ nl).

(** [#define GLCHK(stmt) stmt; gl::check_error(#stmt, __FILE__, __LINE__)]:
    [expr] is the text of [stmt] and [line] the line of the macro call.
    Where the macro wraps the right-hand side of an assignment, the
    assignment precedes [check_error]; it touches only the assigned
    variable, so it is written after the macro here. *)
Definition GLCHK {A : Type} (stmt : M A) (expr : string) (line : Z) : M A :=
  r <- stmt ;;
  check_error expr FILE__ line ;;
  ret r.

(** [internal void print_compilation_errors(uint32 handle, const char* type,
                                            const char* file, int32 line)] *)
Definition print_compilation_errors (handle : Z) (type file : string) (line : Z) : M unit :=
  compilation_status <- uninitialized "compilation_status" ;;
  compilation_status <-
    GLCHK (glGetShaderiv handle GL_COMPILE_STATUS compilation_status)
          "glGetShaderiv(handle, GL_COMPILE_STATUS, &compilation_status)" 99 ;;
  if negb (compilation_status =? GL_TRUE) then
    printf ("Compilation error in " +:+ type +:+ " shader in " +:+ file +:+ ":" +:+ dec line
            +:+ nl) ;;
    log <- uninitialized_text "log" ;;
    log <- GLCHK (glGetShaderInfoLog handle 4096 log)
                 "glGetShaderInfoLog(handle, 4096, &out_length, log)" 105 ;;
    printf log ;;
    printf nl
  else ret tt.

Definition set_handle (v : Z) (s : Shader) : Shader :=
  mkShader v (attrib_count s) (uniform_count s) (attribs s) (uniforms s).
Definition set_attrib_count (v : Z) (s : Shader) : Shader :=
  mkShader (handle s) v (uniform_count s) (attribs s) (uniforms s).
Definition set_uniform_count (v : Z) (s : Shader) : Shader :=
  mkShader (handle s) (attrib_count s) v (attribs s) (uniforms s).
Definition set_attribs (v : list Z) (s : Shader) : Shader :=
  mkShader (handle s) (attrib_count s) (uniform_count s) v (uniforms s).
Definition set_uniforms (v : list Z) (s : Shader) : Shader :=
  mkShader (handle s) (attrib_count s) (uniform_count s) (attribs s) v.

(** The body of the first loop of [compile_shader]; the loop state is the
    shader and the remaining variadic arguments. *)
Definition resolve_attrib (file : string) (line : Z) (i : Z) (st : Shader * va_list)
  : M (Shader * va_list) :=
  a <- va_arg_str st.2 ;;
  let name := a.1 in
  loc <- GLCHK (glGetAttribLocation (handle st.1) name)
               "glGetAttribLocation(shader.handle, name)" 137 ;;
  attribs' <- array_set (attribs st.1) i loc ;;
  (if loc =? -1
   then printf ("Attribute " +:+ name +:+ " not found in shader at " +:+ file +:+ ":"
                +:+ dec line +:+ nl)
   else ret tt) ;;
  ret (set_attribs attribs' st.1, a.2).

(** The body of the second loop of [compile_shader]. *)
Definition resolve_uniform (file : string) (line : Z) (i : Z) (st : Shader * va_list)
  : M (Shader * va_list) :=
  a <- va_arg_str st.2 ;;
  let name := a.1 in
  loc <- GLCHK (glGetUniformLocation (handle st.1) name)
               "glGetUniformLocation(shader.handle, name)" 146 ;;
  uniforms' <- array_set (uniforms st.1) i loc ;;
  (if loc =? -1
   then printf ("Uniform " +:+ name +:+ " not found in shader at " +:+ file +:+ ":"
                +:+ dec line +:+ nl)
   else ret tt) ;;
  ret (set_uniforms uniforms' st.1, a.2).

(** [void gl::compile_shader(Shader& shader, const char* file, int line,
                             const char* vert, const char* frag,
                             int32 attrib_count, int32 uniform_count, ...)] *)
Definition compile_shader (shader : Shader) (file : string) (line : Z) (vert frag : string)
    (attrib_count uniform_count : Z) (args : va_list) : M Shader :=
  h <- GLCHK glCreateProgram "glCreateProgram()" 115 ;;
  let shader := set_handle h shader in
  vert_handle <- GLCHK (glCreateShader GL_VERTEX_SHADER) "glCreateShader(GL_VERTEX_SHADER)" 116 ;;
  frag_handle <- GLCHK (glCreateShader GL_FRAGMENT_SHADER)
                       "glCreateShader(GL_FRAGMENT_SHADER)" 117 ;;
  GLCHK (glShaderSource vert_handle vert) "glShaderSource (vert_handle, 1, &vert, 0)" 119 ;;
  GLCHK (glShaderSource frag_handle frag) "glShaderSource (frag_handle, 1, &frag, 0)" 120 ;;
  GLCHK (glCompileShader vert_handle) "glCompileShader(vert_handle)" 121 ;;
  GLCHK (glCompileShader frag_handle) "glCompileShader(frag_handle)" 122 ;;
  GLCHK (glAttachShader (handle shader) vert_handle)
        "glAttachShader (shader.handle, vert_handle)" 123 ;;
  GLCHK (glAttachShader (handle shader) frag_handle)
        "glAttachShader (shader.handle, frag_handle)" 124 ;;
  print_compilation_errors vert_handle "vertex" file line ;;
  print_compilation_errors frag_handle "fragment" file line ;;
  GLCHK (glLinkProgram (handle shader)) "glLinkProgram(shader.handle)" 129 ;;
  let shader := set_attrib_count attrib_count shader in
  let shader := set_uniform_count uniform_count shader in
  st <- for_range attrib_count (resolve_attrib file line) (shader, args) ;;
  st <- for_range uniform_count (resolve_uniform file line) st ;;
  ret st.1.

(** The body of the loop of [set_vertex_attribs]. *)
Definition enable_attrib (shader : Shader) (i : Z) (_ : unit) : M unit :=
  a <- array_get (attribs shader) i ;;
  GLCHK (glEnableVertexAttribArray (to_uint32 a))
        "glEnableVertexAttribArray(shader.attribs[i])" 158.

(** [void gl::set_vertex_attribs(Shader& shader)] *)
Definition set_vertex_attribs (shader : Shader) : M unit :=
  for_range (attrib_count shader) (enable_attrib shader) tt ;;
  (* Position attribute *)
  a0 <- array_get (attribs shader) 0 ;;
  GLCHK (glVertexAttribPointer (to_uint32 a0) 2 GL_FLOAT GL_FALSE sizeof_ImDrawVert offsetof_pos)
        "glVertexAttribPointer(shader.attribs[0], 2, GL_FLOAT, GL_FALSE, sizeof(ImDrawVert), (GLvoid*)OFFSETOF(ImDrawVert, pos))"
        163 ;;
  (* UV attribute *)
  a1 <- array_get (attribs shader) 1 ;;
  GLCHK (glVertexAttribPointer (to_uint32 a1) 2 GL_FLOAT GL_FALSE sizeof_ImDrawVert offsetof_uv)
        "glVertexAttribPointer(shader.attribs[1], 2, GL_FLOAT, GL_FALSE, sizeof(ImDrawVert), (GLvoid*)OFFSETOF(ImDrawVert, uv))"
        167 ;;
  if 2 <? attrib_count shader then
    (* Color attribute *)
    a2 <- array_get (attribs shader) 2 ;;
    GLCHK (glVertexAttribPointer (to_uint32 a2) 4 GL_UNSIGNED_BYTE GL_TRUE sizeof_ImDrawVert
                                 offsetof_col)
          "glVertexAttribPointer(shader.attribs[2], 4, GL_UNSIGNED_BYTE, GL_TRUE, sizeof(ImDrawVert), (GLvoid*)OFFSETOF(ImDrawVert, col))"
          172
  else ret tt.

Definition set_vbo_handle (v : Z) (m : Mesh) : Mesh :=
  mkMesh (is_line_loop m) (vbo_size m) (index_count m) v (elements_handle m).
Definition set_index_count (v : Z) (m : Mesh) : Mesh :=
  mkMesh (is_line_loop m) (vbo_size m) v (vbo_handle m) (elements_handle m).

(** The six vertices [transform_quad] computes. *)
Definition quad_verts (pos size : Vec2) : list ImDrawVert :=
  let x1 := vec_x pos in
  let x2 := fadd (vec_x pos) (vec_x size) in
  let y1 := vec_y pos in
  let y2 := fadd (vec_y pos) (vec_y size) in
  [ mkVert (mkVec2 x1 y2) (mkVec2 f0 f1) 0xffffffff;
    mkVert (mkVec2 x1 y1) (mkVec2 f0 f0) 0xffffffff;
    mkVert (mkVec2 x2 y2) (mkVec2 f1 f1) 0xffffffff;
    mkVert (mkVec2 x2 y1) (mkVec2 f1 f0) 0xffffffff;
    mkVert (mkVec2 x2 y2) (mkVec2 f1 f1) 0xffffffff;
    mkVert (mkVec2 x1 y1) (mkVec2 f0 f0) 0xffffffff ].

(** [void gl::transform_quad(Mesh& mesh, Vec2 pos, Vec2 size)]; the mesh is
    passed by reference, so the model hands it back. *)
Definition transform_quad (mesh : Mesh) (pos size : Vec2) : M Mesh :=
  let verts := quad_verts pos size in
  GLCHK (glBindBuffer GL_ARRAY_BUFFER (vbo_handle mesh))
        "glBindBuffer(GL_ARRAY_BUFFER, mesh.vbo_handle)" 203 ;;
  GLCHK (glBufferSubData GL_ARRAY_BUFFER 0 (sizeof_ImDrawVert * Z.of_nat (length verts)) verts)
        "glBufferSubData(GL_ARRAY_BUFFER, 0, sizeof(verts), verts)" 204 ;;
  ret mesh.

(** [void gl::init_quad(Mesh& mesh, Vec2 pos, Vec2 size, uint32 usage)] *)
Definition init_quad (mesh : Mesh) (pos size : Vec2) (usage : Z) : M Mesh :=
  h <- GLCHK (glGenBuffers 1 (vbo_handle mesh)) "glGenBuffers (1, &mesh.vbo_handle)" 181 ;;
  let mesh := set_vbo_handle h mesh in
  GLCHK (glBindBuffer GL_ARRAY_BUFFER (vbo_handle mesh))
        "glBindBuffer (GL_ARRAY_BUFFER, mesh.vbo_handle)" 182 ;;
  GLCHK (glBufferData GL_ARRAY_BUFFER (sizeof_ImDrawVert * 6) None usage)
        "glBufferData(GL_ARRAY_BUFFER, sizeof(ImDrawVert) * 6, 0, (GLenum)usage)" 183 ;;
  let mesh := set_index_count 6 mesh in
  transform_quad mesh pos size.

(** The body of the uniform loop of [draw_mesh]; the loop state is the
    remaining variadic arguments.  A tag outside the four cases falls
    through the [switch] and consumes nothing more. *)
Definition push_uniform (shader : Shader) (i : Z) (args : va_list) : M va_list :=
  t <- va_arg_int args ;;
  let tag := t.1 in
  let args := t.2 in
  if tag =? UniformType_Float then
    a <- va_arg_double args ;;
    loc <- array_get (uniforms shader) i ;;
    GLCHK (glUniform1f loc (double_to_float a.1))
          "glUniform1f(shader.uniforms[i], (float)va_arg(args, double))" 231 ;;
    ret a.2
  else if tag =? UniformType_Matrix4 then
    a <- va_arg_float_ptr args ;;
    loc <- array_get (uniforms shader) i ;;
    GLCHK (glUniformMatrix4fv loc 1 GL_FALSE a.1)
          "glUniformMatrix4fv(shader.uniforms[i], 1, GL_FALSE, va_arg(args, float*))" 236 ;;
    ret a.2
  else if tag =? UniformType_Vec2 then
    a <- va_arg_Vec2 args ;;
    let vec := a.1 in
    loc <- array_get (uniforms shader) i ;;
    GLCHK (glUniform2f loc (vec_x vec) (vec_y vec))
          "glUniform2f(shader.uniforms[i], vec.x, vec.y)" 242 ;;
    ret a.2
  else if tag =? UniformType_Color then
    a <- va_arg_Color args ;;
    let col := a.1 in
    loc <- array_get (uniforms shader) i ;;
    GLCHK (glUniform4f loc (col_r col) (col_g col) (col_b col) (col_a col))
          "glUniform4f(shader.uniforms[i], col.r, col.g, col.b, col.a)" 247 ;;
    ret a.2
  else ret args.

(** [void gl::draw_mesh(Mesh& mesh, Shader& shader, bool scissor,
                        int32 uniform_count, ...)] *)
Definition draw_mesh (mesh : Mesh) (shader : Shader) (scissor : bool) (uniform_count : Z)
    (args : va_list) : M unit :=
  last_program <- uninitialized "last_program" ;;
  last_texture <- uninitialized "last_texture" ;;
  last_program <- GLCHK (glGetIntegerv GL_CURRENT_PROGRAM last_program)
                        "glGetIntegerv(GL_CURRENT_PROGRAM, &last_program)" 211 ;;
  last_texture <- GLCHK (glGetIntegerv GL_TEXTURE_BINDING_2D last_texture)
                        "glGetIntegerv(GL_TEXTURE_BINDING_2D, &last_texture)" 212 ;;
  GLCHK (glEnable GL_BLEND) "glEnable(GL_BLEND)" 213 ;;
  GLCHK (glBlendEquation GL_FUNC_ADD) "glBlendEquation(GL_FUNC_ADD)" 214 ;;
  GLCHK (glBlendFunc GL_SRC_ALPHA GL_ONE_MINUS_SRC_ALPHA)
        "glBlendFunc(GL_SRC_ALPHA, GL_ONE_MINUS_SRC_ALPHA)" 215 ;;
  GLCHK (glDisable GL_CULL_FACE) "glDisable(GL_CULL_FACE)" 216 ;;
  GLCHK (glDisable GL_DEPTH_TEST) "glDisable(GL_DEPTH_TEST)" 217 ;;
  (if scissor
   then GLCHK (glEnable GL_SCISSOR_TEST) "glEnable(GL_SCISSOR_TEST)" 218
   else GLCHK (glDisable GL_SCISSOR_TEST) "glDisable(GL_SCISSOR_TEST)" 219) ;;
  GLCHK (glBindBuffer GL_ARRAY_BUFFER (vbo_handle mesh))
        "glBindBuffer(GL_ARRAY_BUFFER, mesh.vbo_handle)" 221 ;;
  GLCHK (glUseProgram (handle shader)) "glUseProgram(shader.handle)" 222 ;;
  (* Uniforms *)
  for_range uniform_count (push_uniform shader) args ;;
  (* Attribs *)
  set_vertex_attribs shader ;;
  GLCHK (glLineWidth f2) "glLineWidth(2.0f)" 258 ;;
  GLCHK (glDrawArrays (if is_line_loop mesh then GL_LINE_LOOP else GL_TRIANGLES) 0
                      (to_int32 (index_count mesh)))
        "glDrawArrays(mesh.is_line_loop ? GL_LINE_LOOP : GL_TRIANGLES, 0, mesh.index_count)"
        259 ;;
  (* Restore modified state *)
  GLCHK (glBindBuffer GL_ARRAY_BUFFER 0) "glBindBuffer (GL_ARRAY_BUFFER, 0)" 263 ;;
  GLCHK (glUseProgram (to_uint32 last_program)) "glUseProgram (last_program)" 264 ;;
  GLCHK (glDisable GL_SCISSOR_TEST) "glDisable (GL_SCISSOR_TEST)" 265 ;;
  GLCHK (glDisable GL_BLEND) "glDisable (GL_BLEND)" 266 ;;
  GLCHK (glBindTexture GL_TEXTURE_2D (to_uint32 last_texture))
        "glBindTexture(GL_TEXTURE_2D, last_texture)" 267.

(** [uint32 gl::allocate_tex(int32 width, int32 height, uint8* data)] *)
Definition allocate_tex (width height : Z) (data : option (list Z)) : M Z :=
  tex <- uninitialized "tex" ;;
  tex <- GLCHK (glGenTextures 1 tex) "glGenTextures(1, &tex)" 273 ;;
  GLCHK (glBindTexture GL_TEXTURE_2D tex) "glBindTexture(GL_TEXTURE_2D, tex)" 274 ;;
  GLCHK (glTexParameteri GL_TEXTURE_2D GL_TEXTURE_MIN_FILTER GL_LINEAR)
        "glTexParameteri(GL_TEXTURE_2D, GL_TEXTURE_MIN_FILTER, GL_LINEAR)" 275 ;;
  GLCHK (glTexParameteri GL_TEXTURE_2D GL_TEXTURE_MAG_FILTER GL_LINEAR)
        "glTexParameteri(GL_TEXTURE_2D, GL_TEXTURE_MAG_FILTER, GL_LINEAR)" 276 ;;
  GLCHK (glTexImage2D GL_TEXTURE_2D 0 GL_RGBA8 width height 0 GL_RGBA GL_UNSIGNED_BYTE data)
        "glTexImage2D(GL_TEXTURE_2D, 0, GL_RGBA8, width, height, 0, GL_RGBA, GL_UNSIGNED_BYTE, data)"
        277 ;;
  ret tex.

End gl.

(** ** Straight-line command sequences

    Most of the layer is a sequence of [GLCHK]-wrapped commands.  A
    statement is a command with the text and line its [GLCHK] reports; a
    script is a list of statements, run in order. *)

(** The categories of [check_error], as a table. *)
Definition category_table : list (GLenum * string) :=
  [ (GL_INVALID_ENUM, "Invalid enum");
    (GL_INVALID_VALUE, "Invalid value");
    (GL_INVALID_OPERATION, "Invalid operation");
    (GL_INVALID_FRAMEBUFFER_OPERATION, "Invalid framebuffer operation");
    (GL_OUT_OF_MEMORY, "Out of memory");
    (GL_STACK_UNDERFLOW, "Stack underflow");
    (GL_STACK_OVERFLOW, "Stack overflow") ].

Fixpoint assoc (error : GLenum) (table : list (GLenum * string)) : string :=
  match table with
  | [] => "Undefined error"
  | (code, name) :: rest => if error =? code then name else assoc error rest
  end.

Definition category (error : GLenum) : string := assoc error category_table.

(** What [check_error] prints for the error code it drained. *)
Definition error_report (error : GLenum) (expr file : string) (line : Z) : list string :=
  if error =? GL_NO_ERROR then []
  else [ "OpenGL Error: " +:+ category error +:+ " in " +:+ file +:+ ":" +:+ dec line +:+ nl;
         "    --- Expression: " +:+ expr +:+ nl ].

(** The world after [check_error]. *)
Definition checked (expr file : string) (line : Z) (w : World) : World :=
  mkWorld (driver w) (clock w) (trace w) GL_NO_ERROR
          (stdout w ++ error_report (error_flag w) expr file line) (gl_state w).

Record Stmt : Type := mkStmt { st_call : GLCall; st_expr : string; st_line : Z }.

Section script.

Variable FILE__ : string.

Definition step (s : Stmt) (w : World) : World :=
  checked (st_expr s) FILE__ (st_line s) (gl_command (st_call s) w).2.

Definition steps (l : list Stmt) (w : World) : World := fold_left (fun w s => step s w) l w.

End script.

(** The uniform arguments of a draw, as the caller means them: one tagged
    value per uniform.  [encode] lays them out as [draw_mesh] reads them:
    the tag, then the value ([float] promoted to [double]). *)
Inductive UniformArg : Type :=
| UFloat (d : spec_float)
| UVec2 (v : Vec2)
| UMat4 (m : list float)
| UColor (c : Color).

Definition encode1 (u : UniformArg) : va_list :=
  match u with
  | UFloat d => [VaInt UniformType_Float; VaDouble d]
  | UVec2 v => [VaInt UniformType_Vec2; VaVec2 v]
  | UMat4 m => [VaInt UniformType_Matrix4; VaFloatPtr m]
  | UColor c => [VaInt UniformType_Color; VaColor c]
  end.

Definition encode (us : list UniformArg) : va_list := concat (map encode1 us).

(** The statement [draw_mesh] issues for an argument and its slot. *)
Definition upload_stmt (loc : Z) (u : UniformArg) : Stmt :=
  match u with
  | UFloat d =>
      mkStmt (Uniform1f loc (double_to_float d))
             "glUniform1f(shader.uniforms[i], (float)va_arg(args, double))" 231
  | UMat4 m =>
      mkStmt (UniformMatrix4fv loc 1 GL_FALSE m)
             "glUniformMatrix4fv(shader.uniforms[i], 1, GL_FALSE, va_arg(args, float*))" 236
  | UVec2 v =>
      mkStmt (Uniform2f loc (vec_x v) (vec_y v))
             "glUniform2f(shader.uniforms[i], vec.x, vec.y)" 242
  | UColor c =>
      mkStmt (Uniform4f loc (col_r c) (col_g c) (col_b c) (col_a c))
             "glUniform4f(shader.uniforms[i], col.r, col.g, col.b, col.a)" 247
  end.

Definition uniform_script (slots : list Z) (us : list UniformArg) : list Stmt :=
  zip_with upload_stmt slots us.

(** The command of that statement. *)
Definition upload_call (loc : Z) (u : UniformArg) : GLCall := st_call (upload_stmt loc u).

Definition enable_stmt (a : Z) : Stmt :=
  mkStmt (EnableVertexAttribArray (to_uint32 a))
         "glEnableVertexAttribArray(shader.attribs[i])" 158.

Definition pointer_stmts (shader : Shader) : list Stmt :=
  [ mkStmt (VertexAttribPointer (to_uint32 (nth 0 (attribs shader) 0)) 2 GL_FLOAT GL_FALSE
                                sizeof_ImDrawVert offsetof_pos)
           "glVertexAttribPointer(shader.attribs[0], 2, GL_FLOAT, GL_FALSE, sizeof(ImDrawVert), (GLvoid*)OFFSETOF(ImDrawVert, pos))"
           163;
    mkStmt (VertexAttribPointer (to_uint32 (nth 1 (attribs shader) 0)) 2 GL_FLOAT GL_FALSE
                                sizeof_ImDrawVert offsetof_uv)
           "glVertexAttribPointer(shader.attribs[1], 2, GL_FLOAT, GL_FALSE, sizeof(ImDrawVert), (GLvoid*)OFFSETOF(ImDrawVert, uv))"
           167 ]
  ++ (if 2 <? attrib_count shader
      then [ mkStmt (VertexAttribPointer (to_uint32 (nth 2 (attribs shader) 0)) 4
                                         GL_UNSIGNED_BYTE GL_TRUE sizeof_ImDrawVert offsetof_col)
                    "glVertexAttribPointer(shader.attribs[2], 4, GL_UNSIGNED_BYTE, GL_TRUE, sizeof(ImDrawVert), (GLvoid*)OFFSETOF(ImDrawVert, col))"
                    172 ]
      else []).

(** The statements of [set_vertex_attribs]. *)
Definition attrib_script (shader : Shader) : list Stmt :=
  map enable_stmt (take (Z.to_nat (attrib_count shader)) (attribs shader))
  ++ pointer_stmts shader.

(** The statements of [transform_quad]. *)
Definition transform_script (mesh : Mesh) (pos size : Vec2) : list Stmt :=
  [ mkStmt (BindBuffer GL_ARRAY_BUFFER (vbo_handle mesh))
           "glBindBuffer(GL_ARRAY_BUFFER, mesh.vbo_handle)" 203;
    mkStmt (BufferSubData GL_ARRAY_BUFFER 0 120 (quad_verts pos size))
           "glBufferSubData(GL_ARRAY_BUFFER, 0, sizeof(verts), verts)" 204 ].

(** The statements of [draw_mesh] up to the uniform loop, the two state
    queries apart. *)
Definition policy_script (mesh : Mesh) (shader : Shader) (scissor : bool) : list Stmt :=
  [ mkStmt (Enable GL_BLEND) "glEnable(GL_BLEND)" 213;
    mkStmt (BlendEquation GL_FUNC_ADD) "glBlendEquation(GL_FUNC_ADD)" 214;
    mkStmt (BlendFunc GL_SRC_ALPHA GL_ONE_MINUS_SRC_ALPHA)
           "glBlendFunc(GL_SRC_ALPHA, GL_ONE_MINUS_SRC_ALPHA)" 215;
    mkStmt (Disable GL_CULL_FACE) "glDisable(GL_CULL_FACE)" 216;
    mkStmt (Disable GL_DEPTH_TEST) "glDisable(GL_DEPTH_TEST)" 217;
    (if scissor
     then mkStmt (Enable GL_SCISSOR_TEST) "glEnable(GL_SCISSOR_TEST)" 218
     else mkStmt (Disable GL_SCISSOR_TEST) "glDisable(GL_SCISSOR_TEST)" 219);
    mkStmt (BindBuffer GL_ARRAY_BUFFER (vbo_handle mesh))
           "glBindBuffer(GL_ARRAY_BUFFER, mesh.vbo_handle)" 221;
    mkStmt (UseProgram (handle shader)) "glUseProgram(shader.handle)" 222 ].

Definition issue_script (mesh : Mesh) : list Stmt :=
  [ mkStmt (LineWidth f2) "glLineWidth(2.0f)" 258;
    mkStmt (DrawArrays (if is_line_loop mesh then GL_LINE_LOOP else GL_TRIANGLES) 0
                       (to_int32 (index_count mesh)))
           "glDrawArrays(mesh.is_line_loop ? GL_LINE_LOOP : GL_TRIANGLES, 0, mesh.index_count)"
           259 ].

(** The statements under [// Restore modified state]. *)
Definition restore_script (last_program last_texture : Z) : list Stmt :=
  [ mkStmt (BindBuffer GL_ARRAY_BUFFER 0) "glBindBuffer (GL_ARRAY_BUFFER, 0)" 263;
    mkStmt (UseProgram (to_uint32 last_program)) "glUseProgram (last_program)" 264;
    mkStmt (Disable GL_SCISSOR_TEST) "glDisable (GL_SCISSOR_TEST)" 265;
    mkStmt (Disable GL_BLEND) "glDisable (GL_BLEND)" 266;
    mkStmt (BindTexture GL_TEXTURE_2D (to_uint32 last_texture))
           "glBindTexture(GL_TEXTURE_2D, last_texture)" 267 ].

Definition query_program : Stmt :=
  mkStmt (GetIntegerv GL_CURRENT_PROGRAM) "glGetIntegerv(GL_CURRENT_PROGRAM, &last_program)" 211.
Definition query_texture : Stmt :=
  mkStmt (GetIntegerv GL_TEXTURE_BINDING_2D)
         "glGetIntegerv(GL_TEXTURE_BINDING_2D, &last_texture)" 212.

(** What [draw_mesh] holds in [last_program] and [last_texture] after its
    two queries, started in [w]. *)
Definition read_last_program (w : World) : Z :=
  ret_int (gl_command (GetIntegerv GL_CURRENT_PROGRAM) w).1
          (indeterminate (driver w) (clock w) "last_program").

Definition read_last_texture (FILE__ : string) (w : World) : Z :=
  ret_int (gl_command (GetIntegerv GL_TEXTURE_BINDING_2D) (step FILE__ query_program w)).1
          (indeterminate (driver w) (clock w) "last_texture").

(** All statements of one [draw_mesh], in order. *)
Definition draw_script (FILE__ : string) (mesh : Mesh) (shader : Shader) (scissor : bool)
    (us : list UniformArg) (w : World) : list Stmt :=
  [query_program; query_texture]
  ++ policy_script mesh shader scissor
  ++ uniform_script (uniforms shader) us
  ++ attrib_script shader
  ++ issue_script mesh
  ++ restore_script (read_last_program w) (read_last_texture FILE__ w).

(** The world after [printf s]. *)
Definition say (s : string) (w : World) : World :=
  mkWorld (driver w) (clock w) (trace w) (error_flag w) (stdout w ++ [s]) (gl_state w).

(** ** Vocabulary of the properties and concrete inputs *)

(** The commands that can write a given piece of the context state. *)
Definition is_UseProgram (c : GLCall) : bool :=
  match c with UseProgram _ => true | _ => false end.
Definition is_BindTexture (c : GLCall) : bool :=
  match c with BindTexture _ _ => true | _ => false end.
Definition is_BindBuffer (c : GLCall) : bool :=
  match c with BindBuffer _ _ => true | _ => false end.
Definition is_BlendEquation (c : GLCall) : bool :=
  match c with BlendEquation _ => true | _ => false end.
Definition is_BlendFunc (c : GLCall) : bool :=
  match c with BlendFunc _ _ => true | _ => false end.
Definition is_LineWidth (c : GLCall) : bool :=
  match c with LineWidth _ => true | _ => false end.
Definition enables (cap : GLenum) (c : GLCall) : bool :=
  match c with Enable cap' => cap' =? cap | _ => false end.
Definition is_BufferData (c : GLCall) : bool :=
  match c with BufferData _ _ _ _ => true | _ => false end.
Definition is_upload (c : GLCall) : bool :=
  match c with
  | Uniform1f _ _ | Uniform2f _ _ _ | Uniform4f _ _ _ _ _ | UniformMatrix4fv _ _ _ _ => true
  | _ => false
  end.
Definition is_attrib (c : GLCall) : bool :=
  match c with
  | EnableVertexAttribArray _ | VertexAttribPointer _ _ _ _ _ _ => true
  | _ => false
  end.

(** The statements of a draw before [// Restore modified state]. *)
Definition draw_body (mesh : Mesh) (shader : Shader) (scissor : bool) (us : list UniformArg)
  : list Stmt :=
  [query_program; query_texture]
  ++ policy_script mesh shader scissor
  ++ uniform_script (uniforms shader) us
  ++ attrib_script shader
  ++ issue_script mesh.

(** A driver that rejects nothing. *)
Definition quiet (w : World) : Prop :=
  forall k c, fault (driver w) k c = GL_NO_ERROR.

(** [a < b] for finite floats, by their exact values. *)
Definition float_lt (a b : float) : Prop :=
  is_finite a = true /\ is_finite b = true /\ (F2Q a < F2Q b)%Q.

(** The position of a vertex in the plane. *)
Definition point (v : ImDrawVert) : Q * Q := (F2Q (vec_x (pos v)), F2Q (vec_y (pos v))).

(** Twice the signed area of the triangle a b c: positive when a, b, c
    turn counter-clockwise (x to the right, y upwards). *)
Definition cross (a b c : Q * Q) : Q :=
  ((b.1 - a.1) * (c.2 - a.2) - (b.2 - a.2) * (c.1 - a.1))%Q.

(** The triangle a b c is counter-clockwise. *)
Definition ccw (a b c : ImDrawVert) : Prop := (0 < cross (point a) (point b) (point c))%Q.

(** [p] lies in the closed counter-clockwise triangle a b c. *)
Definition inside (p : Q * Q) (a b c : ImDrawVert) : Prop :=
  (0 <= cross (point a) (point b) p)%Q
  /\ (0 <= cross (point b) (point c) p)%Q
  /\ (0 <= cross (point c) (point a) p)%Q.

(** The box [xlo, xhi] x [ylo, yhi] is the bounding box of [vs]. *)
Definition bounding_box (vs : list ImDrawVert) (xlo xhi ylo yhi : Q) : Prop :=
  Forall (fun v => (xlo <= (point v).1 <= xhi)%Q /\ (ylo <= (point v).2 <= yhi)%Q) vs
  /\ Exists (fun v => (point v).1 == xlo)%Q vs
  /\ Exists (fun v => (point v).1 == xhi)%Q vs
  /\ Exists (fun v => (point v).2 == ylo)%Q vs
  /\ Exists (fun v => (point v).2 == yhi)%Q vs.

(** The texture coordinate that goes with a position: 0 at the near edge,
    1 at the far edge, on each axis. *)
Definition uv_matches (x1 x2 y1 y2 : float) (v : ImDrawVert) : Prop :=
  (vec_x (pos v) = x1 /\ vec_x (uv v) = f0 \/ vec_x (pos v) = x2 /\ vec_x (uv v) = f1)
  /\ (vec_y (pos v) = y1 /\ vec_y (uv v) = f0 \/ vec_y (pos v) = y2 /\ vec_y (uv v) = f1).

(** The statements of [init_quad]; [h] is the handle [glGenBuffers] left in
    [mesh.vbo_handle]. *)
Definition init_script (mesh : Mesh) (pos size : Vec2) (usage : Z) (h : Z) : list Stmt :=
  [ mkStmt (GenBuffers 1) "glGenBuffers (1, &mesh.vbo_handle)" 181;
    mkStmt (BindBuffer GL_ARRAY_BUFFER h) "glBindBuffer (GL_ARRAY_BUFFER, mesh.vbo_handle)" 182;
    mkStmt (BufferData GL_ARRAY_BUFFER 120 None usage)
           "glBufferData(GL_ARRAY_BUFFER, sizeof(ImDrawVert) * 6, 0, (GLenum)usage)" 183 ]
  ++ transform_script (set_index_count 6 (set_vbo_handle h mesh)) pos size.

(** [w'] continues [w]: same driver, and the command log and standard
    output of [w] extended. *)
Definition grows (w w' : World) : Prop :=
  driver w' = driver w
  /\ (exists evs, trace w' = trace w ++ evs)
  /\ (exists out, stdout w' = stdout w ++ out).

(** The message for a name the linker does not know. *)
Definition not_found (what name file : string) (line : Z) : string :=
  what +:+ " " +:+ name +:+ " not found in shader at " +:+ file +:+ ":" +:+ dec line +:+ nl.

(** The location a logged query handed back to the C code. *)
Definition answered (e : Event) : Z := ret_int (ev_ret e) (-1).

(** A driver that rejects nothing; its linker knows the attributes
    "position" and "uv" and the uniform "u_proj". *)
Definition demo_driver : Driver :=
  mkDriver (fun _ _ => GL_NO_ERROR)
           (fun _ name => if String.eqb name "position" then Some 0%N
                          else if String.eqb name "uv" then Some 1%N else None)
           (fun _ name => if String.eqb name "u_proj" then Some 0%N else None)
           (fun _ => GL_TRUE) (fun _ => "") 16 (fun _ _ => 0) (fun _ _ => "").

(** A driver that rejects [glUseProgram(3)], say because program 3 was
    flagged for deletion while it was current, and nothing else. *)
Definition stubborn_driver : Driver :=
  mkDriver (fun _ c => match c with
                       | UseProgram 3 => GL_INVALID_VALUE
                       | _ => GL_NO_ERROR
                       end)
           (fun _ _ => None) (fun _ _ => None)
           (fun _ => GL_TRUE) (fun _ => "") 16 (fun _ _ => 0) (fun _ _ => "").

(** A driver that rejects every [glEnable] and [glDisable], every uniform
    upload, the draw itself and the final [glBindTexture], but answers
    queries and accepts [glUseProgram]. *)
Definition flaky_driver : Driver :=
  mkDriver (fun _ c => match c with
                       | Enable _ | Disable _ => GL_INVALID_ENUM
                       | Uniform1f _ _ => GL_INVALID_OPERATION
                       | DrawArrays _ _ _ => GL_OUT_OF_MEMORY
                       | BindTexture _ _ => GL_INVALID_VALUE
                       | _ => GL_NO_ERROR
                       end)
           (fun _ _ => None) (fun _ _ => None)
           (fun _ => GL_TRUE) (fun _ => "") 16 (fun _ _ => 0) (fun _ _ => "").

(** Program 3, texture 4 and buffer 5 bound, face culling enabled, line
    width 1. *)
Definition demo_state : GLState :=
  mkGLState 3 4 5 {[GL_CULL_FACE]} GL_FUNC_ADD (1, 0) f1 ∅ ∅ ∅ ∅ 10.

Definition demo_world : World := mkWorld demo_driver 0 [] GL_NO_ERROR [] demo_state.
Definition stubborn_world : World := mkWorld stubborn_driver 0 [] GL_NO_ERROR [] demo_state.
Definition flaky_world : World := mkWorld flaky_driver 0 [] GL_NO_ERROR [] demo_state.

(** A shader with three attributes and one uniform whose third attribute
    slot and whose uniform slot hold -1: names the linker did not know. *)
Definition demo_shader : Shader :=
  mkShader 7 3 1 [0; 1; -1; 0; 0; 0; 0; 0] [-1; 0; 0; 0; 0; 0; 0; 0].

Definition demo_mesh : Mesh := mkMesh false 0 6 9 0.

(** 1.0 as a [double]. *)
Definition d1 : spec_float := S754_finite false 4503599627370496 (-52).

(** ** The capability check

    GLEW is a library outside the sources at hand; it is taken by what it
    answers: the result of [glewInit()] and, for every capability string,
    whether [glewIsSupported] holds. *)

Record Glew : Type := mkGlew {
  glewInit_result : GLenum;
  glewIsSupported : string -> bool
}.

Definition GLEW_OK : GLenum := 0.

(** [bool gl::init()] *)
Definition init (glew : Glew) : M bool :=
  if negb (glewInit_result glew =? GLEW_OK) then
    printf ("GLEW initialization failed." +:+ nl) ;;
    ret false
  else if negb (glewIsSupported glew "GL_VERSION_2_1") then
    printf ("This hardware doesn't support OpenGL 2.1." +:+ nl) ;;
    ret false
  else if negb (glewIsSupported glew "GL_ARB_framebuffer_object") then
    printf ("This hardware doesn't support OpenGL extension GL_ARB_framebuffer_object."
            +:+ nl) ;;
    ret false
  else ret true.

(** ** Vocabulary of the further properties *)

(** The two lines [check_error] prints for a pending error. *)
Definition report_lines (error : GLenum) (expr file : string) (line : Z) : list string :=
  [ "OpenGL Error: " +:+ category error +:+ " in " +:+ file +:+ ":" +:+ dec line +:+ nl;
    "    --- Expression: " +:+ expr +:+ nl ].

(** The queries [print_compilation_errors] issues for shader [h]. *)
Definition status_calls (d : Driver) (h : Z) : list GLCall :=
  GetShaderiv h GL_COMPILE_STATUS
  :: (if compile_status d h =? GL_TRUE then [] else [GetShaderInfoLog h 4096]).

(** What [glGetAttribLocation] and [glGetUniformLocation] hand back for
    the linker's answer. *)
Definition location_of (answer : option N) : Z :=
  match answer with Some n => Z.of_N n | None => -1 end.

(** A GLEW that reports everything present, and one without the
    framebuffer-object extension. *)
Definition capable_glew : Glew := mkGlew GLEW_OK (fun _ => true).
Definition old_glew : Glew :=
  mkGlew GLEW_OK (fun s => negb (String.eqb s "GL_ARB_framebuffer_object")).

(** The value the context stores for a uniform argument. *)
Definition uniform_value (u : UniformArg) : UniformValue :=
  match u with
  | UFloat d => U1f (double_to_float d)
  | UVec2 v => U2f (vec_x v) (vec_y v)
  | UMat4 m => UMatrix4 GL_FALSE m
  | UColor c => U4f (col_r c) (col_g c) (col_b c) (col_a c)
  end.

(** A tag that is none of the four cases of the [switch] of [draw_mesh]. *)
Definition unknown_tag (tag : Z) : bool :=
  negb ((tag =? UniformType_Float) || (tag =? UniformType_Matrix4)
        || (tag =? UniformType_Vec2) || (tag =? UniformType_Color)).

Definition is_DrawArrays (c : GLCall) : bool :=
  match c with DrawArrays _ _ _ => true | _ => false end.

(** [demo_world] with an error pending. *)
Definition pending_world : World :=
  mkWorld demo_driver 0 [] GL_INVALID_ENUM [] demo_state.

(** A driver that rejects nothing and whose compiler fails on shader 11. *)
Definition failing_driver : Driver :=
  mkDriver (fun _ _ => GL_NO_ERROR) (fun _ _ => None) (fun _ _ => None)
           (fun h => if h =? 11 then GL_FALSE else GL_TRUE)
           (fun _ => "0:1: syntax error") 16 (fun _ _ => 0) (fun _ _ => "").

Definition failing_world : World := mkWorld failing_driver 0 [] GL_NO_ERROR [] demo_state.

(** What the [check_error] calls of a script print, given the events its
    commands left in the log: for every command the driver rejected, the
    two lines of the report under the text and line of that command. *)
Definition script_report (file : string) (l : list Stmt) (evs : list Event) : list string :=
  concat (zip_with (fun s ev => error_report (ev_error ev) (st_expr s) file (st_line s)) l evs).

Definition disables (cap : GLenum) (c : GLCall) : bool :=
  match c with Disable cap' => cap' =? cap | _ => false end.

(** The statements of a draw before [glDrawArrays], and that statement. *)
Definition draw_setup (mesh : Mesh) (shader : Shader) (scissor : bool) (us : list UniformArg)
  : list Stmt :=
  [query_program; query_texture]
  ++ policy_script mesh shader scissor
  ++ uniform_script (uniforms shader) us
  ++ attrib_script shader
  ++ [mkStmt (LineWidth f2) "glLineWidth(2.0f)" 258].

Definition draw_stmt (mesh : Mesh) : Stmt :=
  mkStmt (DrawArrays (if is_line_loop mesh then GL_LINE_LOOP else GL_TRIANGLES) 0
                     (to_int32 (index_count mesh)))
         "glDrawArrays(mesh.is_line_loop ? GL_LINE_LOOP : GL_TRIANGLES, 0, mesh.index_count)"
         259.

Definition is_VertexAttribPointer (c : GLCall) : bool :=
  match c with VertexAttribPointer _ _ _ _ _ _ => true | _ => false end.
Definition is_EnableVertexAttribArray (c : GLCall) : bool :=
  match c with EnableVertexAttribArray _ => true | _ => false end.

(** A slot value that is an attribute index the driver accepts. *)
Definition usable_slot (d : Driver) (a : Z) : Prop :=
  0 <= a < max_vertex_attribs d /\ a < 2 ^ 32.

(** The three vertex streams of an [ImDrawVert] array in buffer [b]. *)
Definition pos_pointer (b : Z) : AttribPointer :=
  mkAttribPointer 2 GL_FLOAT GL_FALSE sizeof_ImDrawVert offsetof_pos b.
Definition uv_pointer (b : Z) : AttribPointer :=
  mkAttribPointer 2 GL_FLOAT GL_FALSE sizeof_ImDrawVert offsetof_uv b.
Definition col_pointer (b : Z) : AttribPointer :=
  mkAttribPointer 4 GL_UNSIGNED_BYTE GL_TRUE sizeof_ImDrawVert offsetof_col b.

(** A shader whose three attributes and two uniforms the linker knew. *)
Definition good_shader : Shader :=
  mkShader 7 3 2 [0; 1; 2; 0; 0; 0; 0; 0] [0; 1; 0; 0; 0; 0; 0; 0].

(** [demo_world] with a buffer of 160 bytes under name 9, the handle of
    [demo_mesh]. *)
Definition buffered_world : World :=
  mkWorld demo_driver 0 [] GL_NO_ERROR []
          (set_buffers {[9 := mkBuffer 160 35044 (replicate 8 None)]} demo_state).

(** A driver that rejects every query and every request for a name, and
    under which uninitialised locals hold 12. *)
Definition refusing_driver : Driver :=
  mkDriver (fun _ c => match c with
                       | GetIntegerv _ | GetShaderiv _ _ => GL_INVALID_OPERATION
                       | GenTextures _ | GenBuffers _ => GL_OUT_OF_MEMORY
                       | _ => GL_NO_ERROR
                       end)
           (fun _ _ => None) (fun _ _ => None)
           (fun _ => GL_TRUE) (fun _ => "") 16 (fun _ _ => 12) (fun _ _ => "").

Definition refusing_world : World := mkWorld refusing_driver 0 [] GL_NO_ERROR [] demo_state.

Definition white : Color := mkColor f1 f1 f1 f1.

(** ** Vocabulary of the quad's arithmetic and of the printed report *)

(** A positive normal binary32 number: 24 significant bits, exponent in
    range. *)
Definition normal32 (f : float) : Prop :=
  match f with
  | S754_finite false m e => 2 ^ 23 <= Zpos m < 2 ^ 24 /\ -149 <= e <= 104
  | _ => False
  end.

(** The rational [s] is the value of a positive normal binary32 number. *)
Definition binary32_value (s : Q) : Prop :=
  exists q e, 2 ^ 23 <= q < 2 ^ 24 /\ e <= 104 /\ (s == inject_Z q * Qpower 2 e)%Q.

(** 16777216.0f, that is 2^24: the first float whose successor is 2 away. *)
Definition f16777216 : float := S754_finite false 8388608 1.

(** Reading a decimal numeral back. *)
Definition read_dec (s : string) : option Z :=
  option_map Z.of_int (NilZero.int_of_string s).

(** The report in the format the specification gives:
    "<category> in <file>:<line>" followed by "--- Expression: <call text>". *)
Definition spec_report (category file : string) (line : Z) (expr : string) : list string :=
  [ category +:+ " in " +:+ file +:+ ":" +:+ dec line;
    "--- Expression: " +:+ expr ].

(** The names [compile_shader] holds in [shader.handle], [vert_handle] and
    [frag_handle] after its first three statements, started in [w]: what
    the driver handed back, 0 for a rejected command. *)
Definition created_program (w : World) : Z :=
  ret_int (gl_command CreateProgram w).1 0.

Definition created_vertex_shader (FILE__ : string) (w : World) : Z :=
  ret_int (gl_command (CreateShader GL_VERTEX_SHADER)
             (step FILE__ (mkStmt CreateProgram "glCreateProgram()" 115) w)).1 0.

Definition created_fragment_shader (FILE__ : string) (w : World) : Z :=
  ret_int (gl_command (CreateShader GL_FRAGMENT_SHADER)
             (step FILE__ (mkStmt (CreateShader GL_VERTEX_SHADER)
                                  "glCreateShader(GL_VERTEX_SHADER)" 116)
                (step FILE__ (mkStmt CreateProgram "glCreateProgram()" 115) w))).1 0.

(** * Properties *)

(** ** Running the monad *)

Lemma bind_run {A B : Type} (m : M A) (k : A -> M B) (w w' : World) (a : A) :
  m w = Some (a, w') -> bind m k w = k a w'.
Proof. intros H. unfold bind. now rewrite H. Qed.

Lemma bind_ret {A B : Type} (a : A) (k : A -> M B) (w : World) :
  bind (ret a) k w = k a w.
Proof. reflexivity. Qed.

Lemma bind_uninitialized {B : Type} (var : string) (k : Z -> M B) (w : World) :
  bind (uninitialized var) k w = k (indeterminate (driver w) (clock w) var) w.
Proof. reflexivity. Qed.

Lemma bind_uninitialized_text {B : Type} (var : string) (k : string -> M B) (w : World) :
  bind (uninitialized_text var) k w = k (indeterminate_text (driver w) (clock w) var) w.
Proof. reflexivity. Qed.

Lemma bind_printf {B : Type} (s : string) (k : unit -> M B) (w : World) :
  bind (printf s) k w = k tt (say s w).
Proof. reflexivity. Qed.

Lemma printf_run (s : string) (w : World) : printf s w = Some (tt, say s w).
Proof. reflexivity. Qed.

Lemma check_error_run (expr file : string) (line : Z) (w : World) :
  check_error expr file line w = Some (tt, checked expr file line w).
Proof.
  unfold check_error, checked, error_report, bind, glGetError.
  destruct (error_flag w =? GL_NO_ERROR).
  - unfold ret. now rewrite app_nil_r.
  - unfold printf. cbn [driver clock trace error_flag stdout gl_state].
    now rewrite <- app_assoc.
Qed.

Section running.

Variable FILE__ : string.

Lemma GLCHK_void (c : GLCall) (e : string) (l : Z) (w : World) :
  GLCHK FILE__ (gl_void c) e l w = Some (tt, step FILE__ (mkStmt c e l) w).
Proof.
  unfold GLCHK. unfold bind at 1. unfold gl_void at 1.
  unfold bind. now rewrite check_error_run.
Qed.

Lemma GLCHK_int (c : GLCall) (d : Z) (e : string) (l : Z) (w : World) :
  GLCHK FILE__ (gl_int c d) e l w
  = Some (ret_int (gl_command c w).1 d, step FILE__ (mkStmt c e l) w).
Proof.
  unfold GLCHK. unfold bind at 1. unfold gl_int at 1.
  unfold bind. now rewrite check_error_run.
Qed.

Lemma GLCHK_text (c : GLCall) (d : string) (e : string) (l : Z) (w : World) :
  GLCHK FILE__ (gl_text c d) e l w
  = Some (ret_text (gl_command c w).1 d, step FILE__ (mkStmt c e l) w).
Proof.
  unfold GLCHK. unfold bind at 1. unfold gl_text at 1.
  unfold bind. now rewrite check_error_run.
Qed.

Lemma bind_GLCHK_void {B : Type} (c : GLCall) (e : string) (l : Z) (k : unit -> M B)
    (w : World) :
  bind (GLCHK FILE__ (gl_void c) e l) k w = k tt (step FILE__ (mkStmt c e l) w).
Proof. apply bind_run, GLCHK_void. Qed.

Lemma bind_GLCHK_int {B : Type} (c : GLCall) (d : Z) (e : string) (l : Z) (k : Z -> M B)
    (w : World) :
  bind (GLCHK FILE__ (gl_int c d) e l) k w
  = k (ret_int (gl_command c w).1 d) (step FILE__ (mkStmt c e l) w).
Proof. apply bind_run, GLCHK_int. Qed.

Lemma bind_GLCHK_text {B : Type} (c : GLCall) (d : string) (e : string) (l : Z)
    (k : string -> M B) (w : World) :
  bind (GLCHK FILE__ (gl_text c d) e l) k w
  = k (ret_text (gl_command c w).1 d) (step FILE__ (mkStmt c e l) w).
Proof. apply bind_run, GLCHK_text. Qed.

Lemma steps_app (l1 l2 : list Stmt) (w : World) :
  steps FILE__ (l1 ++ l2) w = steps FILE__ l2 (steps FILE__ l1 w).
Proof. unfold steps. apply fold_left_app. Qed.

Lemma steps_cons (s : Stmt) (l : list Stmt) (w : World) :
  steps FILE__ (s :: l) w = steps FILE__ l (step FILE__ s w).
Proof. reflexivity. Qed.

Lemma steps_nil (w : World) : steps FILE__ [] w = w.
Proof. reflexivity. Qed.

End running.

Ltac unfold_gl :=
  unfold glGetIntegerv, glEnable, glDisable, glBlendEquation, glBlendFunc, glBindBuffer,
    glUseProgram, glUniform1f, glUniform2f, glUniform4f, glUniformMatrix4fv,
    glEnableVertexAttribArray, glVertexAttribPointer, glLineWidth, glDrawArrays,
    glBindTexture, glGenBuffers, glBufferData, glBufferSubData, glGenTextures,
    glTexParameteri, glTexImage2D, glCreateProgram, glCreateShader, glShaderSource,
    glCompileShader, glAttachShader, glLinkProgram, glGetShaderiv, glGetShaderInfoLog,
    glGetAttribLocation, glGetUniformLocation in *.

(** One statement of straight-line code. *)
Ltac run1 :=
  first [ rewrite bind_GLCHK_void | rewrite bind_GLCHK_int | rewrite bind_GLCHK_text
        | rewrite bind_uninitialized | rewrite bind_uninitialized_text
        | rewrite bind_printf | rewrite bind_ret | rewrite printf_run
        | rewrite GLCHK_void | rewrite GLCHK_int | rewrite GLCHK_text ];
  cbv beta.

Ltac run := unfold_gl; repeat run1.

(** ** The loops *)

Section loops.

Variable FILE__ : string.

Lemma array_get_lookup (a : list Z) (i : Z) (v : Z) (w : World) :
  0 <= i -> a !! Z.to_nat i = Some v -> array_get a i w = Some (v, w).
Proof.
  intros Hi Hv. unfold array_get.
  destruct (Z.leb_spec 0 i); [|lia]. now rewrite Hv.
Qed.

(** Decide the closed integer tests of the goal. *)
Ltac decide_tests :=
  repeat match goal with
         | |- context [Z.eqb ?a ?b] =>
             let v := eval vm_compute in (Z.eqb a b) in
             match v with
             | true => change (Z.eqb a b) with true
             | false => change (Z.eqb a b) with false
             end
         end;
  cbv iota.

Lemma push_uniform_run (shader : Shader) (u : UniformArg) (i v : Z) (rest : va_list)
    (w : World) :
  0 <= i ->
  uniforms shader !! Z.to_nat i = Some v ->
  push_uniform FILE__ shader i (encode1 u ++ rest) w
  = Some (rest, step FILE__ (upload_stmt v u) w).
Proof.
  intros Hi Hv. unfold push_uniform.
  destruct u; cbn [encode1 app upload_stmt va_arg_int];
    rewrite bind_ret; cbn [fst snd]; decide_tests;
    cbn [va_arg_double va_arg_float_ptr va_arg_Vec2 va_arg_Color];
    rewrite bind_ret; cbn [fst snd];
    rewrite (bind_run _ _ _ _ _ (array_get_lookup _ _ _ _ Hi Hv));
    now run.
Qed.

Lemma push_uniforms_run (shader : Shader) (us : list UniformArg) :
  forall (i : Z) (rest : va_list) (w : World),
    0 <= i ->
    (Z.to_nat i + length us <= length (uniforms shader))%nat ->
    for_ (length us) i (push_uniform FILE__ shader) (encode us ++ rest) w
    = Some (rest, steps FILE__ (uniform_script (drop (Z.to_nat i) (uniforms shader)) us) w).
Proof.
  induction us as [|u us IH]; intros i rest w Hi Hlen.
  - cbn. unfold uniform_script. now rewrite zip_with_nil_r.
  - cbn [length] in Hlen.
    destruct (lookup_lt_is_Some_2 (uniforms shader) (Z.to_nat i)) as [v Hv]; [lia|].
    rewrite (drop_S _ _ _ Hv).
    assert (Hnext : Z.to_nat (i + 1) = S (Z.to_nat i)) by lia.
    specialize (IH (i + 1) rest).
    rewrite Hnext in IH.
    cbn [length for_]. unfold encode. cbn [map concat]. fold (encode us).
    rewrite <- app_assoc.
    rewrite (bind_run _ _ _ _ _ (push_uniform_run shader u i v _ w Hi Hv)).
    unfold uniform_script. cbn [zip_with].
    rewrite steps_cons. apply IH; lia.
Qed.

Lemma enable_attrib_run (shader : Shader) (i v : Z) (w : World) :
  0 <= i ->
  attribs shader !! Z.to_nat i = Some v ->
  enable_attrib FILE__ shader i tt w = Some (tt, step FILE__ (enable_stmt v) w).
Proof.
  intros Hi Hv. unfold enable_attrib.
  rewrite (bind_run _ _ _ _ _ (array_get_lookup _ _ _ _ Hi Hv)).
  now run.
Qed.

Lemma enable_attribs_run (shader : Shader) (n : nat) :
  forall (i : Z) (w : World),
    0 <= i ->
    (Z.to_nat i + n <= length (attribs shader))%nat ->
    for_ n i (enable_attrib FILE__ shader) tt w
    = Some (tt, steps FILE__ (map enable_stmt (take n (drop (Z.to_nat i) (attribs shader)))) w).
Proof.
  induction n as [|n IH]; intros i w Hi Hlen.
  - reflexivity.
  - destruct (lookup_lt_is_Some_2 (attribs shader) (Z.to_nat i)) as [v Hv]; [lia|].
    rewrite (drop_S _ _ _ Hv).
    assert (Hnext : Z.to_nat (i + 1) = S (Z.to_nat i)) by lia.
    specialize (IH (i + 1)). rewrite Hnext in IH.
    cbn [for_ take map]. rewrite steps_cons.
    rewrite (bind_run _ _ _ _ _ (enable_attrib_run shader i v w Hi Hv)).
    apply IH; lia.
Qed.

Lemma set_vertex_attribs_run (shader : Shader) (w : World) :
  length (attribs shader) = 8%nat ->
  attrib_count shader <= 8 ->
  set_vertex_attribs FILE__ shader w = Some (tt, steps FILE__ (attrib_script shader) w).
Proof.
  intros Hlen Hn. unfold set_vertex_attribs, for_range, attrib_script.
  rewrite (bind_run _ _ _ _ _ (enable_attribs_run shader (Z.to_nat (attrib_count shader)) 0 w
                                    ltac:(lia) ltac:(lia))).
  change (Z.to_nat 0) with 0%nat. rewrite drop_0, steps_app.
  set (w1 := steps FILE__ _ w).
  destruct (attribs shader) as [|a0 [|a1 [|a2 l]]] eqn:Ha; try discriminate Hlen.
  unfold pointer_stmts. rewrite Ha. cbn [nth].
  rewrite (bind_run _ _ _ _ _ (array_get_lookup (a0 :: a1 :: a2 :: l) 0 a0 _ ltac:(lia) eq_refl)).
  run.
  rewrite (bind_run _ _ _ _ _ (array_get_lookup (a0 :: a1 :: a2 :: l) 1 a1 _ ltac:(lia) eq_refl)).
  run.
  destruct (2 <? attrib_count shader).
  - rewrite (bind_run _ _ _ _ _ (array_get_lookup (a0 :: a1 :: a2 :: l) 2 a2 _ ltac:(lia) eq_refl)).
    now run.
  - reflexivity.
Qed.

(** [draw_mesh] is its script: with the uniform arguments laid out as the
    loop reads them, at most 8 of them, and a shader whose attribute count
    fits its array, the call is defined and is the run of [draw_script]. *)
Lemma draw_mesh_run (mesh : Mesh) (shader : Shader) (scissor : bool)
    (us : list UniformArg) (rest : va_list) (w : World) :
  wf_shader shader ->
  attrib_count shader <= 8 ->
  (length us <= 8)%nat ->
  draw_mesh FILE__ mesh shader scissor (Z.of_nat (length us)) (encode us ++ rest) w
  = Some (tt, steps FILE__ (draw_script FILE__ mesh shader scissor us w) w).
Proof.
  intros [Ha Hu] Hn Hus. unfold draw_mesh, draw_script, for_range.
  rewrite Nat2Z.id.
  rewrite !steps_app. cbn [steps fold_left].
  fold (steps FILE__). unfold read_last_program, read_last_texture.
  run.
  assert (Hpre : forall (B : Type) (k : unit -> M B) (w0 : World),
             bind (if scissor
                   then GLCHK FILE__ (gl_void (Enable GL_SCISSOR_TEST)) "glEnable(GL_SCISSOR_TEST)" 218
                   else GLCHK FILE__ (gl_void (Disable GL_SCISSOR_TEST)) "glDisable(GL_SCISSOR_TEST)" 219)
                  k w0
             = k tt (step FILE__ (if scissor
                                  then mkStmt (Enable GL_SCISSOR_TEST) "glEnable(GL_SCISSOR_TEST)" 218
                                  else mkStmt (Disable GL_SCISSOR_TEST) "glDisable(GL_SCISSOR_TEST)" 219)
                          w0)).
  { intros B k w0. destruct scissor; now run. }
  rewrite Hpre. run.
  unfold policy_script, issue_script, restore_script. cbn [steps fold_left].
  fold (steps FILE__).
  match goal with
  | |- bind (for_ _ _ _ _) _ ?w1 = _ =>
      rewrite (bind_run _ _ _ _ _
                 (push_uniforms_run shader us 0 rest w1 ltac:(lia) ltac:(cbn; lia)))
  end.
  change (Z.to_nat 0) with 0%nat. rewrite drop_0.
  match goal with
  | |- bind (set_vertex_attribs _ _) _ ?w1 = _ =>
      rewrite (bind_run _ _ _ _ _ (set_vertex_attribs_run shader w1 Ha Hn))
  end.
  now run.
Qed.

Lemma transform_quad_run (mesh : Mesh) (pos size : Vec2) (w : World) :
  transform_quad FILE__ mesh pos size w
  = Some (mesh, steps FILE__ (transform_script mesh pos size) w).
Proof. unfold transform_quad. now run. Qed.

End loops.

(** ** What a command can change *)

Ltac split_cases :=
  repeat match goal with
         | |- context [if ?b then _ else _] => destruct b
         | |- context [match ?x with Some _ => _ | None => _ end] => destruct x eqn:?
         end.

Ltac by_command c :=
  let Hc := fresh "Hc" in
  intros Hc; unfold outcome; destruct c; try discriminate Hc; clear Hc;
  cbn [gl_apply]; unfold upload, fresh, ok, ok_int, rejected;
  split_cases; cbn; try reflexivity.

(** The uniform and attribute statements are uploads and attribute
    commands. *)
Lemma uniform_script_uploads (slots : list Z) (us : list UniformArg) :
  forallb (fun s => is_upload (st_call s)) (uniform_script slots us) = true.
Proof.
  revert slots. induction us as [|u us IH]; intros [|a slots]; try reflexivity.
  specialize (IH slots). unfold uniform_script in *. cbn [zip_with forallb].
  rewrite IH. now destruct u.
Qed.

Lemma attrib_script_attribs (shader : Shader) :
  forallb (fun s => is_attrib (st_call s)) (attrib_script shader) = true.
Proof.
  unfold attrib_script, pointer_stmts. rewrite !forallb_app.
  rewrite !andb_true_iff. repeat split.
  - induction (take _ _) as [|a l IH]; [reflexivity|exact IH].
  - now destruct (2 <? attrib_count shader).
Qed.

Lemma forallb_weaken {A : Type} (p q : A -> bool) (l : list A) :
  (forall a, p a = true -> q a = true) -> forallb p l = true -> forallb q l = true.
Proof.
  intros H. induction l as [|a l IH]; [reflexivity|].
  cbn [forallb]. rewrite !andb_true_iff. intros [Ha Hl]. auto.
Qed.

Lemma outcome_program (c : GLCall) (w : World) :
  is_UseProgram c = false ->
  current_program (outcome c w).2 = current_program (gl_state w).
Proof. by_command c. Qed.

Lemma outcome_texture (c : GLCall) (w : World) :
  is_BindTexture c = false ->
  texture_binding_2d (outcome c w).2 = texture_binding_2d (gl_state w).
Proof. by_command c. Qed.

Lemma outcome_array_buffer (c : GLCall) (w : World) :
  is_BindBuffer c = false ->
  array_buffer_binding (outcome c w).2 = array_buffer_binding (gl_state w).
Proof. by_command c. Qed.

Lemma outcome_blend_equation (c : GLCall) (w : World) :
  is_BlendEquation c = false ->
  blend_equation (outcome c w).2 = blend_equation (gl_state w).
Proof. by_command c. Qed.

Lemma outcome_blend_func (c : GLCall) (w : World) :
  is_BlendFunc c = false ->
  blend_func (outcome c w).2 = blend_func (gl_state w).
Proof. by_command c. Qed.

Lemma outcome_line_width (c : GLCall) (w : World) :
  is_LineWidth c = false ->
  line_width (outcome c w).2 = line_width (gl_state w).
Proof. by_command c. Qed.

Lemma outcome_disabled (cap : GLenum) (c : GLCall) (w : World) :
  enables cap c = false ->
  cap ∉ enabled (gl_state w) -> cap ∉ enabled (outcome c w).2.
Proof.
  intros Hc. unfold outcome. destruct c;
    cbn [gl_apply]; unfold upload, fresh, ok, ok_int, rejected;
    split_cases; cbn; intros H; try exact H.
  - cbn in Hc. apply Z.eqb_neq in Hc.
    rewrite elem_of_union, elem_of_singleton. intros [Heq|Hin]; [congruence|auto].
  - rewrite elem_of_difference. intros [Hin _]. auto.
Qed.

Ltac in_caps :=
  unfold known_caps;
  repeat first [apply list_elem_of_here | apply list_elem_of_further].

Lemma known_cap (cap : GLenum) :
  cap ∈ known_caps -> bool_decide (cap ∈ known_caps) = true.
Proof. apply bool_decide_eq_true_2. Qed.

Lemma outcome_Disable (cap : GLenum) (w : World) :
  cap ∈ known_caps ->
  fault (driver w) (clock w) (Disable cap) = GL_NO_ERROR ->
  cap ∉ enabled (outcome (Disable cap) w).2.
Proof.
  intros Hk Hf. unfold outcome. rewrite Hf. cbn [Z.eqb GL_NO_ERROR gl_apply].
  rewrite (known_cap cap Hk). cbn.
  rewrite elem_of_difference, elem_of_singleton. intros [_ Hne]. auto.
Qed.

Lemma uniform_untouched (touches : GLCall -> bool) (slots : list Z) (us : list UniformArg) :
  (forall c, is_upload c = true -> touches c = false) ->
  forallb (fun s => negb (touches (st_call s))) (uniform_script slots us) = true.
Proof.
  intros H. apply (forallb_weaken (fun s => is_upload (st_call s)));
    [|apply uniform_script_uploads].
  intros s Hs. now rewrite H.
Qed.

Lemma attrib_untouched (touches : GLCall -> bool) (shader : Shader) :
  (forall c, is_attrib c = true -> touches c = false) ->
  forallb (fun s => negb (touches (st_call s))) (attrib_script shader) = true.
Proof.
  intros H. apply (forallb_weaken (fun s => is_attrib (st_call s)));
    [|apply attrib_script_attribs].
  intros s Hs. now rewrite H.
Qed.

Lemma uint32_of_int32 (z : Z) : 0 <= z < 2 ^ 32 -> to_uint32 (to_int32 z) = z.
Proof.
  intros Hz. unfold to_uint32, to_int32.
  rewrite Zminus_mod_idemp_l.
  replace (z + 2 ^ 31 - 2 ^ 31) with z by lia.
  now apply Z.mod_small.
Qed.

Lemma outcome_buffer_size (b : Z) (c : GLCall) (w : World) :
  is_BufferData c = false ->
  buf_size <$> (buffers (outcome c w).2 !! b) = buf_size <$> (buffers (gl_state w) !! b).
Proof.
  by_command c.
  destruct (decide (array_buffer_binding (gl_state w) = b)) as [<-|Hne].
  - rewrite lookup_insert_eq.
    match goal with H : _ !! _ = Some _ |- _ => now rewrite H end.
  - now rewrite lookup_insert_ne.
Qed.

Section frames.

Variable FILE__ : string.

Lemma driver_step (s : Stmt) (w : World) : driver (step FILE__ s w) = driver w.
Proof. reflexivity. Qed.

Lemma clock_step (s : Stmt) (w : World) : clock (step FILE__ s w) = S (clock w).
Proof. reflexivity. Qed.

Lemma gl_state_step (s : Stmt) (w : World) :
  gl_state (step FILE__ s w) = (outcome (st_call s) w).2.
Proof. reflexivity. Qed.

Lemma driver_steps (l : list Stmt) (w : World) : driver (steps FILE__ l w) = driver w.
Proof. revert w. induction l as [|s l IH]; intros w; [reflexivity|]. now rewrite steps_cons, IH. Qed.

Lemma calls_steps (l : list Stmt) (w : World) :
  calls (steps FILE__ l w) = calls w ++ map st_call l.
Proof.
  revert w. induction l as [|s l IH]; intros w.
  - cbn. now rewrite app_nil_r.
  - rewrite steps_cons, IH. unfold calls, step. cbn.
    now rewrite map_app, <- app_assoc.
Qed.

Lemma clock_steps (l : list Stmt) (w : World) :
  clock (steps FILE__ l w) = (clock w + length l)%nat.
Proof.
  revert w. induction l as [|s l IH]; intros w.
  - cbn. lia.
  - rewrite steps_cons, IH. cbn. lia.
Qed.

(** A property of the context state that only the commands [touches]
    selects can break holds after a script that issues none of them. *)
Lemma steps_invariant (P : GLState -> Prop) (touches : GLCall -> bool) :
  (forall c w, touches c = false -> P (gl_state w) -> P (outcome c w).2) ->
  forall (l : list Stmt) (w : World),
    forallb (fun s => negb (touches (st_call s))) l = true ->
    P (gl_state w) -> P (gl_state (steps FILE__ l w)).
Proof.
  intros Hstep l. induction l as [|s l IH]; intros w Hl HP; [exact HP|].
  cbn [forallb] in Hl. apply andb_true_iff in Hl as [Hs Hl].
  rewrite steps_cons. apply IH; [exact Hl|].
  apply (Hstep (st_call s) w); [|exact HP].
  now destruct (touches (st_call s)).
Qed.

Lemma steps_frame {A : Type} (f : GLState -> A) (touches : GLCall -> bool) :
  (forall c w, touches c = false -> f (outcome c w).2 = f (gl_state w)) ->
  forall (l : list Stmt) (w : World),
    forallb (fun s => negb (touches (st_call s))) l = true ->
    f (gl_state (steps FILE__ l w)) = f (gl_state w).
Proof.
  intros Hstep l w Hl.
  apply (steps_invariant (fun s => f s = f (gl_state w)) touches); [|exact Hl|reflexivity].
  intros c w0 Hc H. now rewrite Hstep.
Qed.

Lemma step_invariant (P : GLState -> Prop) (touches : GLCall -> bool) :
  (forall c w, touches c = false -> P (gl_state w) -> P (outcome c w).2) ->
  forall (s : Stmt) (w : World),
    touches (st_call s) = false -> P (gl_state w) -> P (gl_state (step FILE__ s w)).
Proof. intros H s w Hs HP. rewrite gl_state_step. now apply H. Qed.

Lemma step_frame {A : Type} (f : GLState -> A) (touches : GLCall -> bool) :
  (forall c w, touches c = false -> f (outcome c w).2 = f (gl_state w)) ->
  forall (s : Stmt) (w : World),
    touches (st_call s) = false -> f (gl_state (step FILE__ s w)) = f (gl_state w).
Proof. intros H s w Hs. rewrite gl_state_step. now apply H. Qed.

Lemma gl_state_step_frame_program (s : Stmt) (w : World) :
  is_UseProgram (st_call s) = false ->
  current_program (gl_state (step FILE__ s w)) = current_program (gl_state w).
Proof. intros H. unfold step. cbn. now apply outcome_program. Qed.

Lemma gl_state_step_frame_texture (s : Stmt) (w : World) :
  is_BindTexture (st_call s) = false ->
  texture_binding_2d (gl_state (step FILE__ s w)) = texture_binding_2d (gl_state w).
Proof. intros H. unfold step. cbn. now apply outcome_texture. Qed.

End frames.

(** ** The draw call *)

Ltac untouched :=
  unfold policy_script, issue_script, restore_script, query_program, query_texture;
  cbn [app forallb st_call negb andb is_UseProgram is_BindTexture is_BindBuffer
       is_BlendEquation is_BlendFunc is_LineWidth enables];
  rewrite ?forallb_app, ?andb_true_iff;
  repeat match goal with
         | |- _ /\ _ => split
         | |- forallb _ (uniform_script _ _) = true =>
             apply uniform_untouched; intros c; destruct c; (discriminate || reflexivity)
         | |- forallb _ (attrib_script _) = true =>
             apply attrib_untouched; intros c; destruct c; (discriminate || reflexivity)
         | |- _ = true => reflexivity
         end.

Section draw.

Variable FILE__ : string.

Lemma read_last_program_ok (w : World) :
  fault (driver w) (clock w) (GetIntegerv GL_CURRENT_PROGRAM) = GL_NO_ERROR ->
  read_last_program w = to_int32 (current_program (gl_state w)).
Proof.
  intros Hf. unfold read_last_program, gl_command, outcome. now rewrite Hf.
Qed.

Lemma read_last_texture_ok (w : World) :
  fault (driver w) (S (clock w)) (GetIntegerv GL_TEXTURE_BINDING_2D) = GL_NO_ERROR ->
  read_last_texture FILE__ w = to_int32 (texture_binding_2d (gl_state w)).
Proof.
  intros Hf. unfold read_last_texture, gl_command.
  cbn [fst snd]. unfold outcome at 1.
  change (driver (step FILE__ query_program w)) with (driver w).
  change (clock (step FILE__ query_program w)) with (S (clock w)).
  rewrite Hf. cbn [Z.eqb GL_NO_ERROR gl_apply].
  change (gl_state (step FILE__ query_program w))
    with (outcome (st_call query_program) w).2.
  cbn. now rewrite outcome_texture.
Qed.

Lemma draw_script_split (mesh : Mesh) (shader : Shader) (scissor : bool)
    (us : list UniformArg) (w : World) :
  draw_script FILE__ mesh shader scissor us w
  = draw_body mesh shader scissor us
    ++ restore_script (read_last_program w) (read_last_texture FILE__ w).
Proof. unfold draw_script, draw_body. now rewrite <- !app_assoc. Qed.

Lemma draw_body_texture (mesh : Mesh) (shader : Shader) (scissor : bool)
    (us : list UniformArg) (w : World) :
  texture_binding_2d (gl_state (steps FILE__ (draw_body mesh shader scissor us) w))
  = texture_binding_2d (gl_state w).
Proof.
  apply (steps_frame FILE__ texture_binding_2d is_BindTexture outcome_texture).
  unfold draw_body. destruct scissor; untouched.
Qed.

Lemma step_UseProgram (p : Z) (e : string) (l : Z) (w : World) :
  fault (driver w) (clock w) (UseProgram p) = GL_NO_ERROR ->
  current_program (gl_state (step FILE__ (mkStmt (UseProgram p) e l) w)) = p.
Proof.
  intros Hf. unfold step, gl_command, outcome. cbn [st_call]. now rewrite Hf.
Qed.

Lemma step_BindTexture (t : Z) (e : string) (l : Z) (w : World) :
  texture_binding_2d (gl_state (step FILE__ (mkStmt (BindTexture GL_TEXTURE_2D t) e l) w)) = t
  \/ texture_binding_2d (gl_state (step FILE__ (mkStmt (BindTexture GL_TEXTURE_2D t) e l) w))
     = texture_binding_2d (gl_state w).
Proof.
  unfold step, gl_command, outcome. cbn [st_call].
  destruct (_ =? GL_NO_ERROR); [left|right]; reflexivity.
Qed.

(** After the script of a draw the previously current program is bound
    again, provided the driver answered the query and accepts binding it. *)
Lemma draw_script_restores_program
    (mesh : Mesh) (shader : Shader) (scissor : bool) (us : list UniformArg) (w : World) :
  0 <= current_program (gl_state w) < 2 ^ 32 ->
  fault (driver w) (clock w) (GetIntegerv GL_CURRENT_PROGRAM) = GL_NO_ERROR ->
  (forall k, fault (driver w) k (UseProgram (current_program (gl_state w))) = GL_NO_ERROR) ->
  current_program (gl_state (steps FILE__ (draw_script FILE__ mesh shader scissor us w) w))
  = current_program (gl_state w).
Proof.
  intros Hp Hq1 Huse.
  rewrite draw_script_split, steps_app.
  rewrite (read_last_program_ok w Hq1).
  unfold restore_script. rewrite uint32_of_int32 by assumption.
  set (w1 := steps FILE__ (draw_body mesh shader scissor us) w).
  assert (Hd : driver w1 = driver w) by apply driver_steps.
  rewrite !steps_cons, steps_nil.
  rewrite !gl_state_step_frame_program by reflexivity.
  apply step_UseProgram. rewrite driver_step, Hd. apply Huse.
Qed.

(** After the script of a draw the 2D texture binding is what it was,
    provided the driver answered the query: nothing before the last
    statement binds a texture, and the last one binds the texture read by
    the query or, rejected, binds nothing. *)
Lemma draw_script_keeps_texture
    (mesh : Mesh) (shader : Shader) (scissor : bool) (us : list UniformArg) (w : World) :
  0 <= texture_binding_2d (gl_state w) < 2 ^ 32 ->
  fault (driver w) (S (clock w)) (GetIntegerv GL_TEXTURE_BINDING_2D) = GL_NO_ERROR ->
  texture_binding_2d (gl_state (steps FILE__ (draw_script FILE__ mesh shader scissor us w) w))
  = texture_binding_2d (gl_state w).
Proof.
  intros Ht Hq2.
  rewrite draw_script_split, steps_app.
  rewrite (read_last_texture_ok w Hq2).
  unfold restore_script. rewrite uint32_of_int32 by assumption.
  set (w1 := steps FILE__ (draw_body mesh shader scissor us) w).
  assert (Ht1 : texture_binding_2d (gl_state w1) = texture_binding_2d (gl_state w))
    by apply draw_body_texture.
  rewrite !steps_cons, steps_nil.
  match goal with
  | |- context [step _ (mkStmt (BindTexture _ _) _ _) ?w4] => set (w5 := w4)
  end.
  assert (H5 : texture_binding_2d (gl_state w5) = texture_binding_2d (gl_state w)).
  { subst w5. rewrite !gl_state_step_frame_texture by reflexivity. exact Ht1. }
  destruct (step_BindTexture (texture_binding_2d (gl_state w))
              "glBindTexture(GL_TEXTURE_2D, last_texture)" 267 w5) as [H|H];
    rewrite H; [reflexivity|exact H5].
Qed.

(** C1 (as amended): whatever the driver does with the other commands of
    the draw, if it answers the two state queries and accepts the command
    that binds the previously current program again, the program and the
    2D texture bound after [draw_mesh] are the ones bound before it. *)
Theorem draw_mesh_restores_program_and_texture
    (mesh : Mesh) (shader : Shader) (scissor : bool) (us : list UniformArg)
    (rest : va_list) (w : World) :
  wf_shader shader ->
  attrib_count shader <= 8 ->
  (length us <= 8)%nat ->
  0 <= current_program (gl_state w) < 2 ^ 32 ->
  0 <= texture_binding_2d (gl_state w) < 2 ^ 32 ->
  fault (driver w) (clock w) (GetIntegerv GL_CURRENT_PROGRAM) = GL_NO_ERROR ->
  fault (driver w) (S (clock w)) (GetIntegerv GL_TEXTURE_BINDING_2D) = GL_NO_ERROR ->
  (forall k, fault (driver w) k (UseProgram (current_program (gl_state w))) = GL_NO_ERROR) ->
  exists w',
    draw_mesh FILE__ mesh shader scissor (Z.of_nat (length us)) (encode us ++ rest) w
    = Some (tt, w')
    /\ current_program (gl_state w') = current_program (gl_state w)
    /\ texture_binding_2d (gl_state w') = texture_binding_2d (gl_state w).
Proof.
  intros Hwf Hn Hus Hp Ht Hq1 Hq2 Huse.
  exists (steps FILE__ (draw_script FILE__ mesh shader scissor us w) w).
  split; [now apply draw_mesh_run|]. split.
  - now apply draw_script_restores_program.
  - now apply draw_script_keeps_texture.
Qed.

Lemma quiet_steps (l : list Stmt) (w : World) : quiet w -> quiet (steps FILE__ l w).
Proof. unfold quiet. now rewrite driver_steps. Qed.

Lemma quiet_step (s : Stmt) (w : World) : quiet w -> quiet (step FILE__ s w).
Proof. unfold quiet. now rewrite driver_step. Qed.

Lemma quiet_state (s : Stmt) (w : World) :
  quiet w ->
  gl_state (step FILE__ s w) = (gl_apply (driver w) (st_call s) (gl_state w)).2.
Proof. intros Hq. rewrite gl_state_step. unfold outcome. now rewrite Hq. Qed.

Lemma quiet_Disable (cap : GLenum) (e : string) (l : Z) (w : World) :
  cap ∈ known_caps ->
  quiet w ->
  cap ∉ enabled (gl_state (step FILE__ (mkStmt (Disable cap) e l) w)).
Proof. intros Hk Hq. rewrite gl_state_step. now apply outcome_Disable. Qed.

(** C5 (as amended): with a driver that rejects nothing, [draw_mesh] puts
    back the program and the 2D texture that were bound before the call,
    and leaves the rest of the state it touches at fixed values, whatever
    they were before: no array buffer bound, blending, scissor test, face
    culling and depth test disabled, the blend equation [GL_FUNC_ADD], the
    blend function ([GL_SRC_ALPHA], [GL_ONE_MINUS_SRC_ALPHA]) and the line
    width 2. *)
Theorem draw_mesh_final_state
    (mesh : Mesh) (shader : Shader) (scissor : bool) (us : list UniformArg)
    (rest : va_list) (w : World) :
  wf_shader shader ->
  attrib_count shader <= 8 ->
  (length us <= 8)%nat ->
  0 <= current_program (gl_state w) < 2 ^ 32 ->
  0 <= texture_binding_2d (gl_state w) < 2 ^ 32 ->
  quiet w ->
  exists w',
    draw_mesh FILE__ mesh shader scissor (Z.of_nat (length us)) (encode us ++ rest) w
    = Some (tt, w')
    /\ current_program (gl_state w') = current_program (gl_state w)
    /\ texture_binding_2d (gl_state w') = texture_binding_2d (gl_state w)
    /\ array_buffer_binding (gl_state w') = 0
    /\ (GL_BLEND ∉ enabled (gl_state w'))
    /\ (GL_SCISSOR_TEST ∉ enabled (gl_state w'))
    /\ (GL_CULL_FACE ∉ enabled (gl_state w'))
    /\ (GL_DEPTH_TEST ∉ enabled (gl_state w'))
    /\ blend_equation (gl_state w') = GL_FUNC_ADD
    /\ blend_func (gl_state w') = (GL_SRC_ALPHA, GL_ONE_MINUS_SRC_ALPHA)
    /\ line_width (gl_state w') = f2.
Proof.
  intros Hwf Hn Hus Hp Ht Hq.
  exists (steps FILE__ (draw_script FILE__ mesh shader scissor us w) w).
  split; [now apply draw_mesh_run|].
  split; [apply draw_script_restores_program; auto|].
  split; [apply draw_script_keeps_texture; auto|].
  unfold draw_script, policy_script, issue_script.
  set (R := restore_script _ _).
  assert (HR : R = restore_script (read_last_program w) (read_last_texture FILE__ w))
    by reflexivity.
  cbn [app]. rewrite ?steps_cons.
  repeat split.
  - (* array buffer *)
    rewrite !steps_app, !steps_cons. subst R. unfold restore_script.
    rewrite !steps_cons, steps_nil.
    rewrite !(step_frame FILE__ _ _ outcome_array_buffer) by reflexivity.
    rewrite quiet_state; [reflexivity|].
    repeat first [apply quiet_step | apply quiet_steps]. exact Hq.
  - (* blending *)
    rewrite !steps_app, !steps_cons. subst R. unfold restore_script.
    rewrite !steps_cons, steps_nil.
    apply (step_invariant FILE__ (fun s => GL_BLEND ∉ enabled s) _ (outcome_disabled GL_BLEND)); [reflexivity|].
    apply quiet_Disable; [in_caps|].
    repeat first [apply quiet_step | apply quiet_steps]. exact Hq.
  - (* scissor test *)
    rewrite !steps_app, !steps_cons. subst R. unfold restore_script.
    rewrite !steps_cons, steps_nil.
    do 2 (apply (step_invariant FILE__ (fun s => GL_SCISSOR_TEST ∉ enabled s) _ (outcome_disabled GL_SCISSOR_TEST));
          [reflexivity|]).
    apply quiet_Disable; [in_caps|].
    repeat first [apply quiet_step | apply quiet_steps]. exact Hq.
  - (* face culling *)
    apply (steps_invariant FILE__ (fun s => GL_CULL_FACE ∉ enabled s) _ (outcome_disabled GL_CULL_FACE));
      [subst R; untouched|].
    do 4 (apply (step_invariant FILE__ (fun s => GL_CULL_FACE ∉ enabled s) _ (outcome_disabled GL_CULL_FACE));
          [now destruct scissor|]).
    apply quiet_Disable; [in_caps|].
    repeat first [apply quiet_step | apply quiet_steps]. exact Hq.
  - (* depth test *)
    apply (steps_invariant FILE__ (fun s => GL_DEPTH_TEST ∉ enabled s) _ (outcome_disabled GL_DEPTH_TEST));
      [subst R; untouched|].
    do 3 (apply (step_invariant FILE__ (fun s => GL_DEPTH_TEST ∉ enabled s) _ (outcome_disabled GL_DEPTH_TEST));
          [now destruct scissor|]).
    apply quiet_Disable; [in_caps|].
    repeat first [apply quiet_step | apply quiet_steps]. exact Hq.
  - (* blend equation *)
    rewrite (steps_frame FILE__ _ _ outcome_blend_equation) by (subst R; untouched).
    rewrite !(step_frame FILE__ _ _ outcome_blend_equation) by now destruct scissor.
    rewrite quiet_state; [reflexivity|].
    repeat first [apply quiet_step | apply quiet_steps]. exact Hq.
  - (* blend function *)
    rewrite (steps_frame FILE__ _ _ outcome_blend_func) by (subst R; untouched).
    rewrite !(step_frame FILE__ _ _ outcome_blend_func) by now destruct scissor.
    rewrite quiet_state; [reflexivity|].
    repeat first [apply quiet_step | apply quiet_steps]. exact Hq.
  - (* line width *)
    rewrite !steps_app, !steps_cons.
    rewrite (steps_frame FILE__ _ _ outcome_line_width) by (subst R; untouched).
    rewrite !(step_frame FILE__ _ _ outcome_line_width) by reflexivity.
    rewrite quiet_state; [reflexivity|].
    repeat first [apply quiet_step | apply quiet_steps]. exact Hq.
Qed.

Lemma draw_mesh_calls (mesh : Mesh) (shader : Shader) (scissor : bool)
    (us : list UniformArg) (rest : va_list) (w : World) :
  wf_shader shader ->
  attrib_count shader <= 8 ->
  (length us <= 8)%nat ->
  exists w',
    draw_mesh FILE__ mesh shader scissor (Z.of_nat (length us)) (encode us ++ rest) w
    = Some (tt, w')
    /\ calls w' = calls w ++ map st_call (draw_script FILE__ mesh shader scissor us w).
Proof.
  intros Hwf Hn Hus. eexists. split; [now apply draw_mesh_run|]. apply calls_steps.
Qed.

Lemma uniform_script_calls (slots : list Z) (us : list UniformArg) :
  map st_call (uniform_script slots us) = zip_with upload_call slots us.
Proof.
  revert slots. induction us as [|u us IH]; intros [|a slots]; try reflexivity.
  specialize (IH slots). unfold uniform_script in *. cbn [zip_with map].
  now rewrite IH.
Qed.

Lemma forallb_map {A B : Type} (p : B -> bool) (f : A -> B) (l : list A) :
  forallb p (map f l) = forallb (fun a => p (f a)) l.
Proof. induction l as [|a l IH]; [reflexivity|]. cbn. now rewrite IH. Qed.

(** C3 (as amended): [draw_mesh] walks the uniform arguments in order and
    pairs the j-th argument with the j-th uniform slot; it issues one
    upload for every argument, also for one whose slot holds -1, passing
    the -1 on as the location.  It issues no upload elsewhere.  The driver
    accepts an upload to location -1 without an error and without changing
    the context. *)
Theorem draw_mesh_uploads_by_position
    (mesh : Mesh) (shader : Shader) (scissor : bool) (us : list UniformArg)
    (rest : va_list) (w : World) :
  wf_shader shader ->
  attrib_count shader <= 8 ->
  (length us <= 8)%nat ->
  exists w' pre post,
    draw_mesh FILE__ mesh shader scissor (Z.of_nat (length us)) (encode us ++ rest) w
    = Some (tt, w')
    /\ calls w' = calls w ++ pre ++ zip_with upload_call (uniforms shader) us ++ post
    /\ length pre = 10%nat
    /\ forallb (fun c => negb (is_upload c)) pre = true
    /\ forallb (fun c => negb (is_upload c)) post = true
    /\ (forall u w0,
          fault (driver w0) (clock w0) (upload_call (-1) u) = GL_NO_ERROR ->
          outcome (upload_call (-1) u) w0 = (GL_NO_ERROR, RVoid, gl_state w0)).
Proof.
  intros Hwf Hn Hus.
  destruct (draw_mesh_calls mesh shader scissor us rest w Hwf Hn Hus) as (w' & Hrun & Hcalls).
  exists w'.
  exists (map st_call ([query_program; query_texture] ++ policy_script mesh shader scissor)).
  exists (map st_call (attrib_script shader ++ issue_script mesh
                       ++ restore_script (read_last_program w) (read_last_texture FILE__ w))).
  split; [exact Hrun|]. split_and!.
  - rewrite Hcalls. unfold draw_script.
    now rewrite !map_app, uniform_script_calls, <- !app_assoc.
  - now destruct scissor.
  - rewrite !forallb_map. now destruct scissor.
  - rewrite forallb_map. untouched.
  - intros u w0 Hf. unfold outcome. rewrite Hf. now destruct u.
Qed.

(** What [set_vertex_attribs] issues, slot by slot. *)
Lemma attrib_script_calls (shader : Shader) :
  map st_call (attrib_script shader)
  = map (fun a => EnableVertexAttribArray (to_uint32 a))
        (take (Z.to_nat (attrib_count shader)) (attribs shader))
    ++ [ VertexAttribPointer (to_uint32 (nth 0 (attribs shader) 0)) 2 GL_FLOAT GL_FALSE
                             sizeof_ImDrawVert offsetof_pos;
         VertexAttribPointer (to_uint32 (nth 1 (attribs shader) 0)) 2 GL_FLOAT GL_FALSE
                             sizeof_ImDrawVert offsetof_uv ]
    ++ (if 2 <? attrib_count shader
        then [ VertexAttribPointer (to_uint32 (nth 2 (attribs shader) 0)) 4 GL_UNSIGNED_BYTE
                                   GL_TRUE sizeof_ImDrawVert offsetof_col ]
        else []).
Proof.
  unfold attrib_script, pointer_stmts. rewrite !map_app, map_map.
  now destruct (2 <? attrib_count shader).
Qed.

Lemma rejected_attrib_index (d : Driver) :
  max_vertex_attribs d <= 2 ^ 31 - 1 ->
  valid_attrib_index d (to_uint32 (-1)) = false.
Proof.
  intros Hmax. unfold valid_attrib_index.
  change (to_uint32 (-1)) with 4294967295.
  apply andb_false_iff. right. apply Z.ltb_ge. lia.
Qed.

(** C4 (as amended): a slot of the attribute table holding -1 is tolerated:
    [draw_mesh] is defined and still issues the enable call for every slot
    below [attrib_count] and the pointer calls for slots 0 and 1 (and 2 when
    [attrib_count > 2]), a slot holding -1 included, whose index goes out as
    4294967295.  It issues no attribute command elsewhere.  The driver,
    whose attribute limit fits a [GLint], rejects the enable and the pointer
    command for index 4294967295 and changes nothing. *)
Theorem draw_mesh_binds_every_attribute_slot
    (mesh : Mesh) (shader : Shader) (scissor : bool) (us : list UniformArg)
    (rest : va_list) (w : World) :
  wf_shader shader ->
  attrib_count shader <= 8 ->
  (length us <= 8)%nat ->
  exists w' pre post,
    draw_mesh FILE__ mesh shader scissor (Z.of_nat (length us)) (encode us ++ rest) w
    = Some (tt, w')
    /\ calls w'
       = calls w ++ pre
         ++ (map (fun a => EnableVertexAttribArray (to_uint32 a))
                 (take (Z.to_nat (attrib_count shader)) (attribs shader))
             ++ [ VertexAttribPointer (to_uint32 (nth 0 (attribs shader) 0)) 2 GL_FLOAT
                                      GL_FALSE sizeof_ImDrawVert offsetof_pos;
                  VertexAttribPointer (to_uint32 (nth 1 (attribs shader) 0)) 2 GL_FLOAT
                                      GL_FALSE sizeof_ImDrawVert offsetof_uv ]
             ++ (if 2 <? attrib_count shader
                 then [ VertexAttribPointer (to_uint32 (nth 2 (attribs shader) 0)) 4
                                            GL_UNSIGNED_BYTE GL_TRUE sizeof_ImDrawVert
                                            offsetof_col ]
                 else []))
         ++ post
    /\ forallb (fun c => negb (is_attrib c)) pre = true
    /\ forallb (fun c => negb (is_attrib c)) post = true
    /\ to_uint32 (-1) = 4294967295
    /\ (forall w0 c,
          max_vertex_attribs (driver w0) <= 2 ^ 31 - 1 ->
          c = EnableVertexAttribArray 4294967295
          \/ (exists size type normalized stride pointer,
                c = VertexAttribPointer 4294967295 size type normalized stride pointer) ->
          (outcome c w0).1.1 <> GL_NO_ERROR /\ (outcome c w0).2 = gl_state w0).
Proof.
  intros Hwf Hn Hus.
  destruct (draw_mesh_calls mesh shader scissor us rest w Hwf Hn Hus) as (w' & Hrun & Hcalls).
  exists w'.
  exists (map st_call ([query_program; query_texture] ++ policy_script mesh shader scissor
                       ++ uniform_script (uniforms shader) us)).
  exists (map st_call (issue_script mesh
                       ++ restore_script (read_last_program w) (read_last_texture FILE__ w))).
  split; [exact Hrun|]. split_and!.
  - rewrite Hcalls. unfold draw_script.
    rewrite <- attrib_script_calls. now rewrite !map_app, <- !app_assoc.
  - rewrite forallb_map. change (?a :: ?b :: nil) with ([a; b]).
    destruct scissor; untouched.
  - now rewrite forallb_map.
  - reflexivity.
  - intros w0 c Hmax Hc.
    destruct Hc as [->|(size & type & normalized & stride & pointer & ->)];
      unfold outcome; destruct (_ =? GL_NO_ERROR) eqn:Hf; cbn [gl_apply rejected fst snd];
      try (apply Z.eqb_neq in Hf; split; [exact Hf|reflexivity]);
      change 4294967295 with (to_uint32 (-1));
      rewrite (rejected_attrib_index _ Hmax); (split; [discriminate|reflexivity]).
Qed.

End draw.

(** ** The error sentinel *)

(** The decimal numeral of a line number reads back as that number. *)
Lemma read_dec_dec (z : Z) : read_dec (dec z) = Some z.
Proof.
  unfold read_dec, dec.
  rewrite NilZero.isi.
  - cbn [option_map]. now rewrite DecimalZ.of_to.
  - destruct z; cbn [Z.to_int]; intros E; try discriminate E;
      injection E as E; try discriminate E; now apply Unsigned.to_uint_nonnil in E.
  - destruct z; cbn [Z.to_int]; intros E; try discriminate E;
      injection E as E; try discriminate E; now apply Unsigned.to_uint_nonnil in E.
Qed.

(** C7 (as amended): [check_error] always returns.  It drains the error
    flag; on [GL_NO_ERROR] it prints nothing; on any other code it prints
    exactly two lines, each ended by a newline: first
    "OpenGL Error: <category> in <file>:<line>", with the line number in
    decimal (reading the numeral back gives the number), then
    "    --- Expression: <call text>", indented by four spaces.  The
    category is the fixed name of the code, "Undefined error" for a code
    outside the table.  Nothing else changes. *)
Theorem check_error_silent_or_report (expr file : string) (line : Z) (w : World) :
  check_error expr file line w
  = Some (tt, mkWorld (driver w) (clock w) (trace w) GL_NO_ERROR
                (stdout w ++
                 (if error_flag w =? GL_NO_ERROR then []
                  else [ "OpenGL Error: " +:+ category (error_flag w) +:+ " in " +:+ file
                         +:+ ":" +:+ dec line +:+ nl;
                         "    --- Expression: " +:+ expr +:+ nl ]))
                (gl_state w))
  /\ read_dec (dec line) = Some line
  /\ (category GL_INVALID_ENUM = "Invalid enum"
      /\ category GL_INVALID_VALUE = "Invalid value"
      /\ category GL_INVALID_OPERATION = "Invalid operation"
      /\ category GL_INVALID_FRAMEBUFFER_OPERATION = "Invalid framebuffer operation"
      /\ category GL_OUT_OF_MEMORY = "Out of memory"
      /\ category GL_STACK_UNDERFLOW = "Stack underflow"
      /\ category GL_STACK_OVERFLOW = "Stack overflow")
  /\ (In (error_flag w) (map fst category_table)
      \/ category (error_flag w) = "Undefined error").
Proof.
  split; [apply check_error_run|].
  split; [apply read_dec_dec|].
  split; [now repeat split|].
  unfold category, category_table. cbn [map fst assoc In].
  repeat match goal with
         | |- context [?a =? ?b] => destruct (Z.eqb_spec a b); [auto 10|]
         end.
  now right.
Qed.

(** ** Binary32 addition

    What the [+] of [transform_quad] computes.  The code adds in binary32
    with rounding to nearest; the lemmas below follow the computation of
    [SFadd] through alignment, rounding and normalisation for two
    positive normal numbers whose exact sum is again a binary32 number. *)

Lemma digits2_pos_spec (p : positive) :
  2 ^ (Zpos (digits2_pos p) - 1) <= Zpos p < 2 ^ Zpos (digits2_pos p).
Proof.
  induction p as [p IH|p IH|]; cbn [digits2_pos].
  - rewrite Pos2Z.inj_succ.
    replace (Z.succ (Zpos (digits2_pos p)) - 1) with (Z.succ (Zpos (digits2_pos p) - 1)) by lia.
    rewrite !Z.pow_succ_r by lia. lia.
  - rewrite Pos2Z.inj_succ.
    replace (Z.succ (Zpos (digits2_pos p)) - 1) with (Z.succ (Zpos (digits2_pos p) - 1)) by lia.
    rewrite !Z.pow_succ_r by lia. lia.
  - cbn. lia.
Qed.

Lemma digits2_pos_unique (p : positive) (d : Z) :
  2 ^ (d - 1) <= Zpos p < 2 ^ d -> Zpos (digits2_pos p) = d.
Proof.
  intros [Hlo Hhi].
  pose proof (digits2_pos_spec p) as [Hlo' Hhi'].
  set (d' := Zpos (digits2_pos p)) in *.
  assert (Hd' : 0 < d') by (subst d'; lia).
  assert (Hd : 0 < d).
  { destruct (Z.lt_ge_cases 0 d) as [H|H]; [exact H|].
    assert (2 ^ d <= 2 ^ 0) by (apply Z.pow_le_mono_r; lia). cbn in *. lia. }
  destruct (Z.lt_trichotomy d' d) as [H|[H|H]]; [|exact H|].
  - assert (2 ^ d' <= 2 ^ (d - 1)) by (apply Z.pow_le_mono_r; lia). lia.
  - assert (2 ^ d <= 2 ^ (d' - 1)) by (apply Z.pow_le_mono_r; lia). lia.
Qed.

Lemma iter_shr_1 (n : positive) :
  forall q : positive,
    SpecFloat.iter_pos shr_1 n (Build_shr_record (Zpos (Pos.iter xO q n)) false false)
    = Build_shr_record (Zpos q) false false.
Proof.
  induction n as [n IH|n IH|]; intros q; cbn [SpecFloat.iter_pos Pos.iter].
  - cbn [shr_1 orb]. now rewrite !IH.
  - now rewrite !IH.
  - reflexivity.
Qed.

Lemma shl_align_value (m : positive) (e e' : Z) :
  e' <= e -> Zpos (fst (shl_align m e e')) = Zpos m * 2 ^ (e - e').
Proof.
  intros He. unfold shl_align.
  destruct (e' - e) as [|d|d] eqn:Hd; cbn [fst].
  - replace (e - e') with 0 by lia. cbn. lia.
  - lia.
  - change (Pos.iter xO m d) with (shift_pos d m).
    rewrite shift_pos_correct, Z.pow_pos_fold.
    replace (e - e') with (Zpos d) by lia. lia.
Qed.

Lemma pos_of_shift (m q n : positive) :
  Zpos m = Zpos q * 2 ^ Zpos n -> m = Pos.iter xO q n.
Proof.
  intros H. change (Pos.iter xO q n) with (shift_pos n q).
  apply Pos2Z.inj. rewrite shift_pos_correct, Z.pow_pos_fold. lia.
Qed.

(** Two 24-bit numbers whose sum, aligned on the smaller exponent, is a
    24-bit number times a power of two add up to exactly that number. *)
Lemma fadd_exact_core (mx mw q : positive) (ex ew e : Z) :
  2 ^ 23 <= Zpos mx < 2 ^ 24 ->
  2 ^ 23 <= Zpos mw < 2 ^ 24 ->
  -149 <= ex -> -149 <= ew ->
  2 ^ 23 <= Zpos q < 2 ^ 24 ->
  e <= 104 ->
  Z.min ex ew < e ->
  Zpos mx * 2 ^ (ex - Z.min ex ew) + Zpos mw * 2 ^ (ew - Z.min ex ew)
  = Zpos q * 2 ^ (e - Z.min ex ew) ->
  fadd (S754_finite false mx ex) (S754_finite false mw ew) = S754_finite false q e.
Proof.
  intros Hmx Hmw Hex Hew Hq He Hlt Hsum.
  unfold fadd, SFadd. cbv zeta. cbn [cond_Zopp].
  set (ez := Z.min ex ew) in *.
  pose proof (shl_align_value mx ex ez ltac:(lia)) as Hax.
  pose proof (shl_align_value mw ew ez ltac:(lia)) as Haw.
  set (ax := fst (shl_align mx ex ez)) in *.
  set (aw := fst (shl_align mw ew ez)) in *.
  change (Zpos ax + Zpos aw) with (Zpos (ax + aw)).
  assert (HM : Zpos (ax + aw) = Zpos q * 2 ^ (e - ez)) by lia.
  destruct (e - ez) as [|n|n] eqn:Hn; try lia.
  pose proof (pos_of_shift _ _ _ HM) as HMpos.
  assert (Hpow : 0 < 2 ^ Zpos n) by (apply Z.pow_pos_nonneg; lia).
  assert (Hdig : Zpos (digits2_pos (ax + aw)) = 24 + Zpos n).
  { apply digits2_pos_unique. rewrite HM.
    replace (24 + Zpos n - 1) with (23 + Zpos n) by lia.
    rewrite !Z.pow_add_r by lia. nia. }
  assert (Hdq : Zpos (digits2_pos q) = 24).
  { apply digits2_pos_unique. exact Hq. }
  cbn [binary_normalize]. unfold binary_round.
  rewrite Hdig.
  assert (Hfexp : fexp 24 128 (24 + Zpos n + ez) = ez + Zpos n).
  { unfold fexp, emin. lia. }
  rewrite Hfexp.
  unfold shl_align at 1.
  replace (ez + Zpos n - ez) with (Zpos n) by lia.
  unfold binary_round_aux, shr_fexp. cbn [Zdigits2 shr_record_of_loc].
  rewrite Hdig, Hfexp.
  replace (ez + Zpos n - ez) with (Zpos n) by lia.
  cbn [shr]. rewrite HMpos, iter_shr_1.
  cbn [shr_m loc_of_shr_record round_nearest_even Zdigits2].
  rewrite Hdq.
  assert (Hfexp2 : fexp 24 128 (24 + (ez + Zpos n)) = ez + Zpos n).
  { unfold fexp, emin. lia. }
  rewrite Hfexp2, Z.sub_diag. cbn [shr shr_m].
  replace (ez + Zpos n) with e by lia.
  replace (e <=? 128 - 24) with true by (symmetry; apply Z.leb_le; lia).
  reflexivity.
Qed.

Lemma Qpower2_split (a b : Z) :
  b <= a -> (Qpower 2 a == inject_Z (2 ^ (a - b)) * Qpower 2 b)%Q.
Proof.
  intros Hab.
  rewrite Zpower_Qpower by lia.
  change (inject_Z 2) with 2%Q.
  rewrite <- Qpower_plus by discriminate.
  now replace (a - b + b) with a by lia.
Qed.

Lemma Qpower2_cancel (a b : Z) (e : Z) :
  (inject_Z a * Qpower 2 e == inject_Z b * Qpower 2 e)%Q -> a = b.
Proof.
  intros H. apply inject_Z_injective.
  apply (Qmult_inj_r _ _ (Qpower 2 e)); [|exact H].
  apply Qpower_not_0. discriminate.
Qed.

Lemma F2Q_sum (mx mw : positive) (ex ew : Z) :
  (F2Q (S754_finite false mx ex) + F2Q (S754_finite false mw ew)
   == inject_Z (Zpos mx * 2 ^ (ex - Z.min ex ew) + Zpos mw * 2 ^ (ew - Z.min ex ew))
      * Qpower 2 (Z.min ex ew))%Q.
Proof.
  unfold F2Q. cbn [cond_Zopp].
  rewrite (Qpower2_split ex (Z.min ex ew)) by lia.
  rewrite (Qpower2_split ew (Z.min ex ew)) at 1 by lia.
  rewrite inject_Z_plus, !inject_Z_mult. ring.
Qed.

(** Addition of positive normal numbers is exact when the exact sum is a
    binary32 number. *)
Lemma fadd_exact (x w : float) :
  normal32 x ->
  normal32 w ->
  binary32_value (F2Q x + F2Q w) ->
  (F2Q (fadd x w) == F2Q x + F2Q w)%Q
  /\ is_finite (fadd x w) = true
  /\ (F2Q x < F2Q (fadd x w))%Q.
Proof.
  destruct x as [| | |[|] mx ex]; try contradiction.
  destruct w as [| | |[|] mw ew]; try contradiction.
  intros [Hmx Hex] [Hmw Hew] (q & e & Hq & He & Hexact).
  pose proof Hexact as Hsum.
  rewrite F2Q_sum in Hsum.
  set (ez := Z.min ex ew) in *.
  set (M := Zpos mx * 2 ^ (ex - ez) + Zpos mw * 2 ^ (ew - ez)) in *.
  assert (Hpx : 1 <= 2 ^ (ex - ez)) by (apply Z.lt_pred_le, Z.pow_pos_nonneg; lia).
  assert (Hpw : 1 <= 2 ^ (ew - ez)) by (apply Z.lt_pred_le, Z.pow_pos_nonneg; lia).
  assert (HM : 2 ^ 24 <= M) by (subst M; nia).
  destruct q as [|qp|qp]; try lia.
  assert (Hlt : ez < e).
  { destruct (Z.lt_ge_cases ez e) as [H|H]; [exact H|exfalso].
    rewrite (Qpower2_split ez e) in Hsum by lia.
    rewrite Qmult_assoc, <- inject_Z_mult in Hsum.
    apply Qpower2_cancel in Hsum.
    assert (1 <= 2 ^ (ez - e)) by (apply Z.lt_pred_le, Z.pow_pos_nonneg; lia).
    nia. }
  assert (HMq : M = Zpos qp * 2 ^ (e - ez)).
  { rewrite (Qpower2_split e ez) in Hsum by lia.
    rewrite Qmult_assoc, <- inject_Z_mult in Hsum.
    now apply Qpower2_cancel in Hsum. }
  assert (Hadd : fadd (S754_finite false mx ex) (S754_finite false mw ew)
                 = S754_finite false qp e).
  { apply fadd_exact_core; try assumption; try lia. }
  rewrite Hadd.
  assert (Hval : (F2Q (S754_finite false qp e)
                  == F2Q (S754_finite false mx ex) + F2Q (S754_finite false mw ew))%Q).
  { symmetry. exact Hexact. }
  split; [exact Hval|]. split; [reflexivity|].
  rewrite Hval.
  assert (Hw : (0 < F2Q (S754_finite false mw ew))%Q).
  { unfold F2Q. cbn [cond_Zopp]. apply Qmult_lt_0_compat; [reflexivity|].
    apply Qpower_0_lt. reflexivity. }
  lra.
Qed.


Lemma fadd_zero_l (s : bool) (w : float) : normal32 w -> fadd (S754_zero s) w = w.
Proof. destruct w as [| | |[|] m e]; try contradiction. reflexivity. Qed.

Lemma fadd_zero_r (s : bool) (x : float) : normal32 x -> fadd x (S754_zero s) = x.
Proof. destruct x as [| | |[|] m e]; try contradiction. reflexivity. Qed.

Lemma normal32_finite (x : float) : normal32 x -> is_finite x = true.
Proof. destruct x as [| | |[|] m e]; try contradiction. reflexivity. Qed.

(** The geometry of the six vertices, for a far corner that lies beyond
    the near one. *)
Lemma quad_geometry (x y w h : float) (X2 Y2 : Q) (v0 v1 v2 v3 v4 v5 : ImDrawVert) :
  quad_verts (mkVec2 x y) (mkVec2 w h) = [v0; v1; v2; v3; v4; v5] ->
  (F2Q (fadd x w) == X2)%Q ->
  (F2Q (fadd y h) == Y2)%Q ->
  (F2Q x < X2)%Q ->
  (F2Q y < Y2)%Q ->
  bounding_box [v0; v1; v2; v3; v4; v5] (F2Q x) X2 (F2Q y) Y2
  /\ ccw v0 v1 v2 /\ ccw v3 v4 v5
  /\ (forall p : Q * Q,
        (F2Q x <= p.1 <= X2)%Q -> (F2Q y <= p.2 <= Y2)%Q ->
        inside p v0 v1 v2 \/ inside p v3 v4 v5).
Proof.
  intros Hvs HX HY Hx Hy. injection Hvs as <- <- <- <- <- <-.
  unfold bounding_box, ccw, inside, cross, point.
  cbn [pos uv col vec_x vec_y fst snd].
  set (X1 := F2Q x) in *. set (X := F2Q (fadd x w)) in *.
  set (Y1 := F2Q y) in *. set (Y := F2Q (fadd y h)) in *.
  assert (Hdx : (0 < X - X1)%Q) by lra.
  assert (Hdy : (0 < Y - Y1)%Q) by lra.
  assert (Harea : (0 < (Y - Y1) * (X - X1))%Q) by (apply Qmult_lt_0_compat; assumption).
  split_and!.
  - repeat (apply Forall_cons_2;
            [cbn [pos vec_x vec_y]; fold X1 X Y1 Y; split; lra|]).
    apply Forall_nil_2.
  - apply Exists_cons_tl, Exists_cons_hd. reflexivity.
  - apply Exists_cons_tl, Exists_cons_tl, Exists_cons_hd. exact HX.
  - apply Exists_cons_tl, Exists_cons_hd. reflexivity.
  - apply Exists_cons_hd. exact HY.
  - lra.
  - lra.
  - intros [px py] [Hx1 Hx2] [Hy1 Hy2]. cbn [fst snd] in *.
    assert (H1 : (0 <= (Y - Y1) * (px - X1))%Q) by (apply Qmult_le_0_compat; lra).
    assert (H2 : (0 <= (X - X1) * (Y - py))%Q) by (apply Qmult_le_0_compat; lra).
    assert (H3 : (0 <= (Y - Y1) * (X - px))%Q) by (apply Qmult_le_0_compat; lra).
    assert (H4 : (0 <= (X - X1) * (py - Y1))%Q) by (apply Qmult_le_0_compat; lra).
    destruct (Qlt_le_dec ((X - X1) * (py - Y1) - (Y - Y1) * (px - X1)) 0) as [Hd|Hd].
    + right. split_and!; lra.
    + left. split_and!; lra.
Qed.

(** ** Quads *)

Section quads.

Variable FILE__ : string.

(** C2 (as amended): [transform_quad] hands [glBufferSubData] exactly 6
    vertices, 120 bytes at offset 0.  The far corner is computed in
    binary32: x2 is the IEEE sum of x and w rounded to nearest, y2 that of
    y and h.  Every vertex carries the texture coordinate of its corner
    ((x,y) with (0,0), (x,y2) with (0,1), (x2,y) with (1,0), (x2,y2) with
    (1,1)), all four corners occur, and every colour is 0xffffffff.
    For positive normal x and w whose exact sum is a binary32 number, x2 is
    that sum, and for x = 0 it is w; likewise for y2.  For such
    rectangles the bounding box of the vertices is [x, x+w] x [y, y+h] and
    vertices 0-2 and 3-5 are two counter-clockwise triangles that together
    cover it.  In general, when x < x2 and y < y2, the box is
    [x, x2] x [y, y2] and the triangles are counter-clockwise and cover
    it; rounding can make x2 equal to x, and then the quad has no width. *)
Theorem transform_quad_vertices (mesh : Mesh) (x y w h : float) (world : World) :
  let x2 := SFadd 24 128 x w in
  let y2 := SFadd 24 128 y h in
  exists v0 v1 v2 v3 v4 v5 world',
    let vs := [v0; v1; v2; v3; v4; v5] in
    transform_quad FILE__ mesh (mkVec2 x y) (mkVec2 w h) world = Some (mesh, world')
    /\ calls world'
       = calls world ++ [ BindBuffer GL_ARRAY_BUFFER (vbo_handle mesh);
                          BufferSubData GL_ARRAY_BUFFER 0 (6 * sizeof_ImDrawVert) vs ]
    /\ Forall (uv_matches x x2 y y2) vs
    /\ (exists a b c d,
          In a vs /\ In b vs /\ In c vs /\ In d vs
          /\ (pos a, uv a) = (mkVec2 x y, mkVec2 f0 f0)
          /\ (pos b, uv b) = (mkVec2 x y2, mkVec2 f0 f1)
          /\ (pos c, uv c) = (mkVec2 x2 y, mkVec2 f1 f0)
          /\ (pos d, uv d) = (mkVec2 x2 y2, mkVec2 f1 f1))
    /\ Forall (fun v => col v = 0xffffffff) vs
    /\ (normal32 x -> normal32 w -> binary32_value (F2Q x + F2Q w) ->
        (F2Q x2 == F2Q x + F2Q w)%Q /\ float_lt x x2)
    /\ (normal32 y -> normal32 h -> binary32_value (F2Q y + F2Q h) ->
        (F2Q y2 == F2Q y + F2Q h)%Q /\ float_lt y y2)
    /\ (forall s, x = S754_zero s -> normal32 w -> x2 = w)
    /\ (forall s, y = S754_zero s -> normal32 h -> y2 = h)
    /\ (normal32 x -> normal32 w -> normal32 y -> normal32 h ->
        binary32_value (F2Q x + F2Q w) ->
        binary32_value (F2Q y + F2Q h) ->
        bounding_box vs (F2Q x) (F2Q x + F2Q w) (F2Q y) (F2Q y + F2Q h)
        /\ ccw v0 v1 v2 /\ ccw v3 v4 v5
        /\ (forall p : Q * Q,
              (F2Q x <= p.1 <= F2Q x + F2Q w)%Q -> (F2Q y <= p.2 <= F2Q y + F2Q h)%Q ->
              inside p v0 v1 v2 \/ inside p v3 v4 v5))
    /\ (float_lt x x2 ->
        float_lt y y2 ->
        bounding_box vs (F2Q x) (F2Q x2) (F2Q y) (F2Q y2)
        /\ ccw v0 v1 v2 /\ ccw v3 v4 v5
        /\ (forall p : Q * Q,
              (F2Q x <= p.1 <= F2Q x2)%Q -> (F2Q y <= p.2 <= F2Q y2)%Q ->
              inside p v0 v1 v2 \/ inside p v3 v4 v5)).
Proof.
  intros x2 y2.
  change x2 with (fadd x w). change y2 with (fadd y h). clear x2 y2.
  assert (Hsum : forall a b, normal32 a -> normal32 b -> binary32_value (F2Q a + F2Q b) ->
                             (F2Q (fadd a b) == F2Q a + F2Q b)%Q /\ float_lt a (fadd a b)).
  { intros a b Ha Hb Hab.
    destruct (fadd_exact a b Ha Hb Hab) as (Hval & Hfin & Hlt).
    split; [exact Hval|]. split_and!; [now apply normal32_finite|exact Hfin|exact Hlt]. }
  do 6 eexists. exists (steps FILE__ (transform_script mesh (mkVec2 x y) (mkVec2 w h)) world).
  cbv zeta. split; [apply transform_quad_run|].
  split; [rewrite calls_steps; reflexivity|].
  split_and!.
  - unfold uv_matches.
    repeat (apply Forall_cons_2; [cbn [pos uv vec_x vec_y]; split; auto|]). apply Forall_nil_2.
  - eexists _, _, _, _. split_and!.
    + right; left; reflexivity.
    + left; reflexivity.
    + do 3 right; left; reflexivity.
    + do 2 right; left; reflexivity.
    + reflexivity.
    + reflexivity.
    + reflexivity.
    + reflexivity.
  - repeat (apply Forall_cons_2; [reflexivity|]). apply Forall_nil_2.
  - apply Hsum.
  - apply Hsum.
  - intros s -> Hw. now apply fadd_zero_l.
  - intros s -> Hh. now apply fadd_zero_l.
  - intros Hx Hw Hy Hh Hxw Hyh.
    destruct (Hsum x w Hx Hw Hxw) as (HX & _ & _ & HltX).
    destruct (Hsum y h Hy Hh Hyh) as (HY & _ & _ & HltY).
    apply (quad_geometry x y w h); [reflexivity|exact HX|exact HY| |].
    + now rewrite <- HX.
    + now rewrite <- HY.
  - intros (_ & _ & Hx) (_ & _ & Hy).
    apply (quad_geometry x y w h); [reflexivity|reflexivity|reflexivity|exact Hx|exact Hy].
Qed.

(** C8: two [transform_quad] calls in a row, with whatever rectangles,
    hand back the mesh with the vertex count and the buffer handle it had;
    they issue nothing but a bind and a sub-range write of 120 bytes at
    offset 0 each, so no buffer is created and no data store changes size,
    whatever the driver does with these commands. *)
Theorem transform_quad_twice_in_place (mesh : Mesh) (pos1 size1 pos2 size2 : Vec2)
    (w : World) :
  exists mesh' w',
    (m <- transform_quad FILE__ mesh pos1 size1 ;; transform_quad FILE__ m pos2 size2) w
    = Some (mesh', w')
    /\ index_count mesh' = index_count mesh
    /\ vbo_handle mesh' = vbo_handle mesh
    /\ calls w'
       = calls w ++ [ BindBuffer GL_ARRAY_BUFFER (vbo_handle mesh);
                      BufferSubData GL_ARRAY_BUFFER 0 120 (quad_verts pos1 size1);
                      BindBuffer GL_ARRAY_BUFFER (vbo_handle mesh);
                      BufferSubData GL_ARRAY_BUFFER 0 120 (quad_verts pos2 size2) ]
    /\ (forall b, buf_size <$> (buffers (gl_state w') !! b)
                  = buf_size <$> (buffers (gl_state w) !! b))
    /\ dom (buffers (gl_state w')) = dom (buffers (gl_state w)).
Proof.
  exists mesh.
  exists (steps FILE__ (transform_script mesh pos1 size1 ++ transform_script mesh pos2 size2) w).
  assert (Hsize : forall b,
             buf_size <$> (buffers (gl_state (steps FILE__ (transform_script mesh pos1 size1 ++
                                                       transform_script mesh pos2 size2) w)) !! b)
             = buf_size <$> (buffers (gl_state w) !! b)).
  { intros b.
    apply (steps_frame FILE__ (fun s => buf_size <$> (buffers s !! b)) is_BufferData
             (outcome_buffer_size b)).
    reflexivity. }
  split_and!.
  - rewrite (bind_run _ _ _ _ _ (transform_quad_run FILE__ mesh pos1 size1 w)).
    rewrite transform_quad_run. now rewrite steps_app.
  - reflexivity.
  - reflexivity.
  - rewrite calls_steps. reflexivity.
  - exact Hsize.
  - apply set_eq. intros b. rewrite !elem_of_dom.
    specialize (Hsize b).
    destruct (buffers (gl_state (steps _ _ w)) !! b), (buffers (gl_state w) !! b);
      cbn in Hsize; try discriminate; split; intros [? ?]; try discriminate; eauto.
Qed.

Lemma init_quad_run (mesh : Mesh) (pos size : Vec2) (usage : Z) (w : World) :
  let h := ret_int (gl_command (GenBuffers 1) w).1 (vbo_handle mesh) in
  init_quad FILE__ mesh pos size usage w
  = Some (set_index_count 6 (set_vbo_handle h mesh),
          steps FILE__ (init_script mesh pos size usage h) w).
Proof.
  cbv zeta. unfold init_quad. run. cbn [vbo_handle set_vbo_handle].
  rewrite transform_quad_run. unfold init_script. now rewrite steps_app.
Qed.

(** C10: [init_quad] hands the mesh back with its topology flag, [vbo_size]
    and [elements_handle] as they were; the vertex count is 6 and the
    buffer handle is the name the driver generated (the old handle if the
    driver rejected [glGenBuffers]).  Besides that it only allocates and
    fills the buffer: with a driver that rejects nothing and generates a
    non-zero name, the buffer of that name holds 120 bytes, the six
    vertices of the quad. *)
Theorem init_quad_writes_handle_and_count (mesh : Mesh) (pos size : Vec2) (usage : Z)
    (w : World) :
  exists mesh' w',
    init_quad FILE__ mesh pos size usage w = Some (mesh', w')
    /\ is_line_loop mesh' = is_line_loop mesh
    /\ vbo_size mesh' = vbo_size mesh
    /\ elements_handle mesh' = elements_handle mesh
    /\ index_count mesh' = 6
    /\ vbo_handle mesh' = ret_int (gl_command (GenBuffers 1) w).1 (vbo_handle mesh)
    /\ calls w'
       = calls w ++ [ GenBuffers 1;
                      BindBuffer GL_ARRAY_BUFFER (vbo_handle mesh');
                      BufferData GL_ARRAY_BUFFER 120 None usage;
                      BindBuffer GL_ARRAY_BUFFER (vbo_handle mesh');
                      BufferSubData GL_ARRAY_BUFFER 0 120 (quad_verts pos size) ]
    /\ (quiet w -> next_name (gl_state w) <> 0 ->
        vbo_handle mesh' = next_name (gl_state w)
        /\ buffers (gl_state w') !! vbo_handle mesh'
           = Some (mkBuffer 120 usage (Some <$> quad_verts pos size))).
Proof.
  eexists _, _. split; [apply init_quad_run|].
  split_and!; try reflexivity.
  - rewrite calls_steps. reflexivity.
  - intros Hq Hname.
    assert (Hh : ret_int (gl_command (GenBuffers 1) w).1 (vbo_handle mesh)
                 = next_name (gl_state w)).
    { unfold gl_command, outcome. now rewrite Hq. }
    cbn [vbo_handle set_index_count set_vbo_handle]. rewrite Hh.
    split; [reflexivity|].
    unfold init_script, transform_script. cbn [app vbo_handle set_index_count set_vbo_handle].
    rewrite !steps_cons, steps_nil.
    rewrite !quiet_state by (repeat apply quiet_step; exact Hq).
    cbn [st_call gl_apply]. unfold fresh, ok, ok_int, rejected.
    cbn -[quad_verts].
    apply Z.eqb_neq in Hname. rewrite Hname. cbn -[quad_verts].
    rewrite lookup_insert_eq. cbn [buf_size buf_usage buf_data].
    change (0 + 120 <=? 120) with true. cbn [snd buffers set_buffers].
    rewrite lookup_insert_eq. reflexivity.
Qed.


End quads.

(** ** Compiling a shader *)

Lemma grows_refl (w : World) : grows w w.
Proof. split_and!; [reflexivity|exists []|exists []]; now rewrite app_nil_r. Qed.

Lemma grows_trans (w1 w2 w3 : World) : grows w1 w2 -> grows w2 w3 -> grows w1 w3.
Proof.
  intros (Hd1 & [e1 He1] & [o1 Ho1]) (Hd2 & [e2 He2] & [o2 Ho2]).
  split_and!; [congruence|exists (e1 ++ e2)|exists (o1 ++ o2)].
  - now rewrite He2, He1, app_assoc.
  - now rewrite Ho2, Ho1, app_assoc.
Qed.

Lemma grows_say (s : string) (w : World) : grows w (say s w).
Proof. split_and!; [reflexivity|exists []|exists [s]]; cbn; now rewrite ?app_nil_r. Qed.

Lemma answered_ge (c : GLCall) (w : World) :
  (exists p name, c = GetAttribLocation p name \/ c = GetUniformLocation p name) ->
  0 <= ret_int (gl_command c w).1 (-1) \/ ret_int (gl_command c w).1 (-1) = -1.
Proof.
  intros (p & name & [->| ->]); unfold gl_command, outcome; cbn [fst snd];
    (destruct (_ =? GL_NO_ERROR); [|right; reflexivity]); cbn;
    match goal with |- context [match ?o with Some _ => _ | None => _ end] => destruct o end;
    [left; lia|right; reflexivity|left; lia|right; reflexivity].
Qed.

Section compile.

Variable FILE__ : string.

Lemma grows_step (s : Stmt) (w : World) : grows w (step FILE__ s w).
Proof.
  split_and!; [reflexivity|eexists|eexists]; unfold step, checked; cbn; reflexivity.
Qed.

Lemma print_compilation_errors_run (h : Z) (type file : string) (line : Z) (w : World) :
  exists w', print_compilation_errors FILE__ h type file line w = Some (tt, w') /\ grows w w'.
Proof.
  unfold print_compilation_errors. run.
  destruct (negb _).
  - run. eexists. split; [reflexivity|].
    repeat (eapply grows_trans; [|first [apply grows_say | apply grows_step]]).
    apply grows_refl.
  - eexists. split; [reflexivity|]. apply grows_step.
Qed.

Lemma resolve_attrib_run (file : string) (line : Z) (i : Z) (sh : Shader) (name : string)
    (rest : va_list) (w : World) :
  0 <= i < Z.of_nat (length (attribs sh)) ->
  let loc := ret_int (gl_command (GetAttribLocation (handle sh) name) w).1 (-1) in
  let w1 := step FILE__ (mkStmt (GetAttribLocation (handle sh) name)
                                "glGetAttribLocation(shader.handle, name)" 137) w in
  resolve_attrib FILE__ file line i (sh, VaStr name :: rest) w
  = Some ((set_attribs (<[Z.to_nat i := loc]> (attribs sh)) sh, rest),
          if loc =? -1 then say (not_found "Attribute" name file line) w1 else w1).
Proof.
  intros Hi. cbv zeta. unfold resolve_attrib. cbn [fst snd va_arg_str].
  rewrite bind_ret. cbn [fst snd]. run.
  unfold array_set.
  destruct (Z.leb_spec 0 i); [|lia]. destruct (Z.ltb_spec i (Z.of_nat (length (attribs sh)))); [|lia].
  cbn [andb]. rewrite bind_ret.
  destruct (_ =? -1); reflexivity.
Qed.

Lemma resolve_uniform_run (file : string) (line : Z) (i : Z) (sh : Shader) (name : string)
    (rest : va_list) (w : World) :
  0 <= i < Z.of_nat (length (uniforms sh)) ->
  let loc := ret_int (gl_command (GetUniformLocation (handle sh) name) w).1 (-1) in
  let w1 := step FILE__ (mkStmt (GetUniformLocation (handle sh) name)
                                "glGetUniformLocation(shader.handle, name)" 146) w in
  resolve_uniform FILE__ file line i (sh, VaStr name :: rest) w
  = Some ((set_uniforms (<[Z.to_nat i := loc]> (uniforms sh)) sh, rest),
          if loc =? -1 then say (not_found "Uniform" name file line) w1 else w1).
Proof.
  intros Hi. cbv zeta. unfold resolve_uniform. cbn [fst snd va_arg_str].
  rewrite bind_ret. cbn [fst snd]. run.
  unfold array_set.
  destruct (Z.leb_spec 0 i); [|lia]. destruct (Z.ltb_spec i (Z.of_nat (length (uniforms sh)))); [|lia].
  cbn [andb]. rewrite bind_ret.
  destruct (_ =? -1); reflexivity.
Qed.

End compile.

(** The two resolution loops of [compile_shader] have the same shape: the
    loop over the names is proved once, for a body that queries one
    location, stores it in slot [i] of one of the two tables and reports a
    missing name. *)
Section resolution_loop.

Variable FILE__ : string.
Variables (file : string) (line : Z).
Variable body : Z -> Shader * va_list -> M (Shader * va_list).
Variable table : Shader -> list Z.
Variable set_table : list Z -> Shader -> Shader.
Variable query : Z -> string -> GLCall.
Variables (what expr : string) (ln : Z).

Hypothesis table_set : forall v sh, table (set_table v sh) = v.
Hypothesis handle_set : forall v sh, handle (set_table v sh) = handle sh.
Hypothesis set_set : forall v v' sh, set_table v (set_table v' sh) = set_table v sh.
Hypothesis set_same : forall sh, set_table (table sh) sh = sh.
Hypothesis query_kind :
  forall p name, query p name = GetAttribLocation p name
                 \/ query p name = GetUniformLocation p name.
Hypothesis body_run :
  forall (i : Z) (sh : Shader) (name : string) (rest : va_list) (w : World),
    0 <= i < Z.of_nat (length (table sh)) ->
    body i (sh, VaStr name :: rest) w
    = Some ((set_table (<[Z.to_nat i := ret_int (gl_command (query (handle sh) name) w).1 (-1)]>
                          (table sh)) sh, rest),
            if ret_int (gl_command (query (handle sh) name) w).1 (-1) =? -1
            then say (not_found what name file line)
                     (step FILE__ (mkStmt (query (handle sh) name) expr ln) w)
            else step FILE__ (mkStmt (query (handle sh) name) expr ln) w).

Lemma resolution_loop_run (names : list string) :
  forall (i : Z) (sh : Shader) (rest : va_list) (w : World),
    0 <= i ->
    (Z.to_nat i + length names <= length (table sh))%nat ->
    exists locs w' evs out,
      for_ (length names) i body (sh, map VaStr names ++ rest) w
      = Some ((set_table (take (Z.to_nat i) (table sh) ++ locs
                          ++ drop (Z.to_nat i + length names) (table sh)) sh, rest), w')
      /\ length locs = length names
      /\ Forall (fun l => 0 <= l \/ l = -1) locs
      /\ driver w' = driver w
      /\ trace w' = trace w ++ evs
      /\ map ev_call evs = map (query (handle sh)) names
      /\ map answered evs = locs
      /\ stdout w' = stdout w ++ out
      /\ Forall2 (fun name loc => loc = -1 -> In (not_found what name file line) out)
                 names locs.
Proof.
  induction names as [|name names IH]; intros i sh rest w Hi Hlen.
  - exists [], w, [], []. cbn [length for_ map app].
    rewrite Nat.add_0_r, take_drop, set_same, !app_nil_r.
    split_and!; try reflexivity; constructor.
  - cbn [length] in Hlen.
    assert (Hi' : 0 <= i < Z.of_nat (length (table sh))) by lia.
    cbn [length for_ map app].
    rewrite (bind_run _ _ _ _ _ (body_run i sh name (map VaStr names ++ rest) w Hi')).
    cbv beta.
    set (loc := ret_int (gl_command (query (handle sh) name) w).1 (-1)).
    set (w1 := step FILE__ (mkStmt (query (handle sh) name) expr ln) w).
    set (w2 := if loc =? -1 then say (not_found what name file line) w1 else w1).
    set (sh1 := set_table (<[Z.to_nat i := loc]> (table sh)) sh).
    assert (Hnext : Z.to_nat (i + 1) = S (Z.to_nat i)) by lia.
    destruct (IH (i + 1) sh1 rest w2) as (locs & w' & evs & out & Hrun & Hl & Hge & Hd & Ht & Hc & Ha & Ho & Hm).
    { lia. }
    { subst sh1. rewrite table_set, length_insert. lia. }
    rewrite Hnext in Hrun.
    assert (Hw2 : driver w2 = driver w
                  /\ trace w2 = trace w ++ [mkEvent (query (handle sh) name)
                                              (outcome (query (handle sh) name) w).1.1
                                              (outcome (query (handle sh) name) w).1.2]
                  /\ exists o1, stdout w2 = stdout w ++ o1
                                /\ (loc = -1 -> In (not_found what name file line) o1)).
    { subst w2. destruct (Z.eqb_spec loc (-1)) as [Heq|Hne].
      - split_and!; [reflexivity|reflexivity|].
        eexists. split.
        + unfold say, w1, step, checked. cbn [stdout]. rewrite <- app_assoc. reflexivity.
        + intros _. apply in_or_app. right. now left.
      - split_and!; [reflexivity|reflexivity|].
        eexists. split; [reflexivity|]. intros Heq. contradiction. }
    destruct Hw2 as (Hd2 & Ht2 & o1 & Ho1 & Hm1).
    exists (loc :: locs), w', (mkEvent (query (handle sh) name)
                                 (outcome (query (handle sh) name) w).1.1
                                 (outcome (query (handle sh) name) w).1.2 :: evs), (o1 ++ out).
    split_and!.
    + etransitivity; [exact Hrun|]. subst sh1. rewrite table_set, set_set.
      rewrite (take_S_r _ _ loc) by (apply list_lookup_insert_eq; lia).
      rewrite take_insert_ge by lia.
      rewrite drop_insert_lt by lia.
      rewrite <- !app_assoc. cbn [app].
      replace (S (Z.to_nat i) + length names)%nat with (Z.to_nat i + S (length names))%nat by lia.
      reflexivity.
    + cbn [length]. now rewrite Hl.
    + apply Forall_cons_2; [|exact Hge].
      subst loc. apply answered_ge. destruct (query_kind (handle sh) name); eauto.
    + now rewrite Hd.
    + rewrite Ht, Ht2, <- app_assoc. reflexivity.
    + cbn [map ev_call]. f_equal. subst sh1. now rewrite handle_set in Hc.
    + cbn [map]. now rewrite Ha.
    + rewrite Ho, Ho1, <- app_assoc. reflexivity.
    + constructor.
      * intros Heq. apply in_or_app. left. auto.
      * eapply Forall2_impl; [exact Hm|]. cbn. intros n l H Heq.
        apply in_or_app. right. auto.
Qed.

End resolution_loop.

Section compile_shader_slots.

Variable FILE__ : string.

Lemma resolve_attribs_run (file : string) (line : Z) (names : list string) (sh : Shader)
    (rest : va_list) (w : World) :
  (length names <= length (attribs sh))%nat ->
  exists locs w' evs out,
    for_ (length names) 0 (resolve_attrib FILE__ file line) (sh, map VaStr names ++ rest) w
    = Some ((set_attribs (locs ++ drop (length names) (attribs sh)) sh, rest), w')
    /\ length locs = length names
    /\ Forall (fun l => 0 <= l \/ l = -1) locs
    /\ driver w' = driver w
    /\ trace w' = trace w ++ evs
    /\ map ev_call evs = map (GetAttribLocation (handle sh)) names
    /\ map answered evs = locs
    /\ stdout w' = stdout w ++ out
    /\ Forall2 (fun name loc => loc = -1 -> In (not_found "Attribute" name file line) out)
               names locs.
Proof.
  intros Hlen.
  apply (resolution_loop_run FILE__ file line (resolve_attrib FILE__ file line)
           attribs set_attribs GetAttribLocation "Attribute"
           "glGetAttribLocation(shader.handle, name)" 137);
    try reflexivity; try lia.
  - now intros [].
  - now left.
  - intros i sh0 name rest0 w0 Hi. now apply resolve_attrib_run.
Qed.

Lemma resolve_uniforms_run (file : string) (line : Z) (names : list string) (sh : Shader)
    (rest : va_list) (w : World) :
  (length names <= length (uniforms sh))%nat ->
  exists locs w' evs out,
    for_ (length names) 0 (resolve_uniform FILE__ file line) (sh, map VaStr names ++ rest) w
    = Some ((set_uniforms (locs ++ drop (length names) (uniforms sh)) sh, rest), w')
    /\ length locs = length names
    /\ Forall (fun l => 0 <= l \/ l = -1) locs
    /\ driver w' = driver w
    /\ trace w' = trace w ++ evs
    /\ map ev_call evs = map (GetUniformLocation (handle sh)) names
    /\ map answered evs = locs
    /\ stdout w' = stdout w ++ out
    /\ Forall2 (fun name loc => loc = -1 -> In (not_found "Uniform" name file line) out)
               names locs.
Proof.
  intros Hlen.
  apply (resolution_loop_run FILE__ file line (resolve_uniform FILE__ file line)
           uniforms set_uniforms GetUniformLocation "Uniform"
           "glGetUniformLocation(shader.handle, name)" 146);
    try reflexivity; try lia.
  - now intros [].
  - now right.
  - intros i sh0 name rest0 w0 Hi. now apply resolve_uniform_run.
Qed.


End compile_shader_slots.

(** * Concrete runs *)

Lemma wf_demo_shader : wf_shader demo_shader.
Proof. split; reflexivity. Qed.

(** C1, a run the claim does not survive: the driver rejects the restoring
    [glUseProgram(last_program)]; program 3 was bound before the draw,
    program 7 (the shader's) is bound after it. *)
Lemma draw_mesh_program_not_restored :
  current_program (gl_state stubborn_world) = 3
  /\ (fun r => current_program (gl_state r.2))
       <$> draw_mesh "gl.h" demo_mesh demo_shader false 0 [] stubborn_world
     = Some 7.
Proof. split; [reflexivity|]. vm_compute. reflexivity. Qed.

(** C1 (as amended), on a draw in which the driver rejects nine commands. *)
Lemma draw_mesh_restores_program_and_texture_witness :
  exists w',
    draw_mesh "gl.h" demo_mesh demo_shader true 1 (encode [UFloat d1]) flaky_world
    = Some (tt, w')
    /\ current_program (gl_state w') = 3
    /\ texture_binding_2d (gl_state w') = 4.
Proof.
  apply (draw_mesh_restores_program_and_texture "gl.h" demo_mesh demo_shader true
           [UFloat d1] [] flaky_world).
  - exact wf_demo_shader.
  - cbn. lia.
  - cbn. lia.
  - cbn. lia.
  - cbn. lia.
  - reflexivity.
  - reflexivity.
  - intros k. reflexivity.
Defined.

(** C3, a run the claim does not survive: the only uniform slot of the
    shader holds -1, and the eleventh command of the draw is the upload
    [glUniform1f(-1, 1.0f)]. *)
Lemma draw_mesh_uploads_to_sentinel :
  uniforms demo_shader !! 0%nat = Some (-1)
  /\ (fun r => calls r.2 !! 10%nat)
       <$> draw_mesh "gl.h" demo_mesh demo_shader false 1 (encode [UFloat d1]) demo_world
     = Some (Some (Uniform1f (-1) f1)).
Proof. split; [reflexivity|]. vm_compute. reflexivity. Qed.

Lemma draw_mesh_uploads_by_position_witness :
  exists w' pre post,
    draw_mesh "gl.h" demo_mesh demo_shader false 1 (encode [UFloat d1]) demo_world
    = Some (tt, w')
    /\ calls w' = calls demo_world ++ pre ++ [Uniform1f (-1) f1] ++ post
    /\ length pre = 10%nat
    /\ forallb (fun c => negb (is_upload c)) pre = true
    /\ forallb (fun c => negb (is_upload c)) post = true.
Proof.
  destruct (draw_mesh_uploads_by_position "gl.h" demo_mesh demo_shader false
              [UFloat d1] [] demo_world wf_demo_shader)
    as (w' & pre & post & Hrun & Hcalls & Hlen & Hpre & Hpost & _).
  - cbn. lia.
  - cbn. lia.
  - exists w', pre, post. split_and!; assumption.
Defined.

(** C4, a run the claim does not survive: the third attribute slot holds
    -1, and the draw issues [glEnableVertexAttribArray(4294967295)] and
    [glVertexAttribPointer(4294967295, 4, GL_UNSIGNED_BYTE, GL_TRUE, 20, 16)]
    for it. *)
Lemma draw_mesh_binds_sentinel_slot :
  attribs demo_shader !! 2%nat = Some (-1)
  /\ (fun r => (calls r.2 !! 12%nat, calls r.2 !! 15%nat))
       <$> draw_mesh "gl.h" demo_mesh demo_shader false 0 [] demo_world
     = Some (Some (EnableVertexAttribArray 4294967295),
             Some (VertexAttribPointer 4294967295 4 GL_UNSIGNED_BYTE GL_TRUE 20 16)).
Proof. split; [reflexivity|]. vm_compute. reflexivity. Qed.

Lemma draw_mesh_binds_every_attribute_slot_witness :
  exists w' pre post,
    draw_mesh "gl.h" demo_mesh demo_shader false 0 [] demo_world = Some (tt, w')
    /\ calls w'
       = calls demo_world ++ pre
         ++ [ EnableVertexAttribArray 0; EnableVertexAttribArray 1;
              EnableVertexAttribArray 4294967295;
              VertexAttribPointer 0 2 GL_FLOAT GL_FALSE 20 0;
              VertexAttribPointer 1 2 GL_FLOAT GL_FALSE 20 8;
              VertexAttribPointer 4294967295 4 GL_UNSIGNED_BYTE GL_TRUE 20 16 ]
         ++ post.
Proof.
  destruct (draw_mesh_binds_every_attribute_slot "gl.h" demo_mesh demo_shader false
              [] [] demo_world wf_demo_shader)
    as (w' & pre & post & Hrun & Hcalls & _).
  - cbn. lia.
  - cbn. lia.
  - exists w', pre, post. split; [exact Hrun|exact Hcalls].
Defined.

(** C5, a run the claim does not survive: no command fails; face culling
    was enabled, buffer 5 bound and the line width 1 before the draw; after
    it face culling is disabled, no buffer is bound and the line width
    is 2. *)
Lemma draw_mesh_state_not_restored :
  (bool_decide (GL_CULL_FACE ∈ enabled (gl_state demo_world)),
   array_buffer_binding (gl_state demo_world),
   line_width (gl_state demo_world)) = (true, 5, f1)
  /\ (fun r => (bool_decide (GL_CULL_FACE ∈ enabled (gl_state r.2)),
                array_buffer_binding (gl_state r.2),
                line_width (gl_state r.2)))
       <$> draw_mesh "gl.h" demo_mesh demo_shader false 0 [] demo_world
     = Some (false, 0, f2).
Proof. split; vm_compute; reflexivity. Qed.

Lemma draw_mesh_final_state_witness :
  exists w',
    draw_mesh "gl.h" demo_mesh demo_shader false 0 [] demo_world = Some (tt, w')
    /\ current_program (gl_state w') = 3
    /\ texture_binding_2d (gl_state w') = 4
    /\ array_buffer_binding (gl_state w') = 0
    /\ (GL_CULL_FACE ∉ enabled (gl_state w'))
    /\ line_width (gl_state w') = f2.
Proof.
  destruct (draw_mesh_final_state "gl.h" demo_mesh demo_shader false [] [] demo_world
              wf_demo_shader)
    as (w' & Hrun & Hp & Ht & Hb & _ & _ & Hc & _ & _ & _ & Hl).
  - cbn. lia.
  - cbn. lia.
  - cbn. lia.
  - cbn. lia.
  - intros k c. reflexivity.
  - exists w'. split_and!; assumption.
Defined.

(** C2, a rectangle the claim does not survive: x = 16777216 and w = 1.
    The exact far edge is 16777217, which is not a binary32 number; the sum
    rounds back to 16777216, all six vertices get that x-coordinate, and
    the two triangles have no area: the quad has no width. *)
Lemma transform_quad_zero_width :
  Qeq_bool (F2Q f16777216 + F2Q f1) (inject_Z 16777217) = true
  /\ (fun r => match calls r.2 !! 1%nat with
               | Some (BufferSubData _ _ _ vs) => map (fun v => vec_x (pos v)) vs
               | _ => []
               end)
       <$> transform_quad "gl.h" demo_mesh (mkVec2 f16777216 f0) (mkVec2 f1 f1) demo_world
     = Some [f16777216; f16777216; f16777216; f16777216; f16777216; f16777216]
  /\ (fun r => match calls r.2 !! 1%nat with
               | Some (BufferSubData _ _ _ [v0; v1; v2; v3; v4; v5]) =>
                   (Qeq_bool (cross (point v0) (point v1) (point v2)) 0,
                    Qeq_bool (cross (point v3) (point v4) (point v5)) 0)
               | _ => (false, false)
               end)
       <$> transform_quad "gl.h" demo_mesh (mkVec2 f16777216 f0) (mkVec2 f1 f1) demo_world
     = Some (true, true).
Proof. split_and!; vm_compute; reflexivity. Qed.

Lemma normal32_f1 : normal32 f1.
Proof. unfold normal32, f1. lia. Qed.

Lemma normal32_f2 : normal32 f2.
Proof. unfold normal32, f2. lia. Qed.

(** 1 + 2 = 3 = 12582912 * 2^-22 and 2 + 2 = 4 = 8388608 * 2^-21. *)
Lemma binary32_value_3 : binary32_value (F2Q f1 + F2Q f2).
Proof. exists 12582912, (-22). split_and!; [lia|lia|lia|reflexivity]. Qed.

Lemma binary32_value_4 : binary32_value (F2Q f2 + F2Q f2).
Proof. exists 8388608, (-21). split_and!; [lia|lia|lia|reflexivity]. Qed.

(** C2 (as amended), on the rectangle at (1, 2) of size (2, 2). *)
Lemma transform_quad_vertices_witness :
  normal32 f1 /\ normal32 f2
  /\ binary32_value (F2Q f1 + F2Q f2) /\ binary32_value (F2Q f2 + F2Q f2)
  /\ exists v0 v1 v2 v3 v4 v5 w',
       transform_quad "gl.h" demo_mesh (mkVec2 f1 f2) (mkVec2 f2 f2) demo_world
       = Some (demo_mesh, w')
       /\ calls w' = [ BindBuffer GL_ARRAY_BUFFER 9;
                       BufferSubData GL_ARRAY_BUFFER 0 120 [v0; v1; v2; v3; v4; v5] ]
       /\ bounding_box [v0; v1; v2; v3; v4; v5]
                       (F2Q f1) (F2Q f1 + F2Q f2) (F2Q f2) (F2Q f2 + F2Q f2)
       /\ ccw v0 v1 v2 /\ ccw v3 v4 v5.
Proof.
  split; [exact normal32_f1|]. split; [exact normal32_f2|].
  split; [exact binary32_value_3|]. split; [exact binary32_value_4|].
  destruct (transform_quad_vertices "gl.h" demo_mesh f1 f2 f2 f2 demo_world)
    as (v0 & v1 & v2 & v3 & v4 & v5 & w' & Hrun & Hcalls & _ & _ & _ & _ & _ & _ & _
        & Hexact & _).
  destruct (Hexact normal32_f1 normal32_f2 normal32_f2 normal32_f2
              binary32_value_3 binary32_value_4) as (Hbox & Hc1 & Hc2 & _).
  exists v0, v1, v2, v3, v4, v5, w'. split_and!; assumption.
Defined.


(** C7, a report the claimed format does not describe: with
    [GL_INVALID_ENUM] pending, [check_error] for the statement
    [glEnable(GL_BLEND)] of line 213 prints
    "OpenGL Error: Invalid enum in gl.h:213" and
    "    --- Expression: glEnable(GL_BLEND)", each ended by a newline; the
    format of the specification has neither the prefix "OpenGL Error: " nor
    the indentation. *)
Lemma check_error_prints_prefix :
  (fun r => stdout r.2) <$> check_error "glEnable(GL_BLEND)" "gl.h" 213 pending_world
  = Some [ "OpenGL Error: Invalid enum in gl.h:213" +:+ nl;
           "    --- Expression: glEnable(GL_BLEND)" +:+ nl ]
  /\ spec_report "Invalid enum" "gl.h" 213 "glEnable(GL_BLEND)"
     = [ "Invalid enum in gl.h:213"; "--- Expression: glEnable(GL_BLEND)" ]
  /\ String.eqb ("OpenGL Error: Invalid enum in gl.h:213" +:+ nl)
                ("Invalid enum in gl.h:213" +:+ nl) = false
  /\ String.eqb ("    --- Expression: glEnable(GL_BLEND)" +:+ nl)
                ("--- Expression: glEnable(GL_BLEND)" +:+ nl) = false.
Proof. split_and!; vm_compute; reflexivity. Qed.



Lemma init_quad_writes_handle_and_count_witness :
  exists mesh' w',
    init_quad "gl.h" demo_mesh (mkVec2 f0 f0) (mkVec2 f1 f2) 35044 demo_world
    = Some (mesh', w')
    /\ index_count mesh' = 6
    /\ vbo_handle mesh' = 10
    /\ buffers (gl_state w') !! 10
       = Some (mkBuffer 120 35044 (Some <$> quad_verts (mkVec2 f0 f0) (mkVec2 f1 f2))).
Proof.
  destruct (init_quad_writes_handle_and_count "gl.h" demo_mesh (mkVec2 f0 f0) (mkVec2 f1 f2)
              35044 demo_world)
    as (mesh' & w' & Hrun & _ & _ & _ & Hn & _ & _ & Hbuf).
  destruct Hbuf as [Hh Hb].
  - intros k c. reflexivity.
  - cbn. lia.
  - exists mesh', w'. rewrite Hh in Hb. split_and!; assumption.
Defined.

(** * Further properties *)

(** ** The capability check *)

(** X1: [init] answers true exactly when GLEW initialises and both the
    OpenGL 2.1 profile and the framebuffer-object extension are supported;
    then it prints nothing.  Otherwise it prints exactly one line, and the
    checks are made in the order initialisation, profile, extension: a
    failure of an earlier one hides the later ones.  Nothing but standard
    output changes. *)
Theorem init_checks_in_order (glew : Glew) (w : World) :
  exists b out,
    init glew w = Some (b, mkWorld (driver w) (clock w) (trace w) (error_flag w)
                                   (stdout w ++ out) (gl_state w))
    /\ (b = true <->
        glewInit_result glew = GLEW_OK
        /\ glewIsSupported glew "GL_VERSION_2_1" = true
        /\ glewIsSupported glew "GL_ARB_framebuffer_object" = true)
    /\ (b = true -> out = [])
    /\ (b = false -> length out = 1%nat)
    /\ (glewInit_result glew <> GLEW_OK ->
        out = ["GLEW initialization failed." +:+ nl])
    /\ (glewInit_result glew = GLEW_OK -> glewIsSupported glew "GL_VERSION_2_1" = false ->
        out = ["This hardware doesn't support OpenGL 2.1." +:+ nl])
    /\ (glewInit_result glew = GLEW_OK -> glewIsSupported glew "GL_VERSION_2_1" = true ->
        glewIsSupported glew "GL_ARB_framebuffer_object" = false ->
        out = ["This hardware doesn't support OpenGL extension GL_ARB_framebuffer_object."
               +:+ nl]).
Proof.
  unfold init.
  destruct (Z.eqb_spec (glewInit_result glew) GLEW_OK) as [Hi|Hi]; cbn [negb].
  2:{ exists false, ["GLEW initialization failed." +:+ nl].
      split_and!; try reflexivity; try discriminate; try tauto.
      all: split; [discriminate|]; intros (? & ? & ?); congruence. }
  destruct (glewIsSupported glew "GL_VERSION_2_1") eqn:H1; cbn [negb].
  2:{ exists false, ["This hardware doesn't support OpenGL 2.1." +:+ nl].
      split_and!; try reflexivity; try discriminate; try tauto.
      all: split; [discriminate|]; intros (? & ? & ?); congruence. }
  destruct (glewIsSupported glew "GL_ARB_framebuffer_object") eqn:H2; cbn [negb].
  2:{ eexists false, [_].
      split_and!; try reflexivity; try discriminate; try tauto.
      all: split; [discriminate|]; intros (? & ? & ?); congruence. }
  exists true, []. unfold ret. rewrite app_nil_r.
  split_and!; try reflexivity; try discriminate; try tauto.
  destruct w; reflexivity.
Qed.

Lemma init_checks_in_order_witness :
  (fun r => (r.1, stdout r.2)) <$> init old_glew demo_world
  = Some (false,
          ["This hardware doesn't support OpenGL extension GL_ARB_framebuffer_object."
           +:+ nl])
  /\ exists b out,
       init capable_glew demo_world
       = Some (b, mkWorld (driver demo_world) (clock demo_world) (trace demo_world)
                          (error_flag demo_world) (stdout demo_world ++ out)
                          (gl_state demo_world))
       /\ b = true /\ out = [].
Proof.
  split; [reflexivity|].
  destruct (init_checks_in_order capable_glew demo_world)
    as (b & out & Hrun & Hiff & Hsilent & _).
  assert (Hb : b = true) by (apply Hiff; split_and!; reflexivity).
  exists b, out. split_and!; auto.
Defined.

(** ** The error sentinel, as [GLCHK] uses it *)

Section sentinel.

Variable FILE__ : string.

(** X2: after any [GLCHK]-wrapped command the error flag is clear, whatever
    was pending and whatever the command raised; a [check_error] that
    follows at once prints nothing and changes nothing. *)
Theorem GLCHK_drains_the_error_flag (c : GLCall) (expr : string) (line : Z)
    (expr2 file2 : string) (line2 : Z) (w : World) :
  exists w',
    GLCHK FILE__ (gl_void c) expr line w = Some (tt, w')
    /\ error_flag w' = GL_NO_ERROR
    /\ check_error expr2 file2 line2 w' = Some (tt, w').
Proof.
  eexists. split; [apply GLCHK_void|]. split; [reflexivity|].
  rewrite check_error_run. unfold checked, step, checked.
  cbn [driver clock trace error_flag stdout gl_state error_report Z.eqb GL_NO_ERROR].
  now rewrite app_nil_r.
Qed.

(** X3: the error flag keeps the first error.  When an error is already
    pending before a [GLCHK]-wrapped command, what is printed after the
    command is that older error, under the text and line of this command,
    and the error the command itself raised, if any, is never reported. *)
Theorem GLCHK_reports_the_pending_error (c : GLCall) (expr : string) (line : Z) (w : World) :
  error_flag w <> GL_NO_ERROR ->
  exists w',
    GLCHK FILE__ (gl_void c) expr line w = Some (tt, w')
    /\ stdout w' = stdout w ++ report_lines (error_flag w) expr FILE__ line
    /\ error_flag w' = GL_NO_ERROR
    /\ gl_state w' = (outcome c w).2.
Proof.
  intros Hpending.
  eexists. split; [apply GLCHK_void|].
  unfold step, checked, gl_command, error_report, report_lines.
  cbn [driver clock trace error_flag stdout gl_state st_call st_expr st_line fst snd].
  apply Z.eqb_neq in Hpending. rewrite Hpending. rewrite Hpending.
  split_and!; reflexivity.
Qed.

(** With no error pending, the report is about the command itself. *)
Lemma GLCHK_reports_own_error (c : GLCall) (expr : string) (line : Z) (w : World) :
  error_flag w = GL_NO_ERROR ->
  stdout (step FILE__ (mkStmt c expr line) w)
  = stdout w ++ error_report (outcome c w).1.1 expr FILE__ line.
Proof.
  intros Hclear. unfold step, checked, gl_command.
  cbn [driver clock trace error_flag stdout gl_state st_call st_expr st_line fst snd].
  now rewrite Hclear.
Qed.

End sentinel.

(** ** Compiling a shader, continued *)

Lemma quiet_outcome (c : GLCall) (w : World) :
  quiet w -> outcome c w = gl_apply (driver w) c (gl_state w).
Proof. intros Hq. unfold outcome. now rewrite Hq. Qed.

Lemma for_app {T : Type} (a b : nat) (body : Z -> T -> M T) :
  forall (i : Z) (s : T) (w : World),
    for_ (a + b) i body s w
    = bind (for_ a i body s) (fun s' => for_ b (i + Z.of_nat a) body s') w.
Proof.
  induction a as [|a IH]; intros i s w.
  - cbn [Nat.add for_]. rewrite bind_ret. now rewrite Z.add_0_r.
  - cbn [Nat.add for_]. unfold bind.
    destruct (body i s w) as [[s' w']|]; [|reflexivity].
    specialize (IH (i + 1) s' w'). unfold bind in IH. rewrite IH.
    replace (i + 1 + Z.of_nat a) with (i + Z.of_nat (S a)) by lia.
    reflexivity.
Qed.

Section compile_more.

Variable FILE__ : string.

Lemma calls_step (s : Stmt) (w : World) : calls (step FILE__ s w) = calls w ++ [st_call s].
Proof. unfold calls, step, checked. cbn. now rewrite map_app. Qed.

Lemma calls_say (s : string) (w : World) : calls (say s w) = calls w.
Proof. reflexivity. Qed.

(** X4: [print_compilation_errors] with a driver that rejects nothing and
    no error pending: for a shader whose compile status is [GL_TRUE] it
    only queries the status and prints nothing; for any other status it
    prints "Compilation error in <type> shader in <file>:<line>", then at
    most the first 4095 characters of the driver's log, then a newline.  It
    returns either way and leaves the context state alone. *)
Theorem print_compilation_errors_reports (h : Z) (type file : string) (line : Z)
    (w : World) :
  quiet w ->
  error_flag w = GL_NO_ERROR ->
  exists w',
    print_compilation_errors FILE__ h type file line w = Some (tt, w')
    /\ gl_state w' = gl_state w
    /\ calls w' = calls w ++ status_calls (driver w) h
    /\ stdout w'
       = stdout w ++
         (if compile_status (driver w) h =? GL_TRUE then []
          else [ "Compilation error in " +:+ type +:+ " shader in " +:+ file +:+ ":"
                 +:+ dec line +:+ nl;
                 substring 0 4095 (info_log (driver w) h);
                 nl ]).
Proof.
  intros Hq Hclear. unfold print_compilation_errors. run.
  assert (Hst : forall d, ret_int (gl_command (GetShaderiv h GL_COMPILE_STATUS) w).1 d
                          = compile_status (driver w) h).
  { intros d. unfold gl_command. rewrite quiet_outcome by exact Hq. reflexivity. }
  rewrite Hst. unfold status_calls.
  set (s1 := mkStmt (GetShaderiv h GL_COMPILE_STATUS) _ _).
  assert (Hout1 : stdout (step FILE__ s1 w) = stdout w).
  { subst s1. rewrite GLCHK_reports_own_error by exact Hclear.
    rewrite quiet_outcome by exact Hq. cbn. now rewrite app_nil_r. }
  assert (Hgl1 : gl_state (step FILE__ s1 w) = gl_state w).
  { rewrite quiet_state by exact Hq. reflexivity. }
  destruct (compile_status (driver w) h =? GL_TRUE); cbn [negb].
  - eexists. split; [reflexivity|]. split_and!.
    + exact Hgl1.
    + apply calls_step.
    + now rewrite Hout1, app_nil_r.
  - run.
    set (w2 := say _ (step FILE__ s1 w)).
    assert (Hq2 : quiet w2) by exact Hq.
    set (s2 := mkStmt (GetShaderInfoLog h 4096) _ _).
    assert (Hlog : forall d, ret_text (gl_command (GetShaderInfoLog h 4096) w2).1 d
                             = substring 0 4095 (info_log (driver w) h)).
    { intros d. unfold gl_command. rewrite quiet_outcome by exact Hq2. reflexivity. }
    rewrite Hlog.
    eexists. split; [reflexivity|]. split_and!.
    + cbn [say gl_state]. rewrite quiet_state by exact Hq2. cbn [st_call s2 gl_apply snd].
      exact Hgl1.
    + rewrite !calls_say, calls_step. subst w2.
      rewrite calls_say, calls_step, <- app_assoc. reflexivity.
    + cbn [say stdout]. subst s2. rewrite GLCHK_reports_own_error by reflexivity.
      rewrite (quiet_outcome _ _ Hq2). cbn [gl_apply fst snd].
      unfold error_report. cbn [Z.eqb GL_NO_ERROR]. rewrite app_nil_r.
      subst w2. cbn [say stdout]. rewrite Hout1, <- !app_assoc. reflexivity.
Qed.

End compile_more.

Section resolution_loop_more.

Variable FILE__ : string.
Variables (file : string) (line : Z).
Variable body : Z -> Shader * va_list -> M (Shader * va_list).
Variable table : Shader -> list Z.
Variable set_table : list Z -> Shader -> Shader.
Variable query : Z -> string -> GLCall.
Variable answer : Driver -> Z -> string -> option N.
Variables (what expr : string) (ln : Z).

Hypothesis table_set : forall v sh, table (set_table v sh) = v.
Hypothesis handle_set : forall v sh, handle (set_table v sh) = handle sh.
Hypothesis set_set : forall v v' sh, set_table v (set_table v' sh) = set_table v sh.
Hypothesis set_same : forall sh, set_table (table sh) sh = sh.
Hypothesis query_kind :
  forall p name, query p name = GetAttribLocation p name
                 \/ query p name = GetUniformLocation p name.
Hypothesis query_apply :
  forall d p name s, gl_apply d (query p name) s = ok_int (location_of (answer d p name)) s.
Hypothesis body_run :
  forall (i : Z) (sh : Shader) (name : string) (rest : va_list) (w : World),
    0 <= i < Z.of_nat (length (table sh)) ->
    body i (sh, VaStr name :: rest) w
    = Some ((set_table (<[Z.to_nat i := ret_int (gl_command (query (handle sh) name) w).1 (-1)]>
                          (table sh)) sh, rest),
            if ret_int (gl_command (query (handle sh) name) w).1 (-1) =? -1
            then say (not_found what name file line)
                     (step FILE__ (mkStmt (query (handle sh) name) expr ln) w)
            else step FILE__ (mkStmt (query (handle sh) name) expr ln) w).
Hypothesis body_overrun :
  forall (i : Z) (sh : Shader) (name : string) (rest : va_list) (w : World),
    Z.of_nat (length (table sh)) <= i ->
    body i (sh, VaStr name :: rest) w = None.

(** With a driver that rejects nothing the loop stores the linker's
    answers. *)
Lemma resolution_loop_quiet (names : list string) :
  forall (i : Z) (sh : Shader) (rest : va_list) (w : World),
    quiet w ->
    0 <= i ->
    (Z.to_nat i + length names <= length (table sh))%nat ->
    exists w',
      for_ (length names) i body (sh, map VaStr names ++ rest) w
      = Some ((set_table (take (Z.to_nat i) (table sh)
                          ++ map (fun name => location_of (answer (driver w) (handle sh) name))
                                 names
                          ++ drop (Z.to_nat i + length names) (table sh)) sh, rest), w')
      /\ driver w' = driver w
      /\ calls w' = calls w ++ map (query (handle sh)) names
      /\ gl_state w' = gl_state w.
Proof.
  induction names as [|name names IH]; intros i sh rest w Hq Hi Hlen.
  - exists w. cbn [length for_ map app].
    rewrite Nat.add_0_r, take_drop, set_same, !app_nil_r.
    split_and!; reflexivity.
  - cbn [length] in Hlen.
    assert (Hi' : 0 <= i < Z.of_nat (length (table sh))) by lia.
    cbn [length for_ map app].
    rewrite (bind_run _ _ _ _ _ (body_run i sh name (map VaStr names ++ rest) w Hi')).
    cbv beta.
    assert (Hloc : ret_int (gl_command (query (handle sh) name) w).1 (-1)
                   = location_of (answer (driver w) (handle sh) name)).
    { unfold gl_command. rewrite quiet_outcome by exact Hq. now rewrite query_apply. }
    rewrite Hloc.
    set (loc := location_of (answer (driver w) (handle sh) name)).
    set (w1 := step FILE__ (mkStmt (query (handle sh) name) expr ln) w).
    set (w2 := if loc =? -1 then say (not_found what name file line) w1 else w1).
    set (sh1 := set_table (<[Z.to_nat i := loc]> (table sh)) sh).
    assert (Hw2 : driver w2 = driver w
                  /\ calls w2 = calls w ++ [query (handle sh) name]
                  /\ gl_state w2 = gl_state w).
    { assert (Hg : gl_state w1 = gl_state w).
      { subst w1. unfold step. cbn [gl_state checked gl_command snd st_call].
        rewrite quiet_outcome by exact Hq. now rewrite query_apply. }
      subst w2. destruct (loc =? -1); split_and!;
        first [reflexivity | exact Hg | apply calls_step]. }
    destruct Hw2 as (Hd2 & Hc2 & Hg2).
    assert (Hq2 : quiet w2) by (unfold quiet; rewrite Hd2; exact Hq).
    assert (Hnext : Z.to_nat (i + 1) = S (Z.to_nat i)) by lia.
    destruct (IH (i + 1) sh1 rest w2 Hq2) as (w' & Hrun & Hd & Hc & Hg).
    { lia. }
    { subst sh1. rewrite table_set, length_insert. lia. }
    rewrite Hnext in Hrun.
    exists w'. split_and!.
    + etransitivity; [exact Hrun|]. subst sh1. rewrite table_set, set_set, handle_set, Hd2.
      rewrite (take_S_r _ _ loc) by (apply list_lookup_insert_eq; lia).
      rewrite take_insert_ge by lia.
      rewrite drop_insert_lt by lia.
      rewrite <- !app_assoc. cbn [app].
      replace (S (Z.to_nat i) + length names)%nat with (Z.to_nat i + S (length names))%nat by lia.
      reflexivity.
    + now rewrite Hd.
    + rewrite Hc, Hc2, <- app_assoc. subst sh1. now rewrite handle_set.
    + now rewrite Hg.
Qed.

(** With more names than the table has slots the loop runs past the end of
    the array. *)
Lemma resolution_loop_overrun (names : list string) (sh : Shader) (rest : va_list)
    (w : World) :
  (length (table sh) < length names)%nat ->
  for_ (length names) 0 body (sh, map VaStr names ++ rest) w = None.
Proof.
  intros Hlen.
  set (n := length (table sh)) in *.
  rewrite <- (take_drop n names) at 2.
  assert (Hsplit : length names = (n + length (drop n names))%nat).
  { rewrite length_drop. lia. }
  rewrite Hsplit at 1. rewrite for_app.
  rewrite map_app, <- app_assoc.
  destruct (resolution_loop_run FILE__ file line body table set_table query what expr ln
              table_set handle_set set_set set_same query_kind body_run
              (take n names) 0 sh (map VaStr (drop n names) ++ rest) w)
    as (locs & w' & evs & out & Hrun & Hl & _); [lia| |].
  { rewrite length_take. subst n. lia. }
  rewrite length_take_le in Hrun by lia.
  rewrite (bind_run _ _ _ _ _ Hrun). cbv beta.
  destruct (drop n names) as [|name more] eqn:Hdrop.
  { cbn [length] in Hsplit. lia. }
  cbn [length for_ map app].
  unfold bind. rewrite body_overrun; [reflexivity|].
  rewrite table_set. change (Z.to_nat 0) with 0%nat.
  rewrite take_0, app_nil_l.
  rewrite length_app, length_drop, Hl, length_take_le by lia.
  subst n. lia.
Qed.

End resolution_loop_more.

Section compile_shader_more.

Variable FILE__ : string.

Lemma resolve_attrib_overrun (file : string) (line : Z) (i : Z) (sh : Shader) (name : string)
    (rest : va_list) (w : World) :
  Z.of_nat (length (attribs sh)) <= i ->
  resolve_attrib FILE__ file line i (sh, VaStr name :: rest) w = None.
Proof.
  intros Hi. unfold resolve_attrib. cbn [fst snd va_arg_str].
  rewrite bind_ret. cbn [fst snd]. run.
  unfold array_set.
  destruct (Z.ltb_spec i (Z.of_nat (length (attribs sh)))); [lia|].
  rewrite andb_false_r. reflexivity.
Qed.

Lemma resolve_uniform_overrun (file : string) (line : Z) (i : Z) (sh : Shader) (name : string)
    (rest : va_list) (w : World) :
  Z.of_nat (length (uniforms sh)) <= i ->
  resolve_uniform FILE__ file line i (sh, VaStr name :: rest) w = None.
Proof.
  intros Hi. unfold resolve_uniform. cbn [fst snd va_arg_str].
  rewrite bind_ret. cbn [fst snd]. run.
  unfold array_set.
  destruct (Z.ltb_spec i (Z.of_nat (length (uniforms sh)))); [lia|].
  rewrite andb_false_r. reflexivity.
Qed.

Lemma print_compilation_errors_quiet (h : Z) (type file : string) (line : Z) (w : World) :
  quiet w ->
  exists w',
    print_compilation_errors FILE__ h type file line w = Some (tt, w')
    /\ driver w' = driver w
    /\ gl_state w' = gl_state w
    /\ calls w' = calls w ++ status_calls (driver w) h.
Proof.
  intros Hq. unfold print_compilation_errors. run.
  assert (Hst : forall d, ret_int (gl_command (GetShaderiv h GL_COMPILE_STATUS) w).1 d
                          = compile_status (driver w) h).
  { intros d. unfold gl_command. rewrite quiet_outcome by exact Hq. reflexivity. }
  rewrite Hst. unfold status_calls.
  set (s1 := mkStmt (GetShaderiv h GL_COMPILE_STATUS) _ _).
  assert (Hgl1 : gl_state (step FILE__ s1 w) = gl_state w).
  { rewrite quiet_state by exact Hq. reflexivity. }
  destruct (compile_status (driver w) h =? GL_TRUE); cbn [negb].
  - eexists. split; [reflexivity|]. split_and!; [reflexivity|exact Hgl1|apply calls_step].
  - run. set (w2 := say _ (step FILE__ s1 w)).
    assert (Hq2 : quiet w2) by exact Hq.
    eexists. split; [reflexivity|]. split_and!.
    + reflexivity.
    + cbn [say gl_state]. rewrite quiet_state by exact Hq2. exact Hgl1.
    + rewrite !calls_say, calls_step. subst w2.
      rewrite calls_say, calls_step, <- app_assoc. reflexivity.
Qed.

(** The shape of the shader [compile_shader] hands back, for any driver. *)
Lemma compile_shader_shape (shader : Shader) (file : string) (line : Z)
    (vert frag : string) (anames unames : list string) (rest : va_list) (w : World) :
  wf_shader shader ->
  (length anames <= 8)%nat ->
  (length unames <= 8)%nat ->
  exists alocs ulocs w',
    compile_shader FILE__ shader file line vert frag
                   (Z.of_nat (length anames)) (Z.of_nat (length unames))
                   (map VaStr (anames ++ unames) ++ rest) w
    = Some (mkShader (ret_int (gl_command CreateProgram w).1 0)
                     (Z.of_nat (length anames)) (Z.of_nat (length unames))
                     (alocs ++ drop (length anames) (attribs shader))
                     (ulocs ++ drop (length unames) (uniforms shader)), w')
    /\ length alocs = length anames
    /\ length ulocs = length unames.
Proof.
  intros [Ha Hu] Hna Hnu.
  unfold compile_shader, for_range. rewrite !Nat2Z.id. run.
  match goal with
  | |- context [bind (print_compilation_errors _ ?h ?t ?f ?l) _ ?w0] =>
      destruct (print_compilation_errors_run FILE__ h t f l w0) as (w1 & Hrun1 & _);
      rewrite (bind_run _ _ _ _ _ Hrun1)
  end.
  match goal with
  | |- context [bind (print_compilation_errors _ ?h ?t ?f ?l) _ ?w0] =>
      destruct (print_compilation_errors_run FILE__ h t f l w0) as (w2 & Hrun2 & _);
      rewrite (bind_run _ _ _ _ _ Hrun2)
  end.
  run.
  set (sh0 := set_uniform_count _ _).
  set (w3 := step FILE__ _ w2).
  rewrite map_app, <- app_assoc.
  destruct (resolve_attribs_run FILE__ file line anames sh0 (map VaStr unames ++ rest) w3)
    as (alocs & w4 & aevs & aout & Hrun4 & Hla & _).
  { subst sh0. cbn. lia. }
  rewrite (bind_run _ _ _ _ _ Hrun4). cbv beta.
  set (sh1 := set_attribs _ sh0) in *.
  destruct (resolve_uniforms_run FILE__ file line unames sh1 rest w4)
    as (ulocs & w5 & uevs & uout & Hrun5 & Hlu & _).
  { subst sh1 sh0. cbn. lia. }
  rewrite (bind_run _ _ _ _ _ Hrun5). cbv beta.
  exists alocs, ulocs, w5. split_and!; [reflexivity|exact Hla|exact Hlu].
Qed.

(** X5: [compile_shader] writes the shader's handle (the name
    [glCreateProgram] handed back, 0 if the driver rejected it), the two
    counts and the first N attribute and first M uniform slots, and nothing
    else: every slot from N (from M) on keeps the value it had.  With no
    names at all both tables are left as they were. *)
Theorem compile_shader_keeps_other_slots (shader : Shader) (file : string) (line : Z)
    (vert frag : string) (anames unames : list string) (rest : va_list) (w : World) :
  wf_shader shader ->
  (length anames <= 8)%nat ->
  (length unames <= 8)%nat ->
  exists shader' w',
    compile_shader FILE__ shader file line vert frag
                   (Z.of_nat (length anames)) (Z.of_nat (length unames))
                   (map VaStr (anames ++ unames) ++ rest) w
    = Some (shader', w')
    /\ handle shader' = ret_int (gl_command CreateProgram w).1 0
    /\ (forall i : nat, (length anames <= i)%nat -> attribs shader' !! i = attribs shader !! i)
    /\ (forall i : nat, (length unames <= i)%nat ->
                        uniforms shader' !! i = uniforms shader !! i).
Proof.
  intros Hwf Hna Hnu.
  destruct (compile_shader_shape shader file line vert frag anames unames rest w Hwf Hna Hnu)
    as (alocs & ulocs & w' & Hrun & Hla & Hlu).
  eexists _, w'. split; [exact Hrun|]. cbn [handle attribs uniforms].
  split_and!; [reflexivity| |]; intros i Hi.
  - rewrite lookup_app_r by lia. rewrite lookup_drop. f_equal. lia.
  - rewrite lookup_app_r by lia. rewrite lookup_drop. f_equal. lia.
Qed.

(** X6: the tables have 8 slots.  Called with more than 8 attribute names,
    or more than 8 uniform names, [compile_shader] stores past the end of
    the array: its behaviour is undefined. *)
Theorem compile_shader_overrun (shader : Shader) (file : string) (line : Z)
    (vert frag : string) (anames unames : list string) (rest : va_list) (w : World) :
  wf_shader shader ->
  (8 < length anames)%nat \/ (8 < length unames)%nat ->
  compile_shader FILE__ shader file line vert frag
                 (Z.of_nat (length anames)) (Z.of_nat (length unames))
                 (map VaStr (anames ++ unames) ++ rest) w
  = None.
Proof.
  intros [Ha Hu] Hover.
  unfold compile_shader, for_range. rewrite !Nat2Z.id. run.
  match goal with
  | |- context [bind (print_compilation_errors _ ?h ?t ?f ?l) _ ?w0] =>
      destruct (print_compilation_errors_run FILE__ h t f l w0) as (w1 & Hrun1 & _);
      rewrite (bind_run _ _ _ _ _ Hrun1)
  end.
  match goal with
  | |- context [bind (print_compilation_errors _ ?h ?t ?f ?l) _ ?w0] =>
      destruct (print_compilation_errors_run FILE__ h t f l w0) as (w2 & Hrun2 & _);
      rewrite (bind_run _ _ _ _ _ Hrun2)
  end.
  run.
  set (sh0 := set_uniform_count _ _).
  set (w3 := step FILE__ _ w2).
  rewrite map_app, <- app_assoc.
  assert (Hover_a :
            forall names sh rest0 w0,
              (length (attribs sh) < length names)%nat ->
              for_ (length names) 0 (resolve_attrib FILE__ file line)
                   (sh, map VaStr names ++ rest0) w0 = None).
  { intros names sh rest0 w0 Hlen.
    apply (resolution_loop_overrun FILE__ file line (resolve_attrib FILE__ file line)
             attribs set_attribs GetAttribLocation "Attribute"
             "glGetAttribLocation(shader.handle, name)" 137);
      try reflexivity; try exact Hlen.
    - now intros [].
    - now left.
    - intros i sh' name rest' w' Hi. now apply resolve_attrib_run.
    - intros i sh' name rest' w' Hi. now apply resolve_attrib_overrun. }
  assert (Hover_u :
            forall names sh rest0 w0,
              (length (uniforms sh) < length names)%nat ->
              for_ (length names) 0 (resolve_uniform FILE__ file line)
                   (sh, map VaStr names ++ rest0) w0 = None).
  { intros names sh rest0 w0 Hlen.
    apply (resolution_loop_overrun FILE__ file line (resolve_uniform FILE__ file line)
             uniforms set_uniforms GetUniformLocation "Uniform"
             "glGetUniformLocation(shader.handle, name)" 146);
      try reflexivity; try exact Hlen.
    - now intros [].
    - now right.
    - intros i sh' name rest' w' Hi. now apply resolve_uniform_run.
    - intros i sh' name rest' w' Hi. now apply resolve_uniform_overrun. }
  destruct (le_lt_dec (length anames) 8) as [Hna|Hna].
  - destruct Hover as [Hbad|Hbad]; [lia|].
    destruct (resolve_attribs_run FILE__ file line anames sh0 (map VaStr unames ++ rest) w3)
      as (alocs & w4 & aevs & aout & Hrun4 & Hla & _).
    { subst sh0. cbn. lia. }
    rewrite (bind_run _ _ _ _ _ Hrun4). cbv beta.
    unfold bind. rewrite Hover_u; [reflexivity|].
    cbn [uniforms set_attribs]. subst sh0. cbn. lia.
  - unfold bind. rewrite Hover_a; [reflexivity|].
    subst sh0. cbn. lia.
Qed.

End compile_shader_more.

Section compile_shader_quiet.

Variable FILE__ : string.

Lemma resolve_attribs_quiet (file : string) (line : Z) (names : list string) (sh : Shader)
    (rest : va_list) (w : World) :
  quiet w ->
  (length names <= length (attribs sh))%nat ->
  exists w',
    for_ (length names) 0 (resolve_attrib FILE__ file line) (sh, map VaStr names ++ rest) w
    = Some ((set_attribs (map (fun name => location_of (attrib_location (driver w) (handle sh)
                                                                         name)) names
                          ++ drop (length names) (attribs sh)) sh, rest), w')
    /\ driver w' = driver w
    /\ calls w' = calls w ++ map (GetAttribLocation (handle sh)) names
    /\ gl_state w' = gl_state w.
Proof.
  intros Hq Hlen.
  apply (resolution_loop_quiet FILE__ file line (resolve_attrib FILE__ file line)
           attribs set_attribs GetAttribLocation attrib_location "Attribute"
           "glGetAttribLocation(shader.handle, name)" 137);
    try reflexivity; try lia; try exact Hq.
  - now intros [].
  - intros i sh0 name rest0 w0 Hi. now apply resolve_attrib_run.
Qed.

Lemma resolve_uniforms_quiet (file : string) (line : Z) (names : list string) (sh : Shader)
    (rest : va_list) (w : World) :
  quiet w ->
  (length names <= length (uniforms sh))%nat ->
  exists w',
    for_ (length names) 0 (resolve_uniform FILE__ file line) (sh, map VaStr names ++ rest) w
    = Some ((set_uniforms (map (fun name => location_of (uniform_location (driver w) (handle sh)
                                                                           name)) names
                           ++ drop (length names) (uniforms sh)) sh, rest), w')
    /\ driver w' = driver w
    /\ calls w' = calls w ++ map (GetUniformLocation (handle sh)) names
    /\ gl_state w' = gl_state w.
Proof.
  intros Hq Hlen.
  apply (resolution_loop_quiet FILE__ file line (resolve_uniform FILE__ file line)
           uniforms set_uniforms GetUniformLocation uniform_location "Uniform"
           "glGetUniformLocation(shader.handle, name)" 146);
    try reflexivity; try lia; try exact Hq.
  - now intros [].
  - intros i sh0 name rest0 w0 Hi. now apply resolve_uniform_run.
Qed.

Lemma quiet_fresh (c : GLCall) (d : Z) (w : World) :
  quiet w ->
  c = CreateProgram \/ (exists t, c = CreateShader t) ->
  ret_int (gl_command c w).1 d = next_name (gl_state w).
Proof.
  intros Hq Hc. unfold gl_command. rewrite quiet_outcome by exact Hq.
  destruct Hc as [->|[t ->]]; reflexivity.
Qed.

(** X7: with a driver that rejects nothing, [compile_shader] is this
    sequence of commands and nothing else: create the program and the two
    shader objects, load and compile the vertex source and the fragment
    source under the names the driver handed back for the two shaders,
    attach both to the program the driver handed back, query the compile
    status of each (and its log when it failed), link, then ask for every
    attribute name and then every uniform name in the order given.  The
    shader handed back has the program's name as handle and holds in slot
    i the linker's answer for the i-th name, -1 when the linker does not
    know the name.  The link result is never queried, and the two shader
    objects are neither detached nor deleted. *)
Theorem compile_shader_quiet_run (shader : Shader) (file : string) (line : Z)
    (vert frag : string) (anames unames : list string) (rest : va_list) (w : World) :
  quiet w ->
  wf_shader shader ->
  (length anames <= 8)%nat ->
  (length unames <= 8)%nat ->
  let p := created_program w in
  let v := created_vertex_shader FILE__ w in
  let f := created_fragment_shader FILE__ w in
  let d := driver w in
  exists w',
    compile_shader FILE__ shader file line vert frag
                   (Z.of_nat (length anames)) (Z.of_nat (length unames))
                   (map VaStr (anames ++ unames) ++ rest) w
    = Some (mkShader p (Z.of_nat (length anames)) (Z.of_nat (length unames))
                     (map (fun name => location_of (attrib_location d p name)) anames
                      ++ drop (length anames) (attribs shader))
                     (map (fun name => location_of (uniform_location d p name)) unames
                      ++ drop (length unames) (uniforms shader)), w')
    /\ calls w'
       = calls w
         ++ [ CreateProgram; CreateShader GL_VERTEX_SHADER; CreateShader GL_FRAGMENT_SHADER;
              ShaderSource v vert; ShaderSource f frag;
              CompileShader v; CompileShader f;
              AttachShader p v; AttachShader p f ]
         ++ status_calls d v ++ status_calls d f
         ++ [LinkProgram p]
         ++ map (GetAttribLocation p) anames
         ++ map (GetUniformLocation p) unames.
Proof.
  intros Hq [Ha Hu] Hna Hnu p v f d.
  set (n := next_name (gl_state w)).
  set (w1 := step FILE__ (mkStmt CreateProgram "glCreateProgram()" 115) w).
  assert (Hq1 : quiet w1) by exact Hq.
  assert (Hg1 : gl_state w1 = set_next_name (n + 1) (gl_state w)).
  { subst w1. rewrite quiet_state by exact Hq. reflexivity. }
  set (w2 := step FILE__ (mkStmt (CreateShader GL_VERTEX_SHADER)
                                 "glCreateShader(GL_VERTEX_SHADER)" 116) w1).
  assert (Hq2 : quiet w2) by exact Hq.
  assert (Hg2 : gl_state w2 = set_next_name (n + 2) (gl_state w)).
  { subst w2. rewrite quiet_state by exact Hq1. cbn [st_call gl_apply]. rewrite Hg1.
    unfold fresh, ok_int, set_next_name. cbn. f_equal. lia. }
  assert (Hp : p = n).
  { subst p. unfold created_program. now rewrite (quiet_fresh CreateProgram 0 w Hq) by now left. }
  assert (Hv : v = n + 1).
  { subst v. unfold created_vertex_shader. fold w1.
    rewrite (quiet_fresh (CreateShader GL_VERTEX_SHADER) 0 w1 Hq1) by (right; eauto).
    now rewrite Hg1. }
  assert (Hf : f = n + 2).
  { subst f. unfold created_fragment_shader. fold w1. fold w2.
    rewrite (quiet_fresh (CreateShader GL_FRAGMENT_SHADER) 0 w2 Hq2) by (right; eauto).
    now rewrite Hg2. }
  rewrite Hp, Hv, Hf. clear Hp Hv Hf p v f.
  unfold compile_shader, for_range. rewrite !Nat2Z.id. run.
  rewrite !(quiet_fresh CreateProgram 0 w Hq) by now left.
  fold n. fold w1.
  rewrite !(quiet_fresh (CreateShader GL_VERTEX_SHADER) 0 w1 Hq1) by (right; eauto).
  rewrite Hg1. cbn [next_name set_next_name]. fold w2.
  rewrite !(quiet_fresh (CreateShader GL_FRAGMENT_SHADER) 0 w2 Hq2) by (right; eauto).
  rewrite Hg2. cbn [next_name set_next_name].
  set (w3 := step FILE__ (mkStmt (CreateShader GL_FRAGMENT_SHADER) _ _) w2).
  assert (Hq3 : quiet w3) by exact Hq.
  match goal with
  | |- context [bind (print_compilation_errors _ ?h ?t ?f ?l) _ ?w0] =>
      set (w9 := w0)
  end.
  assert (Hq9 : quiet w9) by exact Hq.
  assert (Hc9 : calls w9
                = calls w ++ [ CreateProgram; CreateShader GL_VERTEX_SHADER;
                               CreateShader GL_FRAGMENT_SHADER;
                               ShaderSource (n + 1) vert; ShaderSource (n + 2) frag;
                               CompileShader (n + 1); CompileShader (n + 2);
                               AttachShader n (n + 1); AttachShader n (n + 2) ]).
  { subst w9 w3 w2 w1. rewrite !calls_step. cbn [st_call]. rewrite <- !app_assoc.
    replace (n + 1 + 1) with (n + 2) by lia. reflexivity. }
  replace (n + 1 + 1) with (n + 2) by lia.
  destruct (print_compilation_errors_quiet FILE__ (n + 1) "vertex" file line w9 Hq9)
    as (w10 & Hrun10 & Hd10 & Hg10 & Hc10).
  rewrite (bind_run _ _ _ _ _ Hrun10).
  assert (Hq10 : quiet w10) by (unfold quiet; rewrite Hd10; exact Hq).
  destruct (print_compilation_errors_quiet FILE__ (n + 2) "fragment" file line w10 Hq10)
    as (w11 & Hrun11 & Hd11 & Hg11 & Hc11).
  rewrite (bind_run _ _ _ _ _ Hrun11).
  assert (Hq11 : quiet w11) by (unfold quiet; rewrite Hd11; exact Hq10).
  run.
  set (sh0 := set_uniform_count _ _).
  set (w12 := step FILE__ _ w11).
  assert (Hq12 : quiet w12) by exact Hq11.
  rewrite map_app, <- app_assoc.
  destruct (resolve_attribs_quiet file line anames sh0 (map VaStr unames ++ rest) w12 Hq12)
    as (w13 & Hrun13 & Hd13 & Hc13 & Hg13).
  { subst sh0. cbn. lia. }
  rewrite (bind_run _ _ _ _ _ Hrun13). cbv beta.
  assert (Hq13 : quiet w13) by (unfold quiet; rewrite Hd13; exact Hq12).
  set (sh1 := set_attribs _ sh0) in *.
  destruct (resolve_uniforms_quiet file line unames sh1 rest w13 Hq13)
    as (w14 & Hrun14 & Hd14 & Hc14 & Hg14).
  { subst sh1 sh0. cbn. lia. }
  rewrite (bind_run _ _ _ _ _ Hrun14). cbv beta.
  assert (Hd12 : driver w12 = d).
  { subst w12. rewrite driver_step, Hd11, Hd10. reflexivity. }
  exists w14. split.
  - unfold ret. subst sh1 sh0.
    cbn [fst handle attribs uniforms attrib_count uniform_count set_attribs set_uniforms
         set_uniform_count set_attrib_count set_handle].
    rewrite Hd13, Hd12. reflexivity.
  - rewrite Hc14, Hc13. subst w12. rewrite calls_step, Hc11, Hc10, Hc9, Hd10.
    cbn [st_call]. subst sh1 sh0. cbn [handle set_attribs set_uniform_count set_attrib_count
                                      set_handle].
    change (driver w9) with d. rewrite <- !app_assoc. reflexivity.
Qed.

End compile_shader_quiet.

(** ** Concrete runs of the further properties *)

Lemma GLCHK_reports_the_pending_error_witness :
  error_flag pending_world <> GL_NO_ERROR
  /\ exists w',
       GLCHK "gl.h" (gl_void (LineWidth f2)) "glLineWidth(2.0f)" 258 pending_world
       = Some (tt, w')
       /\ stdout w'
          = stdout pending_world
            ++ report_lines (error_flag pending_world) "glLineWidth(2.0f)" "gl.h" 258.
Proof.
  assert (H : error_flag pending_world <> GL_NO_ERROR).
  { intros E. vm_compute in E. discriminate E. }
  split; [exact H|].
  destruct (GLCHK_reports_the_pending_error "gl.h" (LineWidth f2) "glLineWidth(2.0f)" 258
              pending_world H) as (w' & Hrun & Hout & _).
  exists w'. split; [exact Hrun|exact Hout].
Defined.

Lemma print_compilation_errors_reports_witness :
  exists w',
    print_compilation_errors "gl.h" 11 "vertex" "main.cpp" 42 failing_world = Some (tt, w')
    /\ length (stdout w') = 3%nat
    /\ calls w' = [GetShaderiv 11 GL_COMPILE_STATUS; GetShaderInfoLog 11 4096].
Proof.
  destruct (print_compilation_errors_reports "gl.h" 11 "vertex" "main.cpp" 42 failing_world)
    as (w' & Hrun & _ & Hcalls & Hout).
  - intros k c. reflexivity.
  - reflexivity.
  - exists w'. split_and!; [exact Hrun|now rewrite Hout|exact Hcalls].
Defined.

Lemma compile_shader_keeps_other_slots_witness :
  exists shader' w',
    compile_shader "gl.h" demo_shader "main.cpp" 42 "void main(){}" "void main(){}" 1 0
                   (map VaStr (["position"] ++ []) ++ []) demo_world
    = Some (shader', w')
    /\ attribs shader' !! 2%nat = Some (-1).
Proof.
  destruct (compile_shader_keeps_other_slots "gl.h" demo_shader "main.cpp" 42
              "void main(){}" "void main(){}" ["position"] [] [] demo_world wf_demo_shader)
    as (shader' & w' & Hrun & _ & Hattribs & _).
  - cbn. lia.
  - cbn. lia.
  - exists shader', w'. split; [exact Hrun|]. rewrite Hattribs; [reflexivity|cbn; lia].
Defined.

Lemma compile_shader_overrun_witness :
  compile_shader "gl.h" demo_shader "main.cpp" 42 "void main(){}" "void main(){}" 9 0
                 (map VaStr (["a0"; "a1"; "a2"; "a3"; "a4"; "a5"; "a6"; "a7"; "a8"] ++ []) ++ [])
                 demo_world
  = None.
Proof.
  apply (compile_shader_overrun "gl.h" demo_shader "main.cpp" 42 "void main(){}"
           "void main(){}" ["a0"; "a1"; "a2"; "a3"; "a4"; "a5"; "a6"; "a7"; "a8"] [] []
           demo_world wf_demo_shader).
  left. cbn. lia.
Defined.

Lemma compile_shader_quiet_run_witness :
  exists w',
    compile_shader "gl.h" demo_shader "main.cpp" 42 "void main(){}" "void main(){}" 3 1
                   (map VaStr (["position"; "uv"; "color"] ++ ["u_proj"]) ++ []) demo_world
    = Some (mkShader (created_program demo_world) 3 1
                     [0; 1; -1; 0; 0; 0; 0; 0] [0; 0; 0; 0; 0; 0; 0; 0], w')
    /\ length (calls w') = 16%nat.
Proof.
  destruct (compile_shader_quiet_run "gl.h" demo_shader "main.cpp" 42 "void main(){}"
              "void main(){}" ["position"; "uv"; "color"] ["u_proj"] [] demo_world)
    as (w' & Hrun & Hcalls).
  - intros k c. reflexivity.
  - exact wf_demo_shader.
  - cbn. lia.
  - cbn. lia.
  - exists w'. split; [exact Hrun|]. now rewrite Hcalls.
Defined.

(** ** The draw call, continued *)

Section draw_more.

Variable FILE__ : string.

(** Started with no error pending, a script reports every command the
    driver rejects, once, under the command's own text and line. *)
Lemma steps_reports (l : list Stmt) :
  forall w : World,
    error_flag w = GL_NO_ERROR ->
    exists evs,
      trace (steps FILE__ l w) = trace w ++ evs
      /\ map ev_call evs = map st_call l
      /\ stdout (steps FILE__ l w) = stdout w ++ script_report FILE__ l evs
      /\ error_flag (steps FILE__ l w) = GL_NO_ERROR.
Proof.
  induction l as [|s l IH]; intros w Hclear.
  - exists []. cbn. rewrite !app_nil_r. auto.
  - rewrite steps_cons.
    destruct (IH (step FILE__ s w) eq_refl) as (evs & Ht & Hc & Ho & He).
    exists (mkEvent (st_call s) (outcome (st_call s) w).1.1 (outcome (st_call s) w).1.2 :: evs).
    split_and!.
    + rewrite Ht. unfold step, checked, gl_command. cbn [trace snd].
      now rewrite <- app_assoc.
    + cbn [map ev_call]. now rewrite Hc.
    + rewrite Ho. destruct s as [c e ln].
      rewrite (GLCHK_reports_own_error FILE__ c e ln w Hclear).
      unfold script_report. cbn [zip_with concat ev_error st_expr st_line st_call].
      now rewrite <- app_assoc.
    + exact He.
Qed.

Lemma script_report_silent (l : list Stmt) (evs : list Event) :
  Forall (fun ev => ev_error ev = GL_NO_ERROR) evs -> script_report FILE__ l evs = [].
Proof.
  intros H. revert l. induction H as [|ev evs Hev _ IH]; intros [|s l]; try reflexivity.
  unfold script_report in *. cbn [zip_with concat]. rewrite IH, Hev. reflexivity.
Qed.

(** X8: entered with no error pending, [draw_mesh] prints, for every
    command of the draw the driver rejected, the two-line report under
    that command's own text and line, in the order of the commands, and
    nothing else; when the driver rejected none it prints nothing.  It
    returns with no error pending. *)
Theorem draw_mesh_reports_each_rejected_command
    (mesh : Mesh) (shader : Shader) (scissor : bool) (us : list UniformArg)
    (rest : va_list) (w : World) :
  wf_shader shader ->
  attrib_count shader <= 8 ->
  (length us <= 8)%nat ->
  error_flag w = GL_NO_ERROR ->
  exists w' evs,
    draw_mesh FILE__ mesh shader scissor (Z.of_nat (length us)) (encode us ++ rest) w
    = Some (tt, w')
    /\ trace w' = trace w ++ evs
    /\ map ev_call evs = map st_call (draw_script FILE__ mesh shader scissor us w)
    /\ stdout w'
       = stdout w ++ script_report FILE__ (draw_script FILE__ mesh shader scissor us w) evs
    /\ (Forall (fun ev => ev_error ev = GL_NO_ERROR) evs -> stdout w' = stdout w)
    /\ (forall (i : nat) (s : Stmt) (ev : Event),
          draw_script FILE__ mesh shader scissor us w !! i = Some s ->
          evs !! i = Some ev ->
          ev_error ev <> GL_NO_ERROR ->
          report_lines (ev_error ev) (st_expr s) FILE__ (st_line s) ⊆ stdout w')
    /\ error_flag w' = GL_NO_ERROR.
Proof.
  intros Hwf Hn Hus Hclear.
  set (script := draw_script FILE__ mesh shader scissor us w).
  destruct (steps_reports script w Hclear) as (evs & Ht & Hc & Ho & He).
  exists (steps FILE__ script w), evs.
  split; [now apply draw_mesh_run|].
  split_and!; try assumption.
  - intros Hall. rewrite Ho, script_report_silent by exact Hall. apply app_nil_r.
  - intros i s ev Hs Hev Herr. rewrite Ho.
    intros line Hline. apply elem_of_app. right.
    unfold script_report. apply list_elem_of_In, in_concat.
    exists (error_report (ev_error ev) (st_expr s) FILE__ (st_line s)). split.
    + apply list_elem_of_In, list_elem_of_lookup. exists i.
      rewrite lookup_zip_with, Hs. cbn. now rewrite Hev.
    + apply list_elem_of_In. unfold error_report.
      apply Z.eqb_neq in Herr. now rewrite Herr.
Qed.

Lemma draw_script_setup (mesh : Mesh) (shader : Shader) (scissor : bool)
    (us : list UniformArg) (w : World) :
  draw_script FILE__ mesh shader scissor us w
  = draw_setup mesh shader scissor us
    ++ draw_stmt mesh :: restore_script (read_last_program w) (read_last_texture FILE__ w).
Proof.
  unfold draw_script, draw_setup, issue_script, draw_stmt.
  rewrite <- !app_assoc. reflexivity.
Qed.

Lemma draw_setup_no_draw (mesh : Mesh) (shader : Shader) (scissor : bool)
    (us : list UniformArg) :
  forallb (fun s => negb (is_DrawArrays (st_call s))) (draw_setup mesh shader scissor us) = true.
Proof.
  unfold draw_setup, policy_script, query_program, query_texture.
  rewrite !forallb_app, !andb_true_iff. split_and!.
  - reflexivity.
  - now destruct scissor.
  - apply uniform_untouched. intros c. destruct c; (discriminate || reflexivity).
  - apply attrib_untouched. intros c. destruct c; (discriminate || reflexivity).
  - reflexivity.
Qed.

(** X9: every [draw_mesh] issues exactly one [glDrawArrays], after all
    uniform uploads and attribute commands and before the five restoring
    commands: a line loop when the mesh says so and triangles otherwise,
    from vertex 0, over [index_count] vertices read as a signed count. *)
Theorem draw_mesh_draws_once
    (mesh : Mesh) (shader : Shader) (scissor : bool) (us : list UniformArg)
    (rest : va_list) (w : World) :
  wf_shader shader ->
  attrib_count shader <= 8 ->
  (length us <= 8)%nat ->
  exists w' pre post,
    draw_mesh FILE__ mesh shader scissor (Z.of_nat (length us)) (encode us ++ rest) w
    = Some (tt, w')
    /\ calls w'
       = calls w ++ pre
         ++ [DrawArrays (if is_line_loop mesh then GL_LINE_LOOP else GL_TRIANGLES) 0
                        (to_int32 (index_count mesh))]
         ++ post
    /\ forallb (fun c => negb (is_DrawArrays c)) pre = true
    /\ forallb (fun c => negb (is_DrawArrays c || is_upload c || is_attrib c)) post = true
    /\ length post = 5%nat
    /\ (0 <= index_count mesh < 2 ^ 31 -> to_int32 (index_count mesh) = index_count mesh).
Proof.
  intros Hwf Hn Hus.
  destruct (draw_mesh_calls FILE__ mesh shader scissor us rest w Hwf Hn Hus)
    as (w' & Hrun & Hcalls).
  exists w', (map st_call (draw_setup mesh shader scissor us)),
    (map st_call (restore_script (read_last_program w) (read_last_texture FILE__ w))).
  split; [exact Hrun|]. split_and!.
  - rewrite Hcalls, draw_script_setup, map_app. reflexivity.
  - rewrite forallb_map. apply draw_setup_no_draw.
  - reflexivity.
  - reflexivity.
  - intros Hi. unfold to_int32. rewrite Z.mod_small by lia. lia.
Qed.

Lemma outcome_enabled (cap : GLenum) (c : GLCall) (w : World) :
  disables cap c = false ->
  cap ∈ enabled (gl_state w) -> cap ∈ enabled (outcome c w).2.
Proof.
  intros Hc. unfold outcome. destruct c;
    cbn [gl_apply]; unfold upload, fresh, ok, ok_int, rejected;
    split_cases; cbn; intros H; try exact H.
  - rewrite elem_of_union. now right.
  - cbn in Hc. apply Z.eqb_neq in Hc.
    rewrite elem_of_difference, elem_of_singleton. split; [exact H|congruence].
Qed.

Lemma quiet_Enable (cap : GLenum) (e : string) (l : Z) (w : World) :
  cap ∈ known_caps ->
  quiet w ->
  cap ∈ enabled (gl_state (step FILE__ (mkStmt (Enable cap) e l) w)).
Proof.
  intros Hk Hq. rewrite quiet_state by exact Hq. cbn [st_call gl_apply].
  rewrite (known_cap cap Hk). cbn.
  rewrite elem_of_union, elem_of_singleton. now left.
Qed.

Ltac quiet_here := repeat first [apply quiet_step | apply quiet_steps]; assumption.

(** X10: the context in which the one [glDrawArrays] of a draw runs, with
    a driver that rejects nothing: the shader's program is current, the
    mesh's buffer is the array buffer, blending is on with equation
    [GL_FUNC_ADD] and function (source alpha, one minus source alpha), face
    culling and the depth test are off, the scissor test is on exactly when
    the caller asked for it, and lines are 2 wide.  The 2D texture is the
    one the caller had bound: the draw binds none of its own. *)
Theorem draw_mesh_state_at_draw
    (mesh : Mesh) (shader : Shader) (scissor : bool) (us : list UniformArg)
    (rest : va_list) (w : World) :
  wf_shader shader ->
  attrib_count shader <= 8 ->
  (length us <= 8)%nat ->
  quiet w ->
  let wd := steps FILE__ (draw_setup mesh shader scissor us) w in
  draw_mesh FILE__ mesh shader scissor (Z.of_nat (length us)) (encode us ++ rest) w
  = Some (tt, steps FILE__ (draw_stmt mesh
                            :: restore_script (read_last_program w) (read_last_texture FILE__ w))
                    wd)
  /\ current_program (gl_state wd) = handle shader
  /\ array_buffer_binding (gl_state wd) = vbo_handle mesh
  /\ texture_binding_2d (gl_state wd) = texture_binding_2d (gl_state w)
  /\ GL_BLEND ∈ enabled (gl_state wd)
  /\ (GL_SCISSOR_TEST ∈ enabled (gl_state wd) <-> scissor = true)
  /\ (GL_CULL_FACE ∉ enabled (gl_state wd))
  /\ (GL_DEPTH_TEST ∉ enabled (gl_state wd))
  /\ blend_equation (gl_state wd) = GL_FUNC_ADD
  /\ blend_func (gl_state wd) = (GL_SRC_ALPHA, GL_ONE_MINUS_SRC_ALPHA)
  /\ line_width (gl_state wd) = f2.
Proof.
  intros Hwf Hn Hus Hq wd.
  split.
  { rewrite (draw_mesh_run FILE__ mesh shader scissor us rest w Hwf Hn Hus).
    now rewrite draw_script_setup, steps_app. }
  subst wd. unfold draw_setup. rewrite !steps_app.
  set (w0 := steps FILE__ [query_program; query_texture] w).
  assert (Hq0 : quiet w0) by (subst w0; quiet_here).
  set (U := uniform_script (uniforms shader) us).
  set (A := attrib_script shader).
  set (LW := [mkStmt (LineWidth f2) "glLineWidth(2.0f)" 258]).
  split_and!.
  - (* program *)
    rewrite (steps_frame FILE__ _ _ outcome_program LW) by reflexivity.
    rewrite (steps_frame FILE__ _ _ outcome_program A) by (subst A; untouched).
    rewrite (steps_frame FILE__ _ _ outcome_program U) by (subst U; untouched).
    unfold policy_script. rewrite !steps_cons, steps_nil.
    apply step_UseProgram. apply quiet_step. quiet_here.
  - (* array buffer *)
    rewrite (steps_frame FILE__ _ _ outcome_array_buffer LW) by reflexivity.
    rewrite (steps_frame FILE__ _ _ outcome_array_buffer A) by (subst A; untouched).
    rewrite (steps_frame FILE__ _ _ outcome_array_buffer U) by (subst U; untouched).
    unfold policy_script. rewrite !steps_cons, steps_nil.
    rewrite (step_frame FILE__ _ _ outcome_array_buffer) by reflexivity.
    rewrite quiet_state; [reflexivity|]. quiet_here.
  - (* texture *)
    subst w0. rewrite <- !steps_app.
    apply (steps_frame FILE__ texture_binding_2d is_BindTexture outcome_texture).
    subst U A LW. destruct scissor; untouched.
  - (* blending *)
    apply (steps_invariant FILE__ (fun s => GL_BLEND ∈ enabled s) _ (outcome_enabled GL_BLEND));
      [reflexivity|].
    apply (steps_invariant FILE__ (fun s => GL_BLEND ∈ enabled s) _ (outcome_enabled GL_BLEND)).
    { subst A. apply attrib_untouched. intros c. destruct c; (discriminate || reflexivity). }
    apply (steps_invariant FILE__ (fun s => GL_BLEND ∈ enabled s) _ (outcome_enabled GL_BLEND)).
    { subst U. apply uniform_untouched. intros c. destruct c; (discriminate || reflexivity). }
    unfold policy_script. rewrite !steps_cons, steps_nil.
    do 7 (apply (step_invariant FILE__ (fun s => GL_BLEND ∈ enabled s) _
                   (outcome_enabled GL_BLEND)); [now destruct scissor|]).
    apply quiet_Enable; [in_caps|exact Hq0].
  - (* scissor test *)
    destruct scissor.
    + split; [reflexivity|intros _].
      apply (steps_invariant FILE__ (fun s => GL_SCISSOR_TEST ∈ enabled s) _
               (outcome_enabled GL_SCISSOR_TEST)); [reflexivity|].
      apply (steps_invariant FILE__ (fun s => GL_SCISSOR_TEST ∈ enabled s) _
               (outcome_enabled GL_SCISSOR_TEST)).
      { subst A. apply attrib_untouched. intros c. destruct c; (discriminate || reflexivity). }
      apply (steps_invariant FILE__ (fun s => GL_SCISSOR_TEST ∈ enabled s) _
               (outcome_enabled GL_SCISSOR_TEST)).
      { subst U. apply uniform_untouched. intros c. destruct c; (discriminate || reflexivity). }
      unfold policy_script. rewrite !steps_cons, steps_nil.
      do 2 (apply (step_invariant FILE__ (fun s => GL_SCISSOR_TEST ∈ enabled s) _
                     (outcome_enabled GL_SCISSOR_TEST)); [reflexivity|]).
      apply quiet_Enable; [in_caps|quiet_here].
    + split; [|discriminate]. intros Hin. exfalso. revert Hin.
      apply (steps_invariant FILE__ (fun s => GL_SCISSOR_TEST ∉ enabled s) _
               (outcome_disabled GL_SCISSOR_TEST)); [reflexivity|].
      apply (steps_invariant FILE__ (fun s => GL_SCISSOR_TEST ∉ enabled s) _
               (outcome_disabled GL_SCISSOR_TEST)).
      { subst A. apply attrib_untouched. intros c. destruct c; (discriminate || reflexivity). }
      apply (steps_invariant FILE__ (fun s => GL_SCISSOR_TEST ∉ enabled s) _
               (outcome_disabled GL_SCISSOR_TEST)).
      { subst U. apply uniform_untouched. intros c. destruct c; (discriminate || reflexivity). }
      unfold policy_script. rewrite !steps_cons, steps_nil.
      do 2 (apply (step_invariant FILE__ (fun s => GL_SCISSOR_TEST ∉ enabled s) _
                     (outcome_disabled GL_SCISSOR_TEST)); [reflexivity|]).
      apply quiet_Disable; [in_caps|quiet_here].
  - (* face culling *)
    apply (steps_invariant FILE__ (fun s => GL_CULL_FACE ∉ enabled s) _
             (outcome_disabled GL_CULL_FACE)); [reflexivity|].
    apply (steps_invariant FILE__ (fun s => GL_CULL_FACE ∉ enabled s) _
             (outcome_disabled GL_CULL_FACE)).
    { subst A. apply attrib_untouched. intros c. destruct c; (discriminate || reflexivity). }
    apply (steps_invariant FILE__ (fun s => GL_CULL_FACE ∉ enabled s) _
             (outcome_disabled GL_CULL_FACE)).
    { subst U. apply uniform_untouched. intros c. destruct c; (discriminate || reflexivity). }
    unfold policy_script. rewrite !steps_cons, steps_nil.
    do 4 (apply (step_invariant FILE__ (fun s => GL_CULL_FACE ∉ enabled s) _
                   (outcome_disabled GL_CULL_FACE)); [now destruct scissor|]).
    apply quiet_Disable; [in_caps|quiet_here].
  - (* depth test *)
    apply (steps_invariant FILE__ (fun s => GL_DEPTH_TEST ∉ enabled s) _
             (outcome_disabled GL_DEPTH_TEST)); [reflexivity|].
    apply (steps_invariant FILE__ (fun s => GL_DEPTH_TEST ∉ enabled s) _
             (outcome_disabled GL_DEPTH_TEST)).
    { subst A. apply attrib_untouched. intros c. destruct c; (discriminate || reflexivity). }
    apply (steps_invariant FILE__ (fun s => GL_DEPTH_TEST ∉ enabled s) _
             (outcome_disabled GL_DEPTH_TEST)).
    { subst U. apply uniform_untouched. intros c. destruct c; (discriminate || reflexivity). }
    unfold policy_script. rewrite !steps_cons, steps_nil.
    do 3 (apply (step_invariant FILE__ (fun s => GL_DEPTH_TEST ∉ enabled s) _
                   (outcome_disabled GL_DEPTH_TEST)); [now destruct scissor|]).
    apply quiet_Disable; [in_caps|quiet_here].
  - (* blend equation *)
    rewrite (steps_frame FILE__ _ _ outcome_blend_equation LW) by reflexivity.
    rewrite (steps_frame FILE__ _ _ outcome_blend_equation A) by (subst A; untouched).
    rewrite (steps_frame FILE__ _ _ outcome_blend_equation U) by (subst U; untouched).
    unfold policy_script. rewrite !steps_cons, steps_nil.
    rewrite !(step_frame FILE__ _ _ outcome_blend_equation) by now destruct scissor.
    rewrite quiet_state; [reflexivity|]. quiet_here.
  - (* blend function *)
    rewrite (steps_frame FILE__ _ _ outcome_blend_func LW) by reflexivity.
    rewrite (steps_frame FILE__ _ _ outcome_blend_func A) by (subst A; untouched).
    rewrite (steps_frame FILE__ _ _ outcome_blend_func U) by (subst U; untouched).
    unfold policy_script. rewrite !steps_cons, steps_nil.
    rewrite !(step_frame FILE__ _ _ outcome_blend_func) by now destruct scissor.
    rewrite quiet_state; [reflexivity|]. quiet_here.
  - (* line width *)
    subst LW. rewrite steps_cons, steps_nil.
    rewrite quiet_state; [reflexivity|]. quiet_here.
Qed.

Lemma outcome_uniform_store (c : GLCall) (w : World) :
  is_upload c = false ->
  uniform_store (outcome c w).2 = uniform_store (gl_state w).
Proof. by_command c. Qed.

(** An upload stores its value under the current program and its location,
    or changes nothing. *)
Lemma upload_stores (a : Z) (u : UniformArg) (w : World) :
  (outcome (upload_call a u) w).2 = gl_state w
  \/ (a <> -1 /\ current_program (gl_state w) <> 0
      /\ (outcome (upload_call a u) w).2
         = set_uniform_store (<[(current_program (gl_state w), a) := uniform_value u]>
                                (uniform_store (gl_state w))) (gl_state w)).
Proof.
  unfold outcome.
  destruct (fault (driver w) (clock w) (upload_call a u) =? GL_NO_ERROR); [|now left].
  destruct u; unfold upload_call; cbn [upload_stmt st_call gl_apply Z.eqb Pos.eqb];
    unfold upload, ok, rejected;
    destruct (Z.eqb_spec a (-1)); try (now left);
    destruct (Z.eqb_spec (current_program (gl_state w)) 0); try (now left);
    right; split_and!; auto.
Qed.

Lemma quiet_upload (a : Z) (u : UniformArg) (w : World) :
  quiet w ->
  a <> -1 ->
  current_program (gl_state w) <> 0 ->
  (outcome (upload_call a u) w).2
  = set_uniform_store (<[(current_program (gl_state w), a) := uniform_value u]>
                         (uniform_store (gl_state w))) (gl_state w).
Proof.
  intros Hq Ha Hp. rewrite quiet_outcome by exact Hq.
  apply Z.eqb_neq in Ha, Hp.
  destruct u; unfold upload_call; cbn [upload_stmt st_call gl_apply Z.eqb Pos.eqb];
    unfold upload, ok; now rewrite Ha, Hp.
Qed.

Lemma upload_stmt_program (a : Z) (u : UniformArg) (w : World) :
  current_program (gl_state (step FILE__ (upload_stmt a u) w)) = current_program (gl_state w).
Proof. apply gl_state_step_frame_program. now destruct u. Qed.

(** The uploads of a draw leave alone what is stored for other programs,
    for locations not among the slots used, and for location -1. *)
Lemma uniform_script_store_frame (us : list UniformArg) :
  forall (slots : list Z) (w : World) (p loc : Z),
    p <> current_program (gl_state w) \/ loc ∉ take (length us) slots \/ loc = -1 ->
    uniform_store (gl_state (steps FILE__ (uniform_script slots us) w)) !! (p, loc)
    = uniform_store (gl_state w) !! (p, loc).
Proof.
  induction us as [|u us IH]; intros [|a slots] w p loc H; try reflexivity.
  unfold uniform_script. cbn [zip_with]. fold (uniform_script slots us).
  rewrite steps_cons, IH.
  - rewrite gl_state_step. change (st_call (upload_stmt a u)) with (upload_call a u).
    destruct (upload_stores a u w) as [->|(Ha & _ & ->)]; [reflexivity|].
    cbn [uniform_store set_uniform_store]. apply lookup_insert_ne.
    intros E. inversion E; subst.
    destruct H as [H|[H|H]]; [congruence| |congruence].
    apply H. cbn [length take]. apply list_elem_of_here.
  - rewrite upload_stmt_program.
    destruct H as [H|[H|H]]; [now left| |now right; right].
    right. left. intros Hin. apply H. cbn [length take]. now apply list_elem_of_further.
Qed.

(** Of several uploads to one location the last one stays. *)
Lemma uniform_script_store_last (us : list UniformArg) :
  forall (slots : list Z) (w : World) (i : nat) (a : Z) (u : UniformArg),
    quiet w ->
    current_program (gl_state w) <> 0 ->
    slots !! i = Some a ->
    us !! i = Some u ->
    a <> -1 ->
    (forall j, (i < j)%nat -> (j < length us)%nat -> slots !! j <> Some a) ->
    uniform_store (gl_state (steps FILE__ (uniform_script slots us) w))
      !! (current_program (gl_state w), a)
    = Some (uniform_value u).
Proof.
  induction us as [|u0 us IH]; intros [|a0 slots] w i a u Hq Hp Hs Hu Ha Hlast;
    try discriminate.
  unfold uniform_script. cbn [zip_with]. fold (uniform_script slots us).
  rewrite steps_cons.
  destruct i as [|i]; cbn in Hs, Hu.
  - injection Hs as ->. injection Hu as ->.
    rewrite uniform_script_store_frame.
    + rewrite gl_state_step. change (st_call (upload_stmt a u)) with (upload_call a u).
      rewrite quiet_upload by assumption.
      cbn [uniform_store set_uniform_store]. apply lookup_insert_eq.
    + right. left. intros Hin. apply elem_of_take in Hin as (j & Hj & Hlt).
      apply (Hlast (S j)); [lia|cbn [length]; lia|exact Hj].
  - rewrite <- (upload_stmt_program a0 u0 w).
    apply (IH slots _ i a u);
      [now apply quiet_step|now rewrite upload_stmt_program|exact Hs|exact Hu|exact Ha|].
    intros j Hij Hj. apply (Hlast (S j)); [lia|cbn [length]; lia].
Qed.

(** With no program current every upload is rejected. *)
Lemma uniform_script_store_none (us : list UniformArg) :
  forall (slots : list Z) (w : World),
    current_program (gl_state w) = 0 ->
    uniform_store (gl_state (steps FILE__ (uniform_script slots us) w))
    = uniform_store (gl_state w).
Proof.
  induction us as [|u us IH]; intros [|a slots] w Hp; try reflexivity.
  unfold uniform_script. cbn [zip_with]. fold (uniform_script slots us).
  rewrite steps_cons, IH by now rewrite upload_stmt_program.
  rewrite gl_state_step. change (st_call (upload_stmt a u)) with (upload_call a u).
  destruct (upload_stores a u w) as [->|(_ & Hne & _)]; [reflexivity|contradiction].
Qed.

(** X11: what a draw leaves in the uniform store, with a driver that
    rejects nothing.  The values go to the shader's program, under the
    locations held in its first slots: for every argument whose slot holds
    a location other than -1 that no later argument of the same draw
    overwrites, the store holds the argument's value ([float] arguments
    rounded from [double], matrices untransposed), and it still does after
    the draw has made the previous program current again.  Nothing is
    stored for other programs, for other locations, or under -1; a shader
    with handle 0 stores nothing at all. *)
Theorem draw_mesh_uniform_store
    (mesh : Mesh) (shader : Shader) (scissor : bool) (us : list UniformArg)
    (rest : va_list) (w : World) :
  wf_shader shader ->
  attrib_count shader <= 8 ->
  (length us <= 8)%nat ->
  quiet w ->
  exists w',
    draw_mesh FILE__ mesh shader scissor (Z.of_nat (length us)) (encode us ++ rest) w
    = Some (tt, w')
    /\ (forall p loc,
          p <> handle shader \/ loc ∉ take (length us) (uniforms shader) \/ loc = -1 ->
          uniform_store (gl_state w') !! (p, loc) = uniform_store (gl_state w) !! (p, loc))
    /\ (handle shader <> 0 ->
        forall (i : nat) (a : Z) (u : UniformArg),
          uniforms shader !! i = Some a ->
          us !! i = Some u ->
          a <> -1 ->
          (forall j, (i < j)%nat -> (j < length us)%nat -> uniforms shader !! j <> Some a) ->
          uniform_store (gl_state w') !! (handle shader, a) = Some (uniform_value u))
    /\ (handle shader = 0 -> uniform_store (gl_state w') = uniform_store (gl_state w)).
Proof.
  intros Hwf Hn Hus Hq.
  exists (steps FILE__ (draw_script FILE__ mesh shader scissor us w) w).
  split; [now apply draw_mesh_run|].
  unfold draw_script. rewrite !steps_app.
  set (w1 := steps FILE__ (policy_script mesh shader scissor)
                   (steps FILE__ [query_program; query_texture] w)).
  assert (Hq1 : quiet w1) by (subst w1; quiet_here).
  assert (Hp1 : current_program (gl_state w1) = handle shader).
  { subst w1. unfold policy_script. rewrite !steps_cons, steps_nil.
    apply step_UseProgram. apply quiet_step. quiet_here. }
  assert (Hs1 : uniform_store (gl_state w1) = uniform_store (gl_state w)).
  { subst w1. rewrite <- steps_app.
    apply (steps_frame FILE__ uniform_store is_upload outcome_uniform_store).
    now destruct scissor. }
  set (R := restore_script _ _).
  set (w2 := steps FILE__ (uniform_script (uniforms shader) us) w1).
  assert (Hs2 : uniform_store (gl_state (steps FILE__ R
                                (steps FILE__ (issue_script mesh)
                                   (steps FILE__ (attrib_script shader) w2))))
                = uniform_store (gl_state w2)).
  { rewrite <- !steps_app.
    apply (steps_frame FILE__ uniform_store is_upload outcome_uniform_store).
    rewrite !forallb_app, !andb_true_iff. split_and!.
    - apply attrib_untouched. intros c. destruct c; (discriminate || reflexivity).
    - reflexivity.
    - reflexivity. }
  rewrite Hs2. subst w2. split_and!.
  - intros p loc H. rewrite uniform_script_store_frame, Hs1; [reflexivity|].
    now rewrite Hp1.
  - intros Hh i a u Hi Hu Ha Hlast. rewrite <- Hp1.
    apply (uniform_script_store_last us (uniforms shader) w1 i a u); auto.
    now rewrite Hp1.
  - intros Hh. rewrite uniform_script_store_none, Hs1; [reflexivity|].
    now rewrite Hp1.
Qed.

End draw_more.

(** ** The variadic arguments of a draw *)

Lemma bind_none {A B : Type} (m : M A) (k : A -> M B) (w : World) :
  m w = None -> bind m k w = None.
Proof. intros H. unfold bind. now rewrite H. Qed.

Lemma encode_app (us1 us2 : list UniformArg) : encode (us1 ++ us2) = encode us1 ++ encode us2.
Proof. unfold encode. now rewrite map_app, concat_app. Qed.

Lemma array_get_overrun (a : list Z) (i : Z) (w : World) :
  Z.of_nat (length a) <= i -> array_get a i w = None.
Proof.
  intros Hi. unfold array_get.
  destruct (0 <=? i); [|reflexivity].
  rewrite lookup_ge_None_2 by lia. reflexivity.
Qed.

(** Decide the closed integer tests of the goal. *)
Ltac decide_tags :=
  repeat match goal with
         | |- context [Z.eqb ?a ?b] =>
             let v := eval vm_compute in (Z.eqb a b) in
             match v with
             | true => change (Z.eqb a b) with true
             | false => change (Z.eqb a b) with false
             end
         end;
  cbv iota.

Section draw_edges.

Variable FILE__ : string.

Lemma push_uniform_unknown (shader : Shader) (i tag : Z) (rest : va_list) (w : World) :
  unknown_tag tag = true ->
  push_uniform FILE__ shader i (VaInt tag :: rest) w = Some (rest, w).
Proof.
  unfold unknown_tag. intros H.
  apply negb_true_iff in H.
  apply orb_false_iff in H as [H H3].
  apply orb_false_iff in H as [H H2].
  apply orb_false_iff in H as [H0 H1].
  unfold push_uniform. cbn [va_arg_int]. rewrite bind_ret. cbn [fst snd].
  now rewrite H0, H1, H2, H3.
Qed.

Lemma push_uniforms_unknown (shader : Shader) (tags : list Z) :
  forall (i : Z) (rest : va_list) (w : World),
    forallb unknown_tag tags = true ->
    for_ (length tags) i (push_uniform FILE__ shader) (map VaInt tags ++ rest) w
    = Some (rest, w).
Proof.
  induction tags as [|tag tags IH]; intros i rest w H; [reflexivity|].
  cbn [forallb] in H. apply andb_true_iff in H as [Htag Htags].
  cbn [length for_ map app].
  rewrite (bind_run _ _ _ _ _ (push_uniform_unknown shader i tag _ w Htag)).
  now apply IH.
Qed.

(** The statements of a draw before its uniform loop, and after it. *)
Lemma draw_mesh_around_the_loop (mesh : Mesh) (shader : Shader) (scissor : bool)
    (uniform_count : Z) (args : va_list) (w : World) :
  exists (w1 : World) (k : va_list -> M unit),
    draw_mesh FILE__ mesh shader scissor uniform_count args w
    = bind (for_range uniform_count (push_uniform FILE__ shader) args) k w1
    /\ (forall args', k args' = k []).
Proof.
  unfold draw_mesh. run.
  destruct scissor; run; eexists _, (fun _ => _); split; reflexivity.
Qed.

(** X12: a tag that is none of the four uniform types is skipped: the
    [switch] has no default, so nothing is read after the tag and no
    command is issued for it.  A draw whose tags are all unknown is the
    draw with no uniforms, however many tags there are. *)
Theorem draw_mesh_skips_unknown_tags (mesh : Mesh) (shader : Shader) (scissor : bool)
    (tags : list Z) (rest : va_list) (w : World) :
  forallb unknown_tag tags = true ->
  draw_mesh FILE__ mesh shader scissor (Z.of_nat (length tags)) (map VaInt tags ++ rest) w
  = draw_mesh FILE__ mesh shader scissor 0 [] w.
Proof.
  intros Htags. unfold draw_mesh, for_range. rewrite Nat2Z.id.
  change (Z.to_nat 0) with 0%nat. cbn [for_]. run.
  destruct scissor; run;
    now rewrite (bind_run _ _ _ _ _ (push_uniforms_unknown shader tags 0 rest _ Htags)).
Qed.

(** X13: with a uniform count of zero or less the loop body never runs:
    no argument is read and no upload is issued, whatever was passed. *)
Theorem draw_mesh_nonpositive_count (mesh : Mesh) (shader : Shader) (scissor : bool)
    (uniform_count : Z) (args : va_list) (w : World) :
  uniform_count <= 0 ->
  draw_mesh FILE__ mesh shader scissor uniform_count args w
  = draw_mesh FILE__ mesh shader scissor 0 [] w.
Proof.
  intros Hn. unfold draw_mesh, for_range. rewrite (Z2Nat.nonpos _ Hn).
  change (Z.to_nat 0) with 0%nat. cbn [for_]. run.
  destruct scissor; now run.
Qed.

Lemma push_uniform_overrun (shader : Shader) (u : UniformArg) (i : Z) (rest : va_list)
    (w : World) :
  Z.of_nat (length (uniforms shader)) <= i ->
  push_uniform FILE__ shader i (encode1 u ++ rest) w = None.
Proof.
  intros Hi. unfold push_uniform.
  destruct u; cbn [encode1 app va_arg_int];
    rewrite bind_ret; cbn [fst snd]; decide_tags;
    cbn [va_arg_double va_arg_float_ptr va_arg_Vec2 va_arg_Color];
    rewrite bind_ret; cbn [fst snd];
    apply bind_none; now apply array_get_overrun.
Qed.

Lemma push_uniforms_overrun (shader : Shader) (us : list UniformArg) (rest : va_list)
    (w : World) :
  length (uniforms shader) = 8%nat ->
  (8 < length us)%nat ->
  for_ (length us) 0 (push_uniform FILE__ shader) (encode us ++ rest) w = None.
Proof.
  intros Hu Hlen.
  rewrite <- (take_drop 8 us) at 2.
  assert (Hsplit : length us = (length (take 8 us) + length (drop 8 us))%nat).
  { rewrite length_take, length_drop. lia. }
  rewrite Hsplit, for_app, encode_app, <- app_assoc.
  assert (Hfits : (Z.to_nat 0 + length (take 8 us) <= length (uniforms shader))%nat).
  { rewrite length_take, Hu. change (Z.to_nat 0) with 0%nat. lia. }
  rewrite (bind_run _ _ _ _ _
             (push_uniforms_run FILE__ shader (take 8 us) 0 (encode (drop 8 us) ++ rest) w
                (Z.le_refl 0) Hfits)).
  cbv beta.
  destruct (drop 8 us) as [|u more] eqn:Hdrop.
  { cbn [length] in Hsplit. rewrite length_take in Hsplit. lia. }
  cbn [length for_]. unfold encode. cbn [map concat]. rewrite <- app_assoc.
  apply bind_none, push_uniform_overrun.
  rewrite Hu, length_take. lia.
Qed.

(** X14: the uniform table has 8 slots.  A draw with more than 8 uniform
    arguments reads [shader.uniforms] past its end: its behaviour is
    undefined. *)
Theorem draw_mesh_uniform_overrun (mesh : Mesh) (shader : Shader) (scissor : bool)
    (us : list UniformArg) (rest : va_list) (w : World) :
  wf_shader shader ->
  (8 < length us)%nat ->
  draw_mesh FILE__ mesh shader scissor (Z.of_nat (length us)) (encode us ++ rest) w = None.
Proof.
  intros [_ Hu] Hlen.
  destruct (draw_mesh_around_the_loop mesh shader scissor (Z.of_nat (length us))
              (encode us ++ rest) w) as (w1 & k & -> & _).
  unfold for_range. rewrite Nat2Z.id.
  now apply bind_none, push_uniforms_overrun.
Qed.

Lemma push_uniforms_exhausted (shader : Shader) (us : list UniformArg) (n : nat) (w : World) :
  length (uniforms shader) = 8%nat ->
  (length us < n)%nat ->
  for_ n 0 (push_uniform FILE__ shader) (encode us) w = None.
Proof.
  intros Hu Hlen.
  replace n with (length us + (n - length us))%nat by lia.
  rewrite for_app, <- (app_nil_r (encode us)).
  destruct (le_lt_dec (length us) 8) as [Hle|Hgt].
  - assert (Hfits : (Z.to_nat 0 + length us <= length (uniforms shader))%nat).
    { rewrite Hu. change (Z.to_nat 0) with 0%nat. lia. }
    rewrite (bind_run _ _ _ _ _
               (push_uniforms_run FILE__ shader us 0 [] w (Z.le_refl 0) Hfits)).
    cbv beta.
    destruct (n - length us)%nat as [|m] eqn:Hm; [lia|].
    reflexivity.
  - now apply bind_none, push_uniforms_overrun.
Qed.

(** X15: [draw_mesh] trusts its uniform count.  Told of more uniforms than
    tagged arguments were passed, it reads past the arguments: its
    behaviour is undefined. *)
Theorem draw_mesh_reads_past_arguments (mesh : Mesh) (shader : Shader) (scissor : bool)
    (us : list UniformArg) (n : nat) (w : World) :
  wf_shader shader ->
  (length us < n)%nat ->
  draw_mesh FILE__ mesh shader scissor (Z.of_nat n) (encode us) w = None.
Proof.
  intros [_ Hu] Hlen.
  destruct (draw_mesh_around_the_loop mesh shader scissor (Z.of_nat n) (encode us) w)
    as (w1 & k & -> & _).
  unfold for_range. rewrite Nat2Z.id.
  now apply bind_none, push_uniforms_exhausted.
Qed.

End draw_edges.

(** ** The vertex layout *)

Lemma outcome_attrib_pointers (c : GLCall) (w : World) :
  is_VertexAttribPointer c = false ->
  attrib_pointers (outcome c w).2 = attrib_pointers (gl_state w).
Proof. by_command c. Qed.

Lemma outcome_attrib_arrays (c : GLCall) (w : World) :
  is_EnableVertexAttribArray c = false ->
  attrib_arrays (outcome c w).2 = attrib_arrays (gl_state w).
Proof. by_command c. Qed.

(** No command of the layer disables an attribute array. *)
Lemma outcome_attrib_arrays_mono (a : Z) (c : GLCall) (w : World) :
  a ∈ attrib_arrays (gl_state w) -> a ∈ attrib_arrays (outcome c w).2.
Proof.
  unfold outcome. destruct c;
    cbn [gl_apply]; unfold upload, fresh, ok, ok_int, rejected;
    split_cases; cbn; intros H; try exact H.
  rewrite elem_of_union. now right.
Qed.

Lemma usable_slot_valid (d : Driver) (a : Z) :
  usable_slot d a -> to_uint32 a = a /\ valid_attrib_index d a = true.
Proof.
  intros [Ha Hlt]. split.
  - unfold to_uint32. apply Z.mod_small. lia.
  - unfold valid_attrib_index. apply andb_true_iff. split; [apply Z.leb_le|apply Z.ltb_lt]; lia.
Qed.

Section layout.

Variable FILE__ : string.

Lemma steps_always (P : GLState -> Prop) :
  (forall c w, P (gl_state w) -> P (outcome c w).2) ->
  forall (l : list Stmt) (w : World), P (gl_state w) -> P (gl_state (steps FILE__ l w)).
Proof.
  intros Hstep l. induction l as [|s l IH]; intros w HP; [exact HP|].
  rewrite steps_cons. apply IH. rewrite gl_state_step. now apply Hstep.
Qed.

Lemma enable_script_untouched (touches : GLCall -> bool) (l : list Z) :
  (forall c, is_EnableVertexAttribArray c = true -> touches c = false) ->
  forallb (fun s => negb (touches (st_call s))) (map enable_stmt l) = true.
Proof.
  intros H. induction l as [|a l IH]; [reflexivity|].
  cbn [map forallb]. rewrite IH, andb_true_r.
  now rewrite H.
Qed.

Lemma quiet_enable_stmt (a : Z) (w : World) :
  quiet w ->
  usable_slot (driver w) a ->
  a ∈ attrib_arrays (gl_state (step FILE__ (enable_stmt a) w)).
Proof.
  intros Hq Ha. destruct (usable_slot_valid _ _ Ha) as [Hu Hv].
  rewrite quiet_state by exact Hq. cbn [st_call enable_stmt gl_apply].
  rewrite Hu, Hv. cbn. rewrite elem_of_union, elem_of_singleton. now left.
Qed.

Lemma enable_script_enables (a : Z) (l : list Z) :
  forall w : World,
    quiet w ->
    a ∈ l ->
    usable_slot (driver w) a ->
    a ∈ attrib_arrays (gl_state (steps FILE__ (map enable_stmt l) w)).
Proof.
  induction l as [|a0 l IH]; intros w Hq Hin Ha.
  - now apply elem_of_nil in Hin.
  - cbn [map]. rewrite steps_cons.
    apply elem_of_cons in Hin as [->|Hin].
    + apply (steps_always (fun s => a0 ∈ attrib_arrays s)
               (outcome_attrib_arrays_mono a0)).
      now apply quiet_enable_stmt.
    + apply IH; [now apply quiet_step|exact Hin|exact Ha].
Qed.

Lemma quiet_pointer (a size type normalized stride pointer : Z) (e : string) (l : Z)
    (w : World) :
  quiet w ->
  usable_slot (driver w) a ->
  gl_state (step FILE__ (mkStmt (VertexAttribPointer (to_uint32 a) size type normalized stride
                                                     pointer) e l) w)
  = set_attrib_pointers
      (<[a := mkAttribPointer size type normalized stride pointer
                              (array_buffer_binding (gl_state w))]>
         (attrib_pointers (gl_state w))) (gl_state w).
Proof.
  intros Hq Ha. destruct (usable_slot_valid _ _ Ha) as [Hu Hv].
  rewrite quiet_state by exact Hq. cbn [st_call gl_apply].
  now rewrite Hu, Hv.
Qed.

(** What the statements of [set_vertex_attribs] do to the context, with a
    driver that rejects nothing. *)
Lemma attrib_script_effect (shader : Shader) (a0 a1 a2 : Z) (w : World) :
  quiet w ->
  attribs shader !! 0%nat = Some a0 ->
  attribs shader !! 1%nat = Some a1 ->
  attribs shader !! 2%nat = Some a2 ->
  usable_slot (driver w) a0 ->
  usable_slot (driver w) a1 ->
  a0 <> a1 ->
  (2 < attrib_count shader -> usable_slot (driver w) a2 /\ a2 <> a0 /\ a2 <> a1) ->
  let b := array_buffer_binding (gl_state w) in
  let s' := gl_state (steps FILE__ (attrib_script shader) w) in
  attrib_pointers s' !! a0 = Some (pos_pointer b)
  /\ attrib_pointers s' !! a1 = Some (uv_pointer b)
  /\ (2 < attrib_count shader -> attrib_pointers s' !! a2 = Some (col_pointer b))
  /\ (forall a, a <> a0 -> a <> a1 -> (2 < attrib_count shader -> a <> a2) ->
                attrib_pointers s' !! a = attrib_pointers (gl_state w) !! a)
  /\ (forall (i : nat) (a : Z),
        Z.of_nat i < attrib_count shader ->
        attribs shader !! i = Some a ->
        usable_slot (driver w) a ->
        a ∈ attrib_arrays s')
  /\ (forall a, a ∈ attrib_arrays (gl_state w) -> a ∈ attrib_arrays s').
Proof.
  intros Hq H0 H1 H2 Hu0 Hu1 Hne Hcol b s'.
  subst s'. unfold attrib_script. rewrite steps_app.
  set (E := map enable_stmt (take (Z.to_nat (attrib_count shader)) (attribs shader))).
  set (w1 := steps FILE__ E w).
  assert (Hq1 : quiet w1) by (subst w1; now apply quiet_steps).
  assert (Hd1 : driver w1 = driver w) by apply driver_steps.
  assert (Hb1 : array_buffer_binding (gl_state w1) = b).
  { subst w1 E. apply (steps_frame FILE__ array_buffer_binding is_BindBuffer outcome_array_buffer).
    apply enable_script_untouched. intros c. destruct c; (discriminate || reflexivity). }
  assert (Hp1 : attrib_pointers (gl_state w1) = attrib_pointers (gl_state w)).
  { subst w1 E.
    apply (steps_frame FILE__ attrib_pointers is_VertexAttribPointer outcome_attrib_pointers).
    apply enable_script_untouched. intros c. destruct c; (discriminate || reflexivity). }
  assert (Harr : forall a, a ∈ attrib_arrays (gl_state w1) ->
                           a ∈ attrib_arrays (gl_state (steps FILE__ (pointer_stmts shader) w1))).
  { intros a. apply (steps_always (fun s => a ∈ attrib_arrays s)
                       (outcome_attrib_arrays_mono a)). }
  assert (Hn0 : nth 0 (attribs shader) 0 = a0) by now apply nth_lookup_Some with (d := 0) in H0.
  assert (Hn1 : nth 1 (attribs shader) 0 = a1) by now apply nth_lookup_Some with (d := 0) in H1.
  assert (Hn2 : nth 2 (attribs shader) 0 = a2) by now apply nth_lookup_Some with (d := 0) in H2.
  assert (Hptr :
            attrib_pointers (gl_state (steps FILE__ (pointer_stmts shader) w1))
            = (if 2 <? attrib_count shader
               then <[a2 := col_pointer b]> else fun m => m)
                (<[a1 := uv_pointer b]> (<[a0 := pos_pointer b]> (attrib_pointers (gl_state w))))).
  { unfold pointer_stmts. rewrite Hn0, Hn1, Hn2. rewrite steps_app, !steps_cons, steps_nil.
    set (w2 := step FILE__ _ w1).
    assert (Hq2 : quiet w2) by (subst w2; now apply quiet_step).
    assert (Hg2 : gl_state w2
                  = set_attrib_pointers (<[a0 := pos_pointer b]> (attrib_pointers (gl_state w)))
                                        (gl_state w1)).
    { subst w2. rewrite quiet_pointer by (rewrite ?Hd1; assumption).
      now rewrite Hb1, Hp1. }
    set (w3 := step FILE__ _ w2).
    assert (Hq3 : quiet w3) by (subst w3; now apply quiet_step).
    assert (Hg3 : gl_state w3
                  = set_attrib_pointers
                      (<[a1 := uv_pointer b]>
                         (<[a0 := pos_pointer b]> (attrib_pointers (gl_state w))))
                      (gl_state w1)).
    { assert (Hd2 : driver w2 = driver w) by exact Hd1.
      subst w3. rewrite quiet_pointer by first [assumption|rewrite Hd2; assumption].
      rewrite Hg2. cbn [array_buffer_binding attrib_pointers set_attrib_pointers].
      now rewrite Hb1. }
    assert (Hd3 : driver w3 = driver w) by exact Hd1.
    destruct (Z.ltb_spec 2 (attrib_count shader)) as [Hgt|Hle].
    - destruct (Hcol Hgt) as (Hu2 & _).
      rewrite steps_cons, steps_nil.
      rewrite quiet_pointer by first [assumption|rewrite Hd3; assumption].
      rewrite Hg3. cbn [array_buffer_binding attrib_pointers set_attrib_pointers].
      now rewrite Hb1.
    - rewrite steps_nil, Hg3. reflexivity. }
  split_and!.
  - rewrite Hptr. destruct (Z.ltb_spec 2 (attrib_count shader)) as [Hgt|Hle].
    + destruct (Hcol Hgt) as (_ & Hne20 & _).
      rewrite lookup_insert_ne by congruence.
      rewrite lookup_insert_ne by congruence. apply lookup_insert_eq.
    + rewrite lookup_insert_ne by congruence. apply lookup_insert_eq.
  - rewrite Hptr. destruct (Z.ltb_spec 2 (attrib_count shader)) as [Hgt|Hle].
    + destruct (Hcol Hgt) as (_ & _ & Hne21).
      rewrite lookup_insert_ne by congruence. apply lookup_insert_eq.
    + apply lookup_insert_eq.
  - intros Hgt. rewrite Hptr. apply Z.ltb_lt in Hgt. rewrite Hgt. apply lookup_insert_eq.
  - intros a Hn0' Hn1' Hn2'. rewrite Hptr.
    destruct (Z.ltb_spec 2 (attrib_count shader)) as [Hgt|Hle].
    + specialize (Hn2' Hgt). rewrite !lookup_insert_ne by congruence. reflexivity.
    + rewrite !lookup_insert_ne by congruence. reflexivity.
  - intros i a Hi Ha Hu. apply Harr. subst w1 E.
    apply enable_script_enables; [exact Hq| |exact Hu].
    apply elem_of_take. exists i. split; [exact Ha|lia].
  - intros a Ha. apply Harr. subst w1.
    now apply (steps_always (fun s => a ∈ attrib_arrays s) (outcome_attrib_arrays_mono a)).
Qed.

(** X16: [set_vertex_attribs] with a driver that rejects nothing, for a
    shader whose slots 0, 1 (and 2, when it has more than two attributes)
    hold distinct attribute indices the driver accepts.  Slot 0 is made the
    position stream (2 floats at offset 0), slot 1 the texture-coordinate
    stream (2 floats at offset 8), slot 2 the colour stream (4 normalised
    unsigned bytes at offset 16), all with the vertex size 20 as stride and
    all reading the buffer bound at the time; no other pointer changes.
    Every array of the first [attrib_count] slots is enabled, and no array
    that was enabled is disabled. *)
Theorem set_vertex_attribs_layout (shader : Shader) (a0 a1 a2 : Z) (w : World) :
  quiet w ->
  wf_shader shader ->
  attrib_count shader <= 8 ->
  attribs shader !! 0%nat = Some a0 ->
  attribs shader !! 1%nat = Some a1 ->
  attribs shader !! 2%nat = Some a2 ->
  usable_slot (driver w) a0 ->
  usable_slot (driver w) a1 ->
  a0 <> a1 ->
  (2 < attrib_count shader -> usable_slot (driver w) a2 /\ a2 <> a0 /\ a2 <> a1) ->
  exists w',
    set_vertex_attribs FILE__ shader w = Some (tt, w')
    /\ attrib_pointers (gl_state w') !! a0
       = Some (mkAttribPointer 2 GL_FLOAT GL_FALSE 20 0 (array_buffer_binding (gl_state w)))
    /\ attrib_pointers (gl_state w') !! a1
       = Some (mkAttribPointer 2 GL_FLOAT GL_FALSE 20 8 (array_buffer_binding (gl_state w)))
    /\ (2 < attrib_count shader ->
        attrib_pointers (gl_state w') !! a2
        = Some (mkAttribPointer 4 GL_UNSIGNED_BYTE GL_TRUE 20 16
                                (array_buffer_binding (gl_state w))))
    /\ (forall a, a <> a0 -> a <> a1 -> (2 < attrib_count shader -> a <> a2) ->
                  attrib_pointers (gl_state w') !! a = attrib_pointers (gl_state w) !! a)
    /\ (forall (i : nat) (a : Z),
          Z.of_nat i < attrib_count shader ->
          attribs shader !! i = Some a ->
          usable_slot (driver w) a ->
          a ∈ attrib_arrays (gl_state w'))
    /\ (forall a, a ∈ attrib_arrays (gl_state w) -> a ∈ attrib_arrays (gl_state w')).
Proof.
  intros Hq [Ha _] Hn H0 H1 H2 Hu0 Hu1 Hne Hcol.
  exists (steps FILE__ (attrib_script shader) w).
  split; [now apply set_vertex_attribs_run|].
  exact (attrib_script_effect shader a0 a1 a2 w Hq H0 H1 H2 Hu0 Hu1 Hne Hcol).
Qed.

End layout.

Section layout_draw.

Variable FILE__ : string.

(** X17: after a draw with a driver that rejects nothing, the attribute
    streams of the shader read the mesh's vertex buffer: the pointers were
    set while that buffer was bound, and they keep naming it after the
    draw has reset the array-buffer binding to 0.  The attribute arrays
    the draw enabled stay enabled after it returns, and none that was
    enabled before is disabled: the draw restores neither. *)
Theorem draw_mesh_streams_read_the_mesh_buffer
    (mesh : Mesh) (shader : Shader) (scissor : bool) (us : list UniformArg)
    (rest : va_list) (a0 a1 a2 : Z) (w : World) :
  quiet w ->
  wf_shader shader ->
  attrib_count shader <= 8 ->
  (length us <= 8)%nat ->
  attribs shader !! 0%nat = Some a0 ->
  attribs shader !! 1%nat = Some a1 ->
  attribs shader !! 2%nat = Some a2 ->
  usable_slot (driver w) a0 ->
  usable_slot (driver w) a1 ->
  a0 <> a1 ->
  (2 < attrib_count shader -> usable_slot (driver w) a2 /\ a2 <> a0 /\ a2 <> a1) ->
  exists w',
    draw_mesh FILE__ mesh shader scissor (Z.of_nat (length us)) (encode us ++ rest) w
    = Some (tt, w')
    /\ attrib_pointers (gl_state w') !! a0 = Some (pos_pointer (vbo_handle mesh))
    /\ attrib_pointers (gl_state w') !! a1 = Some (uv_pointer (vbo_handle mesh))
    /\ (2 < attrib_count shader ->
        attrib_pointers (gl_state w') !! a2 = Some (col_pointer (vbo_handle mesh)))
    /\ array_buffer_binding (gl_state w') = 0
    /\ (forall (i : nat) (a : Z),
          Z.of_nat i < attrib_count shader ->
          attribs shader !! i = Some a ->
          usable_slot (driver w) a ->
          a ∈ attrib_arrays (gl_state w'))
    /\ (forall a, a ∈ attrib_arrays (gl_state w) -> a ∈ attrib_arrays (gl_state w')).
Proof.
  intros Hq Hwf Hn Hus H0 H1 H2 Hu0 Hu1 Hne Hcol.
  exists (steps FILE__ (draw_script FILE__ mesh shader scissor us w) w).
  split; [now apply draw_mesh_run|].
  unfold draw_script. rewrite !steps_app.
  set (w1 := steps FILE__ (policy_script mesh shader scissor)
                   (steps FILE__ [query_program; query_texture] w)).
  set (w2 := steps FILE__ (uniform_script (uniforms shader) us) w1).
  set (w3 := steps FILE__ (attrib_script shader) w2).
  set (R := restore_script _ _).
  assert (Hq2 : quiet w2).
  { subst w2 w1. repeat first [apply quiet_step | apply quiet_steps]. exact Hq. }
  assert (Hd2 : driver w2 = driver w).
  { subst w2 w1. now rewrite !driver_steps. }
  assert (Hb2 : array_buffer_binding (gl_state w2) = vbo_handle mesh).
  { subst w2.
    rewrite (steps_frame FILE__ _ _ outcome_array_buffer)
      by (apply uniform_untouched; intros c; destruct c; (discriminate || reflexivity)).
    subst w1. unfold policy_script. rewrite !steps_cons, steps_nil.
    rewrite (step_frame FILE__ _ _ outcome_array_buffer) by reflexivity.
    rewrite quiet_state; [reflexivity|].
    repeat first [apply quiet_step | apply quiet_steps]. exact Hq. }
  assert (Harr2 : forall a, a ∈ attrib_arrays (gl_state w) -> a ∈ attrib_arrays (gl_state w2)).
  { intros a Ha. subst w2 w1.
    do 3 apply (steps_always FILE__ (fun s => a ∈ attrib_arrays s)
                  (outcome_attrib_arrays_mono a)).
    exact Ha. }
  rewrite <- Hd2 in Hu0, Hu1, Hcol.
  destruct (attrib_script_effect FILE__ shader a0 a1 a2 w2 Hq2 H0 H1 H2 Hu0 Hu1 Hne Hcol)
    as (Hp0 & Hp1 & Hp2 & _ & Hen & Hmono).
  fold w3 in Hp0, Hp1, Hp2, Hen, Hmono. rewrite Hb2 in Hp0, Hp1, Hp2.
  assert (Hptr : attrib_pointers (gl_state (steps FILE__ R (steps FILE__ (issue_script mesh) w3)))
                 = attrib_pointers (gl_state w3)).
  { rewrite <- steps_app.
    now apply (steps_frame FILE__ attrib_pointers is_VertexAttribPointer
                 outcome_attrib_pointers). }
  assert (Harr : forall a, a ∈ attrib_arrays (gl_state w3) ->
                   a ∈ attrib_arrays (gl_state (steps FILE__ R
                                                  (steps FILE__ (issue_script mesh) w3)))).
  { intros a Ha.
    do 2 apply (steps_always FILE__ (fun s => a ∈ attrib_arrays s)
                  (outcome_attrib_arrays_mono a)).
    exact Ha. }
  rewrite Hptr. split_and!.
  - exact Hp0.
  - exact Hp1.
  - exact Hp2.
  - subst R. unfold restore_script. rewrite !steps_cons, steps_nil.
    rewrite !(step_frame FILE__ _ _ outcome_array_buffer) by reflexivity.
    rewrite quiet_state; [reflexivity|].
    subst w3. repeat first [apply quiet_step | apply quiet_steps]. assumption.
  - intros i a Hi Ha Hu. apply Harr. apply (Hen i a Hi Ha). now rewrite Hd2.
  - intros a Ha. apply Harr, Hmono, Harr2, Ha.
Qed.

End layout_draw.

(** ** The quad, continued *)

Section quads_more.

Variable FILE__ : string.

(** The context after the two statements of [transform_quad], with a
    driver that rejects nothing. *)
Lemma transform_script_state (mesh : Mesh) (pos size : Vec2) (w : World) :
  quiet w ->
  let s1 := set_array_buffer_binding (vbo_handle mesh) (gl_state w) in
  gl_state (steps FILE__ (transform_script mesh pos size) w)
  = (gl_apply (driver w) (BufferSubData GL_ARRAY_BUFFER 0 120 (quad_verts pos size)) s1).2.
Proof.
  intros Hq s1. unfold transform_script. rewrite !steps_cons, steps_nil.
  rewrite quiet_state by now apply quiet_step.
  rewrite driver_step. cbn [st_call].
  rewrite quiet_state by exact Hq. reflexivity.
Qed.

(** X18: [transform_quad] on a mesh whose buffer exists and holds at least
    120 bytes, with a driver that rejects nothing: the first six vertices
    of the buffer become the quad, the rest of the buffer, its size and its
    usage hint stay, no other buffer changes, and the mesh's buffer is left
    bound as the array buffer. *)
Theorem transform_quad_overwrites_in_place (mesh : Mesh) (pos size : Vec2) (b : Buffer)
    (w : World) :
  quiet w ->
  vbo_handle mesh <> 0 ->
  buffers (gl_state w) !! vbo_handle mesh = Some b ->
  120 <= buf_size b ->
  exists w' data',
    transform_quad FILE__ mesh pos size w = Some (mesh, w')
    /\ buffers (gl_state w') !! vbo_handle mesh
       = Some (mkBuffer (buf_size b) (buf_usage b) data')
    /\ length data' = length (buf_data b)
    /\ (forall i : nat, (i < 6)%nat -> (i < length (buf_data b))%nat ->
                        data' !! i = (Some <$> quad_verts pos size) !! i)
    /\ (forall i : nat, (6 <= i)%nat -> data' !! i = buf_data b !! i)
    /\ (forall h, h <> vbo_handle mesh ->
                  buffers (gl_state w') !! h = buffers (gl_state w) !! h)
    /\ array_buffer_binding (gl_state w') = vbo_handle mesh.
Proof.
  intros Hq Hh Hb Hsize.
  exists (steps FILE__ (transform_script mesh pos size) w),
    (list_inserts 0 (Some <$> quad_verts pos size) (buf_data b)).
  split; [apply transform_quad_run|].
  rewrite transform_script_state by exact Hq.
  cbn [gl_apply]. change (negb (GL_ARRAY_BUFFER =? GL_ARRAY_BUFFER)) with false.
  cbn [array_buffer_binding set_array_buffer_binding buffers].
  apply Z.eqb_neq in Hh. rewrite Hh, Hb.
  assert (Hfits : (0 <=? 0) && (0 <=? 120) && (0 + 120 <=? buf_size b) = true).
  { cbn [Z.leb Z.compare andb Z.add]. apply Z.leb_le. exact Hsize. }
  rewrite Hfits. unfold ok. cbn [snd buffers set_buffers array_buffer_binding].
  change (cells 0) with 0%nat. change (cells 120) with 6%nat.
  change (take 6 (quad_verts pos size)) with (quad_verts pos size).
  split_and!.
  - apply lookup_insert_eq.
  - apply length_inserts.
  - intros i Hi Hlen. rewrite list_lookup_inserts; [now rewrite Nat.sub_0_r| |exact Hlen].
    rewrite length_fmap. cbn. lia.
  - intros i Hi. apply list_lookup_inserts_ge. rewrite length_fmap. cbn. lia.
  - intros h Hne. apply lookup_insert_ne. congruence.
  - reflexivity.
Qed.

(** X19: [transform_quad] on a mesh that has no usable buffer, with a
    driver that rejects nothing else and no error pending: handle 0 (a
    mesh never initialised) makes [glBufferSubData] an invalid operation, a
    handle without a data store or with one shorter than 120 bytes an
    invalid value.  The function reports that error under line 204 and
    returns as usual; no buffer changes. *)
Theorem transform_quad_without_buffer (mesh : Mesh) (pos size : Vec2) (w : World) :
  quiet w ->
  error_flag w = GL_NO_ERROR ->
  vbo_handle mesh = 0
  \/ buffers (gl_state w) !! vbo_handle mesh = None
  \/ (exists b, buffers (gl_state w) !! vbo_handle mesh = Some b /\ buf_size b < 120) ->
  exists w',
    transform_quad FILE__ mesh pos size w = Some (mesh, w')
    /\ buffers (gl_state w') = buffers (gl_state w)
    /\ array_buffer_binding (gl_state w') = vbo_handle mesh
    /\ stdout w'
       = stdout w
         ++ report_lines (if vbo_handle mesh =? 0 then GL_INVALID_OPERATION
                          else GL_INVALID_VALUE)
                         "glBufferSubData(GL_ARRAY_BUFFER, 0, sizeof(verts), verts)" FILE__ 204
    /\ error_flag w' = GL_NO_ERROR.
Proof.
  intros Hq Hclear Hbad.
  exists (steps FILE__ (transform_script mesh pos size) w).
  split; [apply transform_quad_run|].
  set (s1 := set_array_buffer_binding (vbo_handle mesh) (gl_state w)).
  assert (Hout : gl_apply (driver w) (BufferSubData GL_ARRAY_BUFFER 0 120 (quad_verts pos size)) s1
                 = rejected (if vbo_handle mesh =? 0 then GL_INVALID_OPERATION
                             else GL_INVALID_VALUE) s1).
  { cbn [gl_apply]. change (negb (GL_ARRAY_BUFFER =? GL_ARRAY_BUFFER)) with false.
    subst s1. cbn [array_buffer_binding set_array_buffer_binding buffers].
    destruct (Z.eqb_spec (vbo_handle mesh) 0) as [Hz|Hnz]; [reflexivity|].
    destruct Hbad as [Hbad|[Hbad|(b & Hb & Hsmall)]]; [contradiction| |].
    - now rewrite Hbad.
    - rewrite Hb.
      assert (Hfits : (0 <=? 0) && (0 <=? 120) && (0 + 120 <=? buf_size b) = false).
      { cbn [Z.leb Z.compare andb Z.add]. apply Z.leb_gt. exact Hsmall. }
      now rewrite Hfits. }
  split_and!.
  - rewrite transform_script_state by exact Hq. fold s1. now rewrite Hout.
  - rewrite transform_script_state by exact Hq. fold s1. now rewrite Hout.
  - unfold transform_script. rewrite !steps_cons, steps_nil.
    set (w1 := step FILE__ _ w).
    assert (Hq1 : quiet w1) by (subst w1; now apply quiet_step).
    assert (Hg1 : gl_state w1 = s1).
    { subst w1. rewrite quiet_state by exact Hq. reflexivity. }
    assert (Ho1 : stdout w1 = stdout w).
    { subst w1. rewrite GLCHK_reports_own_error by exact Hclear.
      rewrite quiet_outcome by exact Hq. cbn. apply app_nil_r. }
    rewrite GLCHK_reports_own_error by reflexivity.
    rewrite quiet_outcome by exact Hq1. rewrite Hg1. 
    change (driver w1) with (driver w). rewrite Hout, Ho1.
    unfold rejected, error_report, report_lines. cbn [fst snd].
    now destruct (vbo_handle mesh =? 0).
  - reflexivity.
Qed.



End quads_more.

(** ** Allocating a texture, continued *)

Section textures.

Variable FILE__ : string.

Lemma allocate_tex_run (width height : Z) (data : option (list Z)) (w : World) :
  let tex := ret_int (gl_command (GenTextures 1) w).1
                     (indeterminate (driver w) (clock w) "tex") in
  allocate_tex FILE__ width height data w
  = Some (tex,
          steps FILE__
            [ mkStmt (GenTextures 1) "glGenTextures(1, &tex)" 273;
              mkStmt (BindTexture GL_TEXTURE_2D tex) "glBindTexture(GL_TEXTURE_2D, tex)" 274;
              mkStmt (TexParameteri GL_TEXTURE_2D GL_TEXTURE_MIN_FILTER GL_LINEAR)
                     "glTexParameteri(GL_TEXTURE_2D, GL_TEXTURE_MIN_FILTER, GL_LINEAR)" 275;
              mkStmt (TexParameteri GL_TEXTURE_2D GL_TEXTURE_MAG_FILTER GL_LINEAR)
                     "glTexParameteri(GL_TEXTURE_2D, GL_TEXTURE_MAG_FILTER, GL_LINEAR)" 276;
              mkStmt (TexImage2D GL_TEXTURE_2D 0 GL_RGBA8 width height 0 GL_RGBA
                                 GL_UNSIGNED_BYTE data)
                     "glTexImage2D(GL_TEXTURE_2D, 0, GL_RGBA8, width, height, 0, GL_RGBA, GL_UNSIGNED_BYTE, data)"
                     277 ] w).
Proof. cbv zeta. unfold allocate_tex. now run. Qed.

(** X21: [allocate_tex] does not look at the outcome of [glGenTextures].
    When the driver rejects that command, [tex] is never written: the
    function binds, and returns, whatever the uninitialised local held.
    With no error pending at entry the rejection is reported under line
    273; no name is consumed. *)
Theorem allocate_tex_returns_garbage_when_gen_fails (width height : Z)
    (data : option (list Z)) (w : World) :
  fault (driver w) (clock w) (GenTextures 1) <> GL_NO_ERROR ->
  let garbage := indeterminate (driver w) (clock w) "tex" in
  exists w',
    allocate_tex FILE__ width height data w = Some (garbage, w')
    /\ calls w'
       = calls w ++ [ GenTextures 1;
                      BindTexture GL_TEXTURE_2D garbage;
                      TexParameteri GL_TEXTURE_2D GL_TEXTURE_MIN_FILTER GL_LINEAR;
                      TexParameteri GL_TEXTURE_2D GL_TEXTURE_MAG_FILTER GL_LINEAR;
                      TexImage2D GL_TEXTURE_2D 0 GL_RGBA8 width height 0 GL_RGBA
                                 GL_UNSIGNED_BYTE data ]
    /\ (fault (driver w) (S (clock w)) (BindTexture GL_TEXTURE_2D garbage) = GL_NO_ERROR ->
        texture_binding_2d (gl_state w') = garbage)
    /\ (error_flag w = GL_NO_ERROR ->
        exists out,
          stdout w'
          = stdout w
            ++ report_lines (fault (driver w) (clock w) (GenTextures 1))
                            "glGenTextures(1, &tex)" FILE__ 273
            ++ out).
Proof.
  intros Hgen garbage.
  assert (Hout : outcome (GenTextures 1) w
                 = rejected (fault (driver w) (clock w) (GenTextures 1)) (gl_state w)).
  { unfold outcome. apply Z.eqb_neq in Hgen. now rewrite Hgen. }
  assert (Htex : ret_int (gl_command (GenTextures 1) w).1 garbage = garbage).
  { unfold gl_command. now rewrite Hout. }
  pose proof (allocate_tex_run width height data w) as Hrun.
  cbv zeta in Hrun. fold garbage in Hrun. rewrite Htex in Hrun.
  eexists. split; [exact Hrun|]. split_and!.
  - rewrite calls_steps. reflexivity.
  - intros Hbind. rewrite !steps_cons, steps_nil.
    rewrite !(step_frame FILE__ _ _ outcome_texture) by reflexivity.
    rewrite gl_state_step. cbn [st_call]. unfold outcome.
    rewrite clock_step, driver_step, Hbind. reflexivity.
  - intros Hclear.
    rewrite steps_cons.
    set (w1 := step FILE__ _ w).
    assert (Ho1 : stdout w1
                  = stdout w ++ report_lines (fault (driver w) (clock w) (GenTextures 1))
                                             "glGenTextures(1, &tex)" FILE__ 273).
    { subst w1. rewrite GLCHK_reports_own_error by exact Hclear.
      rewrite Hout. unfold rejected, error_report, report_lines. cbn [fst snd].
      apply Z.eqb_neq in Hgen. now rewrite Hgen. }
    destruct (steps_reports FILE__
                [ mkStmt (BindTexture GL_TEXTURE_2D garbage)
                         "glBindTexture(GL_TEXTURE_2D, tex)" 274;
                  mkStmt (TexParameteri GL_TEXTURE_2D GL_TEXTURE_MIN_FILTER GL_LINEAR)
                         "glTexParameteri(GL_TEXTURE_2D, GL_TEXTURE_MIN_FILTER, GL_LINEAR)" 275;
                  mkStmt (TexParameteri GL_TEXTURE_2D GL_TEXTURE_MAG_FILTER GL_LINEAR)
                         "glTexParameteri(GL_TEXTURE_2D, GL_TEXTURE_MAG_FILTER, GL_LINEAR)" 276;
                  mkStmt (TexImage2D GL_TEXTURE_2D 0 GL_RGBA8 width height 0 GL_RGBA
                                     GL_UNSIGNED_BYTE data)
                         "glTexImage2D(GL_TEXTURE_2D, 0, GL_RGBA8, width, height, 0, GL_RGBA, GL_UNSIGNED_BYTE, data)"
                         277 ] w1 eq_refl) as (evs & _ & _ & Ho & _).
    eexists. rewrite Ho, Ho1, <- app_assoc. reflexivity.
Qed.

(** X22: [allocate_tex] does not check the size it is given.  With a
    negative width or height (a driver that rejects nothing else, no error
    pending) [glTexImage2D] is an invalid value; the function reports it
    under line 277 and nothing else, and returns the new name, left bound,
    all the same. *)
Theorem allocate_tex_reports_bad_size (width height : Z) (data : option (list Z))
    (w : World) :
  quiet w ->
  error_flag w = GL_NO_ERROR ->
  width < 0 \/ height < 0 ->
  exists w',
    allocate_tex FILE__ width height data w = Some (next_name (gl_state w), w')
    /\ texture_binding_2d (gl_state w') = next_name (gl_state w)
    /\ stdout w'
       = stdout w
         ++ report_lines GL_INVALID_VALUE
              "glTexImage2D(GL_TEXTURE_2D, 0, GL_RGBA8, width, height, 0, GL_RGBA, GL_UNSIGNED_BYTE, data)"
              FILE__ 277
    /\ error_flag w' = GL_NO_ERROR.
Proof.
  intros Hq Hclear Hbad.
  set (n := next_name (gl_state w)).
  assert (Hneg : (width <? 0) || (height <? 0) = true).
  { apply orb_true_iff. destruct Hbad; [left|right]; now apply Z.ltb_lt. }
  assert (Htex : ret_int (gl_command (GenTextures 1) w).1
                         (indeterminate (driver w) (clock w) "tex") = n).
  { unfold gl_command. rewrite quiet_outcome by exact Hq. reflexivity. }
  pose proof (allocate_tex_run width height data w) as Hrun.
  cbv zeta in Hrun. rewrite Htex in Hrun.
  eexists. split; [exact Hrun|].
  rewrite !steps_cons, steps_nil.
  set (w1 := step FILE__ (mkStmt (GenTextures 1) _ _) w).
  set (w2 := step FILE__ (mkStmt (BindTexture GL_TEXTURE_2D n) _ _) w1).
  set (w3 := step FILE__ (mkStmt (TexParameteri _ GL_TEXTURE_MIN_FILTER _) _ _) w2).
  set (w4 := step FILE__ (mkStmt (TexParameteri _ GL_TEXTURE_MAG_FILTER _) _ _) w3).
  assert (Hq1 : quiet w1) by exact Hq.
  assert (Hq2 : quiet w2) by exact Hq.
  assert (Hq3 : quiet w3) by exact Hq.
  assert (Hq4 : quiet w4) by exact Hq.
  assert (Hg4 : texture_binding_2d (gl_state w4) = n).
  { subst w4 w3 w2 w1. rewrite !quiet_state by (repeat apply quiet_step; exact Hq).
    reflexivity. }
  assert (Ho4 : stdout w4 = stdout w).
  { subst w4 w3 w2.
    rewrite !GLCHK_reports_own_error by reflexivity.
    rewrite !quiet_outcome by (repeat apply quiet_step; exact Hq).
    cbn [gl_apply]. change (GL_TEXTURE_2D =? GL_TEXTURE_2D) with true.
    unfold ok, error_report. cbn [fst snd Z.eqb GL_NO_ERROR]. rewrite !app_nil_r.
    subst w1. rewrite GLCHK_reports_own_error by exact Hclear.
    rewrite quiet_outcome by exact Hq. cbn. apply app_nil_r. }
  split_and!.
  - rewrite quiet_state by exact Hq4. cbn [st_call gl_apply].
    rewrite Hneg. exact Hg4.
  - rewrite GLCHK_reports_own_error by reflexivity.
    rewrite quiet_outcome by exact Hq4. cbn [gl_apply]. rewrite Ho4, Hneg.
    reflexivity.
  - reflexivity.
Qed.

End textures.

(** ** Locals read without having been written *)

Section garbage.

Variable FILE__ : string.

(** X23: [print_compilation_errors] does not look at the outcome of
    [glGetShaderiv].  When the driver rejects that query,
    [compilation_status] is never written, and whether a compilation error
    is announced is decided by what the uninitialised local held: the
    compile status of the shader plays no part. *)
Theorem print_compilation_errors_decides_on_garbage (h : Z) (type file : string) (line : Z)
    (w : World) :
  fault (driver w) (clock w) (GetShaderiv h GL_COMPILE_STATUS) <> GL_NO_ERROR ->
  let garbage := indeterminate (driver w) (clock w) "compilation_status" in
  exists w',
    print_compilation_errors FILE__ h type file line w = Some (tt, w')
    /\ calls w'
       = calls w ++ GetShaderiv h GL_COMPILE_STATUS
                    :: (if garbage =? GL_TRUE then [] else [GetShaderInfoLog h 4096])
    /\ (garbage <> GL_TRUE ->
        ("Compilation error in " +:+ type +:+ " shader in " +:+ file +:+ ":" +:+ dec line
         +:+ nl) ∈ stdout w')
    /\ (garbage = GL_TRUE -> error_flag w = GL_NO_ERROR ->
        stdout w'
        = stdout w
          ++ report_lines (fault (driver w) (clock w) (GetShaderiv h GL_COMPILE_STATUS))
                          "glGetShaderiv(handle, GL_COMPILE_STATUS, &compilation_status)"
                          FILE__ 99).
Proof.
  intros Hf garbage.
  assert (Hout : outcome (GetShaderiv h GL_COMPILE_STATUS) w
                 = rejected (fault (driver w) (clock w) (GetShaderiv h GL_COMPILE_STATUS))
                            (gl_state w)).
  { unfold outcome. apply Z.eqb_neq in Hf. now rewrite Hf. }
  assert (Hst : ret_int (gl_command (GetShaderiv h GL_COMPILE_STATUS) w).1 garbage = garbage).
  { unfold gl_command. now rewrite Hout. }
  unfold print_compilation_errors. run. fold garbage. rewrite Hst.
  set (s1 := mkStmt (GetShaderiv h GL_COMPILE_STATUS) _ _).
  destruct (Z.eqb_spec garbage GL_TRUE) as [Hg|Hg]; cbn [negb].
  - eexists. split; [reflexivity|]. split_and!.
    + apply calls_step.
    + intros Hne. contradiction.
    + intros _ Hclear. subst s1. rewrite GLCHK_reports_own_error by exact Hclear.
      rewrite Hout. unfold rejected, error_report, report_lines. cbn [fst snd].
      apply Z.eqb_neq in Hf. now rewrite Hf.
  - run. eexists. split; [reflexivity|]. split_and!.
    + rewrite !calls_say, calls_step, calls_say, calls_step, <- app_assoc. reflexivity.
    + intros _. cbn [say stdout]. rewrite !elem_of_app. left. left.
      match goal with
      | |- _ ∈ stdout (step _ ?s ?w0) =>
          destruct (grows_step FILE__ s w0) as (_ & _ & [out Hgrow]); rewrite Hgrow
      end.
      rewrite elem_of_app. left.
      cbn [say stdout]. rewrite elem_of_app. right. apply list_elem_of_here.
    + intros Heq. contradiction.
Qed.

(** X24: [draw_mesh] does not look at the outcome of its state queries.
    When the driver rejects the query of the current program,
    [last_program] is never written, and the program made current at the
    end of the draw is whatever the uninitialised local held. *)
Theorem draw_mesh_restores_garbage_when_query_fails
    (mesh : Mesh) (shader : Shader) (scissor : bool) (us : list UniformArg)
    (rest : va_list) (w : World) :
  wf_shader shader ->
  attrib_count shader <= 8 ->
  (length us <= 8)%nat ->
  fault (driver w) (clock w) (GetIntegerv GL_CURRENT_PROGRAM) <> GL_NO_ERROR ->
  let garbage := indeterminate (driver w) (clock w) "last_program" in
  (forall k, fault (driver w) k (UseProgram (to_uint32 garbage)) = GL_NO_ERROR) ->
  exists w',
    draw_mesh FILE__ mesh shader scissor (Z.of_nat (length us)) (encode us ++ rest) w
    = Some (tt, w')
    /\ current_program (gl_state w') = to_uint32 garbage
    /\ In (UseProgram (to_uint32 garbage)) (drop (length (calls w)) (calls w')).
Proof.
  intros Hwf Hn Hus Hf garbage Huse.
  assert (Hread : read_last_program w = garbage).
  { unfold read_last_program, gl_command, outcome.
    apply Z.eqb_neq in Hf. now rewrite Hf. }
  exists (steps FILE__ (draw_script FILE__ mesh shader scissor us w) w).
  split; [now apply draw_mesh_run|]. split.
  - rewrite draw_script_split, steps_app, Hread.
    unfold restore_script.
    set (w1 := steps FILE__ (draw_body mesh shader scissor us) w).
    assert (Hd : driver w1 = driver w) by apply driver_steps.
    rewrite !steps_cons, steps_nil.
    rewrite !gl_state_step_frame_program by reflexivity.
    apply step_UseProgram. rewrite driver_step, Hd. apply Huse.
  - rewrite calls_steps, drop_app_length.
    rewrite draw_script_split, map_app, Hread. apply in_or_app. right.
    cbn. right. now left.
Qed.

Lemma enable_attrib_overrun (shader : Shader) (i : Z) (w : World) :
  Z.of_nat (length (attribs shader)) <= i ->
  enable_attrib FILE__ shader i tt w = None.
Proof.
  intros Hi. unfold enable_attrib. now apply bind_none, array_get_overrun.
Qed.

(** X25: the attribute table has 8 slots.  [set_vertex_attribs] for a
    shader whose attribute count exceeds 8 reads [shader.attribs] past its
    end: its behaviour is undefined, and so is a draw with that shader. *)
Theorem set_vertex_attribs_overrun (shader : Shader) (w : World) :
  wf_shader shader ->
  8 < attrib_count shader ->
  set_vertex_attribs FILE__ shader w = None
  /\ forall (mesh : Mesh) (scissor : bool) (us : list UniformArg) (rest : va_list),
       (length us <= 8)%nat ->
       draw_mesh FILE__ mesh shader scissor (Z.of_nat (length us)) (encode us ++ rest) w
       = None.
Proof.
  intros [Ha Hu] Hn.
  assert (Hloop : forall w0, for_range (attrib_count shader) (enable_attrib FILE__ shader) tt w0
                             = None).
  { intros w0. unfold for_range.
    replace (Z.to_nat (attrib_count shader))
      with (8 + (Z.to_nat (attrib_count shader) - 8))%nat by lia.
    rewrite for_app.
    assert (Hfits : (Z.to_nat 0 + 8 <= length (attribs shader))%nat).
    { rewrite Ha. change (Z.to_nat 0) with 0%nat. lia. }
    rewrite (bind_run _ _ _ _ _
               (enable_attribs_run FILE__ shader 8 0 w0 (Z.le_refl 0) Hfits)).
    cbv beta.
    destruct (Z.to_nat (attrib_count shader) - 8)%nat as [|m] eqn:Hm; [lia|].
    cbn [for_]. apply bind_none, enable_attrib_overrun. rewrite Ha. cbn. lia. }
  split.
  - unfold set_vertex_attribs. now apply bind_none.
  - intros mesh scissor us rest Hus.
    unfold draw_mesh, for_range. rewrite Nat2Z.id. run.
    assert (Hfits : (Z.to_nat 0 + length us <= length (uniforms shader))%nat).
    { rewrite Hu. change (Z.to_nat 0) with 0%nat. lia. }
    destruct scissor; run;
      rewrite (bind_run _ _ _ _ _
                 (push_uniforms_run FILE__ shader us 0 rest _ (Z.le_refl 0) Hfits));
      apply bind_none; unfold set_vertex_attribs; now apply bind_none.
Qed.

End garbage.

(** ** Concrete runs of the draw, the layout, the quad and the texture *)

Lemma wf_good_shader : wf_shader good_shader.
Proof. split; reflexivity. Qed.

Lemma quiet_demo_world : quiet demo_world.
Proof. intros k c. reflexivity. Qed.

Lemma draw_mesh_reports_each_rejected_command_witness :
  exists w',
    draw_mesh "gl.h" demo_mesh good_shader true 2 (encode [UFloat d1; UColor white] ++ [])
              demo_world
    = Some (tt, w')
    /\ error_flag w' = GL_NO_ERROR.
Proof.
  destruct (draw_mesh_reports_each_rejected_command "gl.h" demo_mesh good_shader true
              [UFloat d1; UColor white] [] demo_world wf_good_shader)
    as (w' & evs & Hrun & _ & _ & _ & _ & _ & Hflag).
  - cbn. lia.
  - cbn. lia.
  - reflexivity.
  - exists w'. split; [exact Hrun|exact Hflag].
Defined.

Lemma draw_mesh_draws_once_witness :
  exists w' pre post,
    draw_mesh "gl.h" demo_mesh good_shader true 2 (encode [UFloat d1; UColor white] ++ [])
              demo_world
    = Some (tt, w')
    /\ calls w' = calls demo_world ++ pre ++ [DrawArrays GL_TRIANGLES 0 6] ++ post
    /\ length post = 5%nat.
Proof.
  destruct (draw_mesh_draws_once "gl.h" demo_mesh good_shader true
              [UFloat d1; UColor white] [] demo_world wf_good_shader)
    as (w' & pre & post & Hrun & Hcalls & _ & _ & Hpost & _).
  - cbn. lia.
  - cbn. lia.
  - exists w', pre, post. split_and!; [exact Hrun|exact Hcalls|exact Hpost].
Defined.

Lemma draw_mesh_state_at_draw_witness :
  let wd := steps "gl.h" (draw_setup demo_mesh good_shader true [UFloat d1; UColor white])
                  demo_world in
  current_program (gl_state wd) = 7
  /\ array_buffer_binding (gl_state wd) = 9
  /\ texture_binding_2d (gl_state wd) = 4
  /\ (GL_SCISSOR_TEST ∈ enabled (gl_state wd) <-> true = true).
Proof.
  destruct (draw_mesh_state_at_draw "gl.h" demo_mesh good_shader true
              [UFloat d1; UColor white] [] demo_world wf_good_shader)
    as (_ & Hp & Hb & Ht & _ & Hs & _).
  - cbn. lia.
  - cbn. lia.
  - exact quiet_demo_world.
  - split_and!; [exact Hp|exact Hb|exact Ht|exact Hs].
Defined.

Lemma draw_mesh_uniform_store_witness :
  exists w',
    draw_mesh "gl.h" demo_mesh good_shader true 2 (encode [UFloat d1; UColor white] ++ [])
              demo_world
    = Some (tt, w')
    /\ uniform_store (gl_state w') !! (7, 0) = Some (uniform_value (UFloat d1))
    /\ uniform_store (gl_state w') !! (7, 1) = Some (uniform_value (UColor white))
    /\ uniform_store (gl_state w') !! (3, 0) = None.
Proof.
  destruct (draw_mesh_uniform_store "gl.h" demo_mesh good_shader true
              [UFloat d1; UColor white] [] demo_world wf_good_shader)
    as (w' & Hrun & Hframe & Hlast & _).
  - cbn. lia.
  - cbn. lia.
  - exact quiet_demo_world.
  - assert (Hh : handle good_shader <> 0) by discriminate.
    exists w'. split; [exact Hrun|]. split_and!.
    + refine (Hlast Hh 0%nat 0 (UFloat d1) eq_refl eq_refl _ _); [discriminate|].
      intros [|[|j]] Hij Hj; [lia|discriminate|cbn [length] in Hj; lia].
    + refine (Hlast Hh 1%nat 1 (UColor white) eq_refl eq_refl _ _); [discriminate|].
      intros [|[|j]] Hij Hj; [lia|lia|cbn [length] in Hj; lia].
    + refine (eq_trans (Hframe 3 0 _) eq_refl). left. discriminate.
Defined.

Lemma draw_mesh_skips_unknown_tags_witness :
  draw_mesh "gl.h" demo_mesh good_shader false 3 (map VaInt [4; 7; -1] ++ [VaStr "junk"])
            demo_world
  = draw_mesh "gl.h" demo_mesh good_shader false 0 [] demo_world.
Proof.
  apply (draw_mesh_skips_unknown_tags "gl.h" demo_mesh good_shader false [4; 7; -1]
           [VaStr "junk"] demo_world).
  reflexivity.
Defined.

Lemma draw_mesh_nonpositive_count_witness :
  draw_mesh "gl.h" demo_mesh good_shader false (-2) [VaStr "junk"] demo_world
  = draw_mesh "gl.h" demo_mesh good_shader false 0 [] demo_world.
Proof.
  apply (draw_mesh_nonpositive_count "gl.h" demo_mesh good_shader false (-2) [VaStr "junk"]
           demo_world).
  lia.
Defined.

Lemma draw_mesh_uniform_overrun_witness :
  draw_mesh "gl.h" demo_mesh good_shader false 9
            (encode (replicate 9 (UFloat d1)) ++ []) demo_world
  = None.
Proof.
  apply (draw_mesh_uniform_overrun "gl.h" demo_mesh good_shader false
           (replicate 9 (UFloat d1)) [] demo_world wf_good_shader).
  cbn. lia.
Defined.

Lemma draw_mesh_reads_past_arguments_witness :
  draw_mesh "gl.h" demo_mesh good_shader false 2 (encode [UFloat d1]) demo_world = None.
Proof.
  apply (draw_mesh_reads_past_arguments "gl.h" demo_mesh good_shader false [UFloat d1] 2
           demo_world wf_good_shader).
  cbn. lia.
Defined.

Lemma usable_demo_slot (a : Z) : 0 <= a < 16 -> usable_slot (driver demo_world) a.
Proof. intros Ha. unfold usable_slot. cbn. lia. Qed.

Lemma set_vertex_attribs_layout_witness :
  exists w',
    set_vertex_attribs "gl.h" good_shader demo_world = Some (tt, w')
    /\ attrib_pointers (gl_state w') !! 0 = Some (mkAttribPointer 2 GL_FLOAT GL_FALSE 20 0 5)
    /\ attrib_pointers (gl_state w') !! 1 = Some (mkAttribPointer 2 GL_FLOAT GL_FALSE 20 8 5)
    /\ attrib_pointers (gl_state w') !! 2
       = Some (mkAttribPointer 4 GL_UNSIGNED_BYTE GL_TRUE 20 16 5).
Proof.
  destruct (set_vertex_attribs_layout "gl.h" good_shader 0 1 2 demo_world quiet_demo_world
              wf_good_shader)
    as (w' & Hrun & H0 & H1 & H2 & _).
  - cbn. lia.
  - reflexivity.
  - reflexivity.
  - reflexivity.
  - apply usable_demo_slot. lia.
  - apply usable_demo_slot. lia.
  - discriminate.
  - intros _. split_and!; [apply usable_demo_slot; lia|discriminate|discriminate].
  - exists w'. split_and!; [exact Hrun|exact H0|exact H1|].
    apply H2. reflexivity.
Defined.

Lemma draw_mesh_streams_read_the_mesh_buffer_witness :
  exists w',
    draw_mesh "gl.h" demo_mesh good_shader true 2 (encode [UFloat d1; UColor white] ++ [])
              demo_world
    = Some (tt, w')
    /\ attrib_pointers (gl_state w') !! 0 = Some (pos_pointer 9)
    /\ array_buffer_binding (gl_state w') = 0
    /\ 2 ∈ attrib_arrays (gl_state w').
Proof.
  destruct (draw_mesh_streams_read_the_mesh_buffer "gl.h" demo_mesh good_shader true
              [UFloat d1; UColor white] [] 0 1 2 demo_world quiet_demo_world wf_good_shader)
    as (w' & Hrun & H0 & _ & _ & Hb & Hen & _).
  - cbn. lia.
  - cbn. lia.
  - reflexivity.
  - reflexivity.
  - reflexivity.
  - apply usable_demo_slot. lia.
  - apply usable_demo_slot. lia.
  - discriminate.
  - intros _. split_and!; [apply usable_demo_slot; lia|discriminate|discriminate].
  - exists w'. split_and!; [exact Hrun|exact H0|exact Hb|].
    apply (Hen 2%nat 2); [reflexivity|reflexivity|apply usable_demo_slot; lia].
Defined.

Lemma transform_quad_overwrites_in_place_witness :
  exists w' data',
    transform_quad "gl.h" demo_mesh (mkVec2 f0 f0) (mkVec2 f1 f2) buffered_world
    = Some (demo_mesh, w')
    /\ buffers (gl_state w') !! 9 = Some (mkBuffer 160 35044 data')
    /\ length data' = 8%nat
    /\ data' !! 7%nat = Some None.
Proof.
  destruct (transform_quad_overwrites_in_place "gl.h" demo_mesh (mkVec2 f0 f0) (mkVec2 f1 f2)
              (mkBuffer 160 35044 (replicate 8 None)) buffered_world)
    as (w' & data' & Hrun & Hbuf & Hlen & _ & Hrest & _).
  - intros k c. reflexivity.
  - discriminate.
  - reflexivity.
  - cbn. lia.
  - exists w', data'. split_and!; [exact Hrun|exact Hbuf|exact Hlen|].
    rewrite Hrest; [reflexivity|lia].
Defined.

Lemma transform_quad_without_buffer_witness :
  exists w',
    transform_quad "gl.h" demo_mesh (mkVec2 f0 f0) (mkVec2 f1 f2) demo_world
    = Some (demo_mesh, w')
    /\ buffers (gl_state w') = buffers (gl_state demo_world)
    /\ stdout w'
       = report_lines GL_INVALID_VALUE
           "glBufferSubData(GL_ARRAY_BUFFER, 0, sizeof(verts), verts)" "gl.h" 204.
Proof.
  destruct (transform_quad_without_buffer "gl.h" demo_mesh (mkVec2 f0 f0) (mkVec2 f1 f2)
              demo_world quiet_demo_world eq_refl)
    as (w' & Hrun & Hbuf & _ & Hout & _).
  - right. left. reflexivity.
  - exists w'. split_and!; [exact Hrun|exact Hbuf|exact Hout].
Defined.


Lemma allocate_tex_returns_garbage_when_gen_fails_witness :
  exists w',
    allocate_tex "gl.h" 64 64 None refusing_world = Some (12, w')
    /\ texture_binding_2d (gl_state w') = 12.
Proof.
  destruct (allocate_tex_returns_garbage_when_gen_fails "gl.h" 64 64 None refusing_world)
    as (w' & Hrun & _ & Hbound & _).
  - discriminate.
  - exists w'. split; [exact Hrun|]. apply Hbound. reflexivity.
Defined.

Lemma allocate_tex_reports_bad_size_witness :
  exists w',
    allocate_tex "gl.h" (-1) 64 None demo_world = Some (10, w')
    /\ texture_binding_2d (gl_state w') = 10
    /\ length (stdout w') = 2%nat.
Proof.
  destruct (allocate_tex_reports_bad_size "gl.h" (-1) 64 None demo_world quiet_demo_world
              eq_refl)
    as (w' & Hrun & Hbound & Hout & _).
  - left. lia.
  - exists w'. split_and!; [exact Hrun|exact Hbound|now rewrite Hout].
Defined.

Lemma print_compilation_errors_decides_on_garbage_witness :
  exists w',
    print_compilation_errors "gl.h" 11 "vertex" "main.cpp" 42 refusing_world = Some (tt, w')
    /\ calls w' = [GetShaderiv 11 GL_COMPILE_STATUS; GetShaderInfoLog 11 4096].
Proof.
  destruct (print_compilation_errors_decides_on_garbage "gl.h" 11 "vertex" "main.cpp" 42
              refusing_world)
    as (w' & Hrun & Hcalls & _).
  - discriminate.
  - exists w'. split; [exact Hrun|exact Hcalls].
Defined.

Lemma draw_mesh_restores_garbage_when_query_fails_witness :
  current_program (gl_state refusing_world) = 3
  /\ exists w',
       draw_mesh "gl.h" demo_mesh good_shader false 0 (encode [] ++ []) refusing_world
       = Some (tt, w')
       /\ current_program (gl_state w') = 12.
Proof.
  split; [reflexivity|].
  destruct (draw_mesh_restores_garbage_when_query_fails "gl.h" demo_mesh good_shader false
              [] [] refusing_world wf_good_shader)
    as (w' & Hrun & Hp & _).
  - cbn. lia.
  - cbn. lia.
  - discriminate.
  - intros k. reflexivity.
  - exists w'. split; [exact Hrun|exact Hp].
Defined.

Lemma set_vertex_attribs_overrun_witness :
  set_vertex_attribs "gl.h" (mkShader 7 9 0 [0; 1; 2; 3; 4; 5; 6; 7] [0; 0; 0; 0; 0; 0; 0; 0])
                     demo_world
  = None.
Proof.
  apply (set_vertex_attribs_overrun "gl.h"
           (mkShader 7 9 0 [0; 1; 2; 3; 4; 5; 6; 7] [0; 0; 0; 0; 0; 0; 0; 0]) demo_world).
  - split; reflexivity.
  - cbn. lia.
Defined.
